(** * bantuafrica: the request handlers of [app.py] over an explicit database

    The Flask application keeps all of its state in a relational database
    reached through SQLAlchemy.  Here the database is a record of tables, a
    table is the list of its rows, and every view function of [app.py] that
    writes to the database is a function from the database before the request
    to the database after it, paired with the response.

    Conventions of the embedding:
    - the default backend ([sqlite:///bantu.db]) is the one modelled: a new
      primary key is one more than the largest key of the table, NOT NULL and
      UNIQUE constraints are checked when the session is flushed by
      [db.session.commit()], VARCHAR lengths and foreign keys are not checked,
      and an integer query parameter beyond 64 bits makes the driver raise
      OverflowError;
    - an exception that escapes a view function ends the request with the
      session rolled back: the handler returns the database it started from
      together with [Raised e];
    - [datetime.utcnow()], the bcrypt digest and the outcome of [save_picture]
      (random file name, PIL decoding) are inputs of the request;
    - the session cookie is an optional user id, resolved by [load_user];
      [login_required] and the comparison of users by id are Flask-Login's,
      [get_or_404], [first_or_404] and [paginate] are Flask-SQLAlchemy's;
    - the views that only read ([profile], [user_profile], [view_post],
      [search], [login], [logout]) are left out; [home] and [api_feed] are in,
      for the feed. *)

From Stdlib Require Import List String Ascii ZArith Lia Bool Arith PeanoNat.
From Stdlib Require Import Permutation Sorted.
Import ListNotations.

Local Open Scope string_scope.
Local Open Scope list_scope.
Local Open Scope nat_scope.

(** ** Models *)

Definition datetime := Z.
Bind Scope Z_scope with datetime.

Module User.
Record t := mk
  { id : nat;
    username : string;               (* String(20), unique, NOT NULL *)
    email : string;                  (* String(120), unique, NOT NULL *)
    password : string;               (* String(60), NOT NULL *)
    profile_image : string;          (* NOT NULL, default 'default.jpg' *)
    bio : option string;             (* Text, default '' *)
    location : option string;        (* String(100) *)
    created_at : datetime }.
End User.

Module Post.
Record t := mk
  { id : nat;
    title : string;                  (* String(100), NOT NULL *)
    content : string;                (* Text, NOT NULL *)
    image : option string;           (* String(100) *)
    created_at : datetime;
    user_id : nat }.
End Post.

Module Like.
Record t := mk
  { id : nat;
    user_id : nat;
    post_id : nat;
    created_at : datetime }.

(* UniqueConstraint('user_id', 'post_id', name='unique_like') *)
Definition key (l : t) : nat * nat := (user_id l, post_id l).
End Like.

Module Comment.
Record t := mk
  { id : nat;
    content : string;                (* Text, NOT NULL *)
    created_at : datetime;
    user_id : nat;
    post_id : nat }.
End Comment.

Module Follow.
Record t := mk
  { id : nat;
    follower_id : nat;
    followed_id : nat;
    created_at : datetime }.

(* UniqueConstraint('follower_id', 'followed_id', name='unique_follow') *)
Definition key (f : t) : nat * nat := (follower_id f, followed_id f).
End Follow.

(** ** The database *)

Record DB := mkDB
  { users : list User.t;
    posts : list Post.t;
    likes : list Like.t;
    comments : list Comment.t;
    follows : list Follow.t }.

Definition empty_db : DB := mkDB [] [] [] [] [].

Definition set_users (db : DB) (us : list User.t) : DB :=
  mkDB us (posts db) (likes db) (comments db) (follows db).
Definition set_posts (db : DB) (ps : list Post.t) : DB :=
  mkDB (users db) ps (likes db) (comments db) (follows db).
Definition set_likes (db : DB) (ls : list Like.t) : DB :=
  mkDB (users db) (posts db) ls (comments db) (follows db).
Definition set_comments (db : DB) (cs : list Comment.t) : DB :=
  mkDB (users db) (posts db) (likes db) cs (follows db).
Definition set_follows (db : DB) (fs : list Follow.t) : DB :=
  mkDB (users db) (posts db) (likes db) (comments db) fs.

Section Table.
Variable row : Type.
Variable pk : row -> nat.

(* INTEGER PRIMARY KEY on SQLite: the next rowid is max(rowid) + 1. *)
Definition next_id (rows : list row) : nat := S (list_max (map pk rows)).

(* Query.get / session.get: lookup by primary key. *)
Definition get (rows : list row) (k : nat) : option row :=
  find (fun r => pk r =? k) rows.

(* DELETE ... WHERE id = k *)
Definition delete (rows : list row) (k : nat) : list row :=
  filter (fun r => negb (pk r =? k)) rows.

(* Query.filter_by(...).first() *)
Definition first (p : row -> bool) (rows : list row) : option row :=
  find p rows.
End Table.

Arguments next_id {row} pk rows.
Arguments get {row} pk rows k.
Arguments delete {row} pk rows k.
Arguments first {row} p rows.

(** ** Requests *)

Inductive http_method := GET | POST.

(* An uploaded file: its client-side name, and what [save_picture] does with
   it (the stored file name, or [None] when PIL raises on it). *)
Record FileStorage := mkFile
  { filename : string;
    saved : option string }.

Record request := mkRequest
  { method : http_method;
    form : list (string * string);
    files : list (string * FileStorage);
    utcnow : datetime;
    (* what bcrypt.generate_password_hash returns for a non-empty password in
       this request (the salt is random) *)
    bcrypt_digest : string }.

Section MultiDict.
Variable V : Type.

(* MultiDict.get: the first value stored under the key, or None *)
Definition dict_get (key : string) (d : list (string * V)) : option V :=
  match find (fun kv => String.eqb (fst kv) key) d with
  | Some kv => Some (snd kv)
  | None => None
  end.
End MultiDict.

Arguments dict_get {V} key d.

(* Python truth value of a form field: None and '' are false. *)
Definition truthy (v : option string) : bool :=
  match v with
  | Some s => negb (String.eqb s "")
  | None => false
  end.

(** ** Exceptions, responses *)

Inductive exn :=
| IntegrityError (constraint : string)
| ValueError (msg : string)
| AttributeError
| PictureError
| OverflowError.

(* One entry of the 'posts' array of /api/feed. *)
Record post_data := mkPostData
  { pd_id : nat;
    pd_title : string;
    pd_content : string;
    pd_image : option string;
    pd_created_at : datetime;
    pd_author_username : string;
    pd_author_profile_image : string;
    pd_like_count : nat;
    pd_comment_count : nat;
    pd_liked : bool }.

Inductive json_body :=
| LikeJson (liked : bool) (like_count : nat)
| ErrorJson (error : string)
| CommentJson (content author author_image : string) (created_at : datetime)
              (comment_count : nat)
| FeedJson (posts : list post_data) (has_next has_prev : bool) (page pages : Z).

Inductive response :=
| RenderTemplate (template : string)
| RenderIndex (posts : list Post.t) (suggested_users : list User.t)
| Redirect (endpoint : string) (username : option string)
           (flash : option (string * string))
| Jsonify (body : json_body) (status : nat)
| Abort (code : nat)
| LoginRedirect
| Raised (e : exn).

(** ** Integers sent to the database *)

(* SQLite stores 64-bit signed integers; the driver raises OverflowError when
   asked to bind a larger Python int as a query parameter. *)
Definition SQLITE_MAX_INT : Z := 9223372036854775807.

Definition fits_sqlite (k : Z) : bool := (k <=? SQLITE_MAX_INT)%Z.

(* Post.query.get_or_404(post_id) when no row has the id: the lookup raises
   for an id the driver cannot bind, and aborts with 404 otherwise. *)
Definition no_such_post (post_id : nat) : response :=
  if fits_sqlite (Z.of_nat post_id) then Abort 404 else Raised OverflowError.

(** ** Authentication glue *)

Definition load_user (db : DB) (user_id : nat) : option User.t :=
  get User.id (users db) user_id.

Definition current_user (db : DB) (session : option nat) : option User.t :=
  match session with
  | Some uid => load_user db uid
  | None => None
  end.

Definition login_required (db : DB) (session : option nat)
    (view : User.t -> DB * response) : DB * response :=
  match current_user db session with
  | Some cu => view cu
  | None => (db, LoginRedirect)
  end.

(** ** Likes *)

Definition like_by (uid pid : nat) (l : Like.t) : bool :=
  (Like.user_id l =? uid) && (Like.post_id l =? pid).

(* Post.like_count: len(self.likes), the relationship being loaded from the
   database at the time of the call. *)
Definition like_count (db : DB) (post : Post.t) : nat :=
  List.length (filter (fun l => Like.post_id l =? Post.id post) (likes db)).

Definition insert_like (db : DB) (uid pid : nat) (now : datetime) : exn + DB :=
  if existsb (like_by uid pid) (likes db)
  then inl (IntegrityError "unique_like")
  else inr (set_likes db
              (likes db ++ [Like.mk (next_id Like.id (likes db)) uid pid now])).

Definition delete_like (db : DB) (like : Like.t) : DB :=
  set_likes db (delete Like.id (likes db) (Like.id like)).

Definition like_post (db : DB) (session : option nat) (now : datetime)
    (post_id : nat) : DB * response :=
  login_required db session (fun cu =>
    match get Post.id (posts db) post_id with
    | None => (db, no_such_post post_id)
    | Some post =>
        match first (like_by (User.id cu) post_id) (likes db) with
        | Some like =>
            let db' := delete_like db like in
            (db', Jsonify (LikeJson false (like_count db' post)) 200)
        | None =>
            match insert_like db (User.id cu) post_id now with
            | inl e => (db, Raised e)
            | inr db' => (db', Jsonify (LikeJson true (like_count db' post)) 200)
            end
        end
    end).

(** ** Helper functions *)

Definition ALLOWED_EXTENSIONS : list string := ["png"; "jpg"; "jpeg"; "gif"].

Definition lower_ascii (c : ascii) : ascii :=
  let n := nat_of_ascii c in
  if (65 <=? n) && (n <=? 90) then ascii_of_nat (n + 32) else c.

Fixpoint lower (s : string) : string :=
  match s with
  | EmptyString => EmptyString
  | String c r => String (lower_ascii c) (lower r)
  end.

(* filename.rsplit('.', 1)[1] when '.' is in filename *)
Fixpoint rsplit_dot (s : string) : option string :=
  match s with
  | EmptyString => None
  | String c r =>
      match rsplit_dot r with
      | Some ext => Some ext
      | None => if Ascii.eqb c "."%char then Some r else None
      end
  end.

Definition allowed_file (filename : string) : bool :=
  match rsplit_dot filename with
  | Some ext => existsb (String.eqb (lower ext)) ALLOWED_EXTENSIONS
  | None => false
  end.

(* The upload block shared by [new_post] and [update_profile]:
     if field in request.files:
         file = request.files[field]
         if file and allowed_file(file.filename):
             filename = save_picture(file)
   A FileStorage is true when its filename is not empty. *)
Definition upload (req : request) (field : string) : exn + option string :=
  match dict_get field (files req) with
  | None => inr None
  | Some file =>
      if negb (String.eqb (filename file) "") && allowed_file (filename file)
      then match saved file with
           | Some picture_fn => inr (Some picture_fn)
           | None => inl PictureError
           end
      else inr None
  end.

(* UserMixin.__eq__ / __ne__: users are compared by get_id(). *)
Definition user_eq (a b : User.t) : bool := User.id a =? User.id b.

Definition by_username (name : string) (u : User.t) : bool :=
  String.eqb (User.username u) name.

Definition by_email (addr : string) (u : User.t) : bool :=
  String.eqb (User.email u) addr.

(** ** Posts *)

(* Post.author: the relationship through user_id *)
Definition author (db : DB) (post : Post.t) : option User.t :=
  get User.id (users db) (Post.user_id post).

Definition comment_count (db : DB) (post : Post.t) : nat :=
  List.length (filter (fun c => Comment.post_id c =? Post.id post) (comments db)).

(* INSERT INTO post: title and content are NOT NULL. *)
Definition insert_post (db : DB) (title content image : option string)
    (user_id : nat) (now : datetime) : exn + DB :=
  match title, content with
  | None, _ => inl (IntegrityError "NOT NULL constraint failed: post.title")
  | _, None => inl (IntegrityError "NOT NULL constraint failed: post.content")
  | Some t, Some c =>
      inr (set_posts db
             (posts db ++ [Post.mk (next_id Post.id (posts db)) t c image now user_id]))
  end.

Definition new_post (db : DB) (session : option nat) (req : request)
    : DB * response :=
  login_required db session (fun cu =>
    match method req with
    | POST =>
        let title := dict_get "title" (form req) in
        let content := dict_get "content" (form req) in
        if negb (truthy content)
        then (db, Redirect "new_post" None
                    (Some ("Post content cannot be empty!", "danger")))
        else
          match upload req "image" with
          | inl e => (db, Raised e)
          | inr image =>
              match insert_post db title content image (User.id cu) (utcnow req) with
              | inl e => (db, Raised e)
              | inr db' =>
                  (db', Redirect "home" None
                          (Some ("Your post has been created!", "success")))
              end
          end
    | GET => (db, RenderTemplate "create_post.html")
    end).

(* session.delete(post) with cascade="all, delete-orphan" on Post.likes and
   Post.comments *)
Definition delete_post_cascade (db : DB) (post : Post.t) : DB :=
  mkDB (users db)
       (delete Post.id (posts db) (Post.id post))
       (filter (fun l => negb (Like.post_id l =? Post.id post)) (likes db))
       (filter (fun c => negb (Comment.post_id c =? Post.id post)) (comments db))
       (follows db).

Definition delete_post (db : DB) (session : option nat) (post_id : nat)
    : DB * response :=
  login_required db session (fun cu =>
    match get Post.id (posts db) post_id with
    | None => (db, no_such_post post_id)
    | Some post =>
        let same_user :=
          match author db post with
          | Some a => user_eq a cu
          | None => false
          end in
        if negb same_user
        then (db, Redirect "home" None
                    (Some ("You cannot delete this post!", "danger")))
        else (delete_post_cascade db post,
              Redirect "home" None (Some ("Post deleted!", "success")))
    end).

(** ** Comments *)

Definition insert_comment (db : DB) (content : option string)
    (user_id post_id : nat) (now : datetime) : exn + DB :=
  match content with
  | None => inl (IntegrityError "NOT NULL constraint failed: comment.content")
  | Some c =>
      inr (set_comments db
             (comments db ++
              [Comment.mk (next_id Comment.id (comments db)) c now user_id post_id]))
  end.

(* [content] is data.get('content') of the JSON body. *)
Definition add_comment (db : DB) (session : option nat) (now : datetime)
    (post_id : nat) (content : option string) : DB * response :=
  login_required db session (fun cu =>
    match get Post.id (posts db) post_id with
    | None => (db, no_such_post post_id)
    | Some post =>
        if negb (truthy content)
        then (db, Jsonify (ErrorJson "Comment cannot be empty") 400)
        else
          match insert_comment db content (User.id cu) post_id now with
          | inl e => (db, Raised e)
          | inr db' =>
              (db', Jsonify
                      (CommentJson (match content with Some c => c | None => "" end)
                                   (User.username cu)
                                   ("/static/uploads/" ++ User.profile_image cu)%string
                                   now
                                   (comment_count db' post))
                      200)
          end
    end).

(** ** The follow graph *)

Definition edge (follower followed : nat) (f : Follow.t) : bool :=
  (Follow.follower_id f =? follower) && (Follow.followed_id f =? followed).

(* User.is_following:
     self.following.filter_by(followed_id=user.id).first() is not None *)
Definition is_following (db : DB) (self user : User.t) : bool :=
  match first (edge (User.id self) (User.id user)) (follows db) with
  | Some _ => true
  | None => false
  end.

Definition insert_follow (db : DB) (follower followed : nat) (now : datetime)
    : exn + DB :=
  if existsb (edge follower followed) (follows db)
  then inl (IntegrityError "unique_follow")
  else inr (set_follows db
              (follows db ++
               [Follow.mk (next_id Follow.id (follows db)) follower followed now])).

Definition follow_user (db : DB) (session : option nat) (now : datetime)
    (username : string) : DB * response :=
  login_required db session (fun cu =>
    match first (by_username username) (users db) with
    | None => (db, Abort 404)
    | Some user =>
        if user_eq cu user
        then (db, Redirect "user_profile" (Some username)
                    (Some ("You cannot follow yourself!", "danger")))
        else if is_following db cu user
        then (db, Redirect "user_profile" (Some username)
                    (Some (("You are already following " ++ username ++ "!")%string, "info")))
        else
          match insert_follow db (User.id cu) (User.id user) now with
          | inl e => (db, Raised e)
          | inr db' =>
              (db', Redirect "user_profile" (Some username)
                      (Some (("You are now following " ++ username ++ "!")%string, "success")))
          end
    end).

Definition unfollow_user (db : DB) (session : option nat) (username : string)
    : DB * response :=
  login_required db session (fun cu =>
    match first (by_username username) (users db) with
    | None => (db, Abort 404)
    | Some user =>
        match first (edge (User.id cu) (User.id user)) (follows db) with
        | Some follow =>
            (set_follows db (delete Follow.id (follows db) (Follow.id follow)),
             Redirect "user_profile" (Some username)
               (Some (("You have unfollowed " ++ username ++ "!")%string, "success")))
        | None => (db, Redirect "user_profile" (Some username) None)
        end
    end).

(** ** Accounts *)

(* INSERT INTO user: username and email are NOT NULL and unique. *)
Definition insert_user (db : DB) (username email : option string)
    (password : string) (now : datetime) : exn + DB :=
  match username, email with
  | None, _ => inl (IntegrityError "NOT NULL constraint failed: user.username")
  | _, None => inl (IntegrityError "NOT NULL constraint failed: user.email")
  | Some n, Some e =>
      if existsb (by_username n) (users db)
      then inl (IntegrityError "UNIQUE constraint failed: user.username")
      else if existsb (by_email e) (users db)
      then inl (IntegrityError "UNIQUE constraint failed: user.email")
      else inr (set_users db
                  (users db ++
                   [User.mk (next_id User.id (users db)) n e password
                            "default.jpg" (Some "") None now]))
  end.

(* filter_by(col=value).first() with a value that may be None: col IS NULL
   matches no row of a NOT NULL column. *)
Definition first_by (col : string -> User.t -> bool) (v : option string)
    (db : DB) : option User.t :=
  match v with
  | Some s => first (col s) (users db)
  | None => None
  end.

(* Python truth value of a query result: a row is true, None is false. *)
Definition found {A : Type} (r : option A) : bool :=
  match r with
  | Some _ => true
  | None => false
  end.

Definition opt_string_eqb (a b : option string) : bool :=
  match a, b with
  | Some x, Some y => String.eqb x y
  | None, None => true
  | _, _ => false
  end.

(* bcrypt refuses a password of more than 72 bytes. *)
Definition too_long_for_bcrypt (password : option string) : bool :=
  match password with
  | Some pw => 72 <? String.length pw
  | None => false
  end.

Definition register (db : DB) (session : option nat) (req : request)
    : DB * response :=
  match current_user db session with
  | Some _ => (db, Redirect "home" None None)
  | None =>
      match method req with
      | POST =>
          let username := dict_get "username" (form req) in
          let email := dict_get "email" (form req) in
          let password := dict_get "password" (form req) in
          let confirm_password := dict_get "confirm_password" (form req) in
          if negb (opt_string_eqb password confirm_password)
          then (db, Redirect "register" None
                      (Some ("Passwords do not match!", "danger")))
          else if found (first_by by_username username db)
          then (db, Redirect "register" None
                      (Some ("Username already exists!", "danger")))
          else if found (first_by by_email email db)
          then (db, Redirect "register" None
                      (Some ("Email already registered!", "danger")))
          else if negb (truthy password)
          then (db, Raised (ValueError "Password must be non-empty."))
          else if too_long_for_bcrypt password
          then (db, Raised (ValueError "password cannot be longer than 72 bytes"))
          else
            match insert_user db username email (bcrypt_digest req) (utcnow req) with
            | inl e => (db, Raised e)
            | inr db' =>
                (db', Redirect "login" None
                        (Some ("Account created successfully! Please log in.",
                               "success")))
            end
      | GET => (db, RenderTemplate "register.html")
      end
  end.

(* The session's copy of the current user while [update_profile] runs:
   username may be None there until the flush rejects it. *)
Record pending_user := mkPending
  { p_id : nat;
    p_username : option string;
    p_bio : option string;
    p_location : option string;
    p_profile_image : string }.

(* current_user.username = request.form.get('username'), and so on *)
Definition assign_profile (cu : User.t) (req : request) : pending_user :=
  mkPending (User.id cu)
            (dict_get "username" (form req))
            (dict_get "bio" (form req))
            (dict_get "location" (form req))
            (User.profile_image cu).

(* current_user.profile_image = filename, when a picture was saved *)
Definition assign_picture (p : pending_user) (picture : option string)
    : pending_user :=
  match picture with
  | Some picture_fn =>
      mkPending (p_id p) (p_username p) (p_bio p) (p_location p) picture_fn
  | None => p
  end.

Definition write_user (p : pending_user) (n : string) (u : User.t) : User.t :=
  if User.id u =? p_id p
  then User.mk (User.id u) n (User.email u) (User.password u)
               (p_profile_image p) (p_bio p) (p_location p) (User.created_at u)
  else u.

(* UPDATE user SET ... WHERE id = ?, under NOT NULL and UNIQUE on username. *)
Definition update_user (db : DB) (p : pending_user) : exn + DB :=
  match p_username p with
  | None => inl (IntegrityError "NOT NULL constraint failed: user.username")
  | Some n =>
      if existsb (fun u => by_username n u && negb (User.id u =? p_id p)) (users db)
      then inl (IntegrityError "UNIQUE constraint failed: user.username")
      else inr (set_users db (map (write_user p n) (users db)))
  end.

Definition update_profile (db : DB) (session : option nat) (req : request)
    : DB * response :=
  login_required db session (fun cu =>
    match method req with
    | POST =>
        let pending := assign_profile cu req in
        match upload req "profile_image" with
        | inl e => (db, Raised e)
        | inr picture =>
            match update_user db (assign_picture pending picture) with
            | inl e => (db, Raised e)
            | inr db' =>
                (db', Redirect "profile" None
                        (Some ("Profile updated successfully!", "success")))
            end
        end
    | GET => (db, RenderTemplate "update_profile.html")
    end).

(* initialize_database: db.create_all() and the default 'admin' account *)
Definition initialize_database (db : DB) (now : datetime) (digest : string) : DB :=
  match first (by_username "admin") (users db) with
  | Some _ => db
  | None =>
      match insert_user db (Some "admin") (Some "admin@bantu.africa") digest now with
      | inl _ => db
      | inr db' => db'
      end
  end.

(** ** The feed *)

(* [f.followed_id for f in current_user.following] *)
Definition following_ids (db : DB) (cu : User.t) : list nat :=
  map Follow.followed_id
      (filter (fun f => Follow.follower_id f =? User.id cu) (follows db)).

(* Post.user_id.in_(ids) *)
Definition in_ (ids : list nat) (k : nat) : bool := existsb (Nat.eqb k) ids.

(* ORDER BY created_at DESC, as a stable insertion sort of the table order;
   SQL leaves the order of rows with equal timestamps open. *)
Fixpoint insert_desc (p : Post.t) (sorted : list Post.t) : list Post.t :=
  match sorted with
  | [] => [p]
  | q :: rest =>
      if (Post.created_at q <=? Post.created_at p)%Z
      then p :: q :: rest
      else q :: insert_desc p rest
  end.

Definition order_by_created_at_desc (rows : list Post.t) : list Post.t :=
  fold_right insert_desc [] rows.

(* The order a result of ORDER BY created_at DESC has to respect. *)
Definition newer_first (p q : Post.t) : Prop :=
  (Post.created_at q <= Post.created_at p)%Z.

(* Post.query.filter(Post.user_id.in_(post_ids))
             .order_by(Post.created_at.desc()) *)
Definition feed_query (db : DB) (cu : User.t) : list Post.t :=
  let post_ids := following_ids db cu ++ [User.id cu] in
  order_by_created_at_desc
    (filter (fun p => in_ post_ids (Post.user_id p)) (posts db)).

Definition suggested_users (db : DB) (cu : User.t) : list User.t :=
  firstn 5
    (filter (fun u => negb (User.id u =? User.id cu)
                      && negb (in_ (following_ids db cu) (User.id u)))
            (users db)).

Definition home (db : DB) (session : option nat) : DB * response :=
  match current_user db session with
  | Some cu => (db, RenderIndex (feed_query db cu) (suggested_users db cu))
  | None => (db, RenderTemplate "home.html")
  end.

(* Flask-SQLAlchemy's Pagination of a query result, with error_out=True:
   page < 1 aborts with 404, and so does an empty page other than the first. *)
Module Pagination.
Record t := mk
  { items : list Post.t;
    page : Z;
    per_page : nat;
    total : nat }.

(* 0 when total is 0, else ceil(total / per_page) *)
Definition pages (p : t) : Z :=
  if total p =? 0 then 0%Z
  else Z.of_nat ((total p + per_page p - 1) / per_page p).

Definition has_prev (p : t) : bool := (1 <? page p)%Z.
Definition has_next (p : t) : bool := (page p <? pages p)%Z.
End Pagination.

(* Query.paginate(page=page, per_page=per_page):
   LIMIT per_page OFFSET (page - 1) * per_page, and a count of the query *)
Definition paginate (query : list Post.t) (page : Z) (per_page : nat)
    : option Pagination.t :=
  if (page <? 1)%Z then None
  else
    let items := firstn per_page (skipn (Z.to_nat (page - 1) * per_page) query) in
    match items with
    | [] => if (page =? 1)%Z
            then Some (Pagination.mk items page per_page (List.length query))
            else None
    | _ :: _ => Some (Pagination.mk items page per_page (List.length query))
    end.

Definition liked_by (db : DB) (cu : User.t) (post : Post.t) : bool :=
  found (first (like_by (User.id cu) (Post.id post)) (likes db)).

(* One dictionary of posts_data; post.author is None for a dangling user_id,
   and post.author.username then raises. *)
Definition post_json (db : DB) (cu : User.t) (post : Post.t) : exn + post_data :=
  match author db post with
  | None => inl AttributeError
  | Some a =>
      inr (mkPostData (Post.id post) (Post.title post) (Post.content post)
                      (Post.image post) (Post.created_at post)
                      (User.username a) (User.profile_image a)
                      (like_count db post) (comment_count db post)
                      (liked_by db cu post))
  end.

Fixpoint posts_json (db : DB) (cu : User.t) (ps : list Post.t)
    : exn + list post_data :=
  match ps with
  | [] => inr []
  | post :: rest =>
      match post_json db cu post with
      | inl e => inl e
      | inr d =>
          match posts_json db cu rest with
          | inl e => inl e
          | inr ds => inr (d :: ds)
          end
      end
  end.

(* [page] is request.args.get('page', 1, type=int). *)
Definition api_feed (db : DB) (session : option nat) (page : Z) : DB * response :=
  login_required db session (fun cu =>
    let per_page := 10 in
    (* OFFSET (page - 1) * per_page is bound as a query parameter once
       paginate has let the page number through *)
    if (1 <=? page)%Z && negb (fits_sqlite ((page - 1) * Z.of_nat per_page))
    then (db, Raised OverflowError)
    else
    match paginate (feed_query db cu) page per_page with
    | None => (db, Abort 404)
    | Some posts =>
        match posts_json db cu (Pagination.items posts) with
        | inl e => (db, Raised e)
        | inr posts_data =>
            (db, Jsonify (FeedJson posts_data
                                   (Pagination.has_next posts)
                                   (Pagination.has_prev posts)
                                   (Pagination.page posts)
                                   (Pagination.pages posts)) 200)
        end
    end).

(** ** The application as a transition system *)

Inductive action :=
| Initialize (now : datetime) (digest : string)
| Register (session : option nat) (req : request)
| UpdateProfile (session : option nat) (req : request)
| NewPost (session : option nat) (req : request)
| DeletePost (session : option nat) (post_id : nat)
| LikePost (session : option nat) (now : datetime) (post_id : nat)
| AddComment (session : option nat) (now : datetime) (post_id : nat)
             (content : option string)
| FollowUser (session : option nat) (now : datetime) (username : string)
| UnfollowUser (session : option nat) (username : string)
| Home (session : option nat)
| ApiFeed (session : option nat) (page : Z).

Definition handle (db : DB) (a : action) : DB * response :=
  match a with
  | Initialize now digest => (initialize_database db now digest, RenderTemplate "")
  | Register session req => register db session req
  | UpdateProfile session req => update_profile db session req
  | NewPost session req => new_post db session req
  | DeletePost session post_id => delete_post db session post_id
  | LikePost session now post_id => like_post db session now post_id
  | AddComment session now post_id content =>
      add_comment db session now post_id content
  | FollowUser session now username => follow_user db session now username
  | UnfollowUser session username => unfollow_user db session username
  | Home session => home db session
  | ApiFeed session page => api_feed db session page
  end.

(* The states the application can bring the database to, from empty tables. *)
Inductive reachable : DB -> Prop :=
| reachable_empty : reachable empty_db
| reachable_step db a : reachable db -> reachable (fst (handle db a)).

(* The PRIMARY KEY and UNIQUE constraints of the schema. *)
Record schema_ok (db : DB) : Prop := mkSchemaOk
  { users_pk : NoDup (map User.id (users db));
    users_username : NoDup (map User.username (users db));
    users_email : NoDup (map User.email (users db));
    posts_pk : NoDup (map Post.id (posts db));
    likes_pk : NoDup (map Like.id (likes db));
    unique_like : NoDup (map Like.key (likes db));
    comments_pk : NoDup (map Comment.id (comments db));
    follows_pk : NoDup (map Follow.id (follows db));
    unique_follow : NoDup (map Follow.key (follows db)) }.

(* Every post has the row of its author (the foreign key post.user_id, which
   SQLite does not check by itself). *)
Definition authors_exist (db : DB) : Prop :=
  forall p, In p (posts db) -> author db p <> None.

(* The like-state and the follow-state read back from the tables. *)
Definition has_like (db : DB) (uid pid : nat) : bool :=
  existsb (like_by uid pid) (likes db).

Definition has_edge (db : DB) (follower followed : nat) : bool :=
  existsb (edge follower followed) (follows db).

(** ** Sample data *)

Definition alice : User.t :=
  User.mk 1 "alice" "a@x.com" "$2b$12$a" "default.jpg" (Some "") None 100.
Definition bob : User.t :=
  User.mk 2 "bob" "b@x.com" "$2b$12$b" "default.jpg" (Some "") None 101.
Definition hello : Post.t := Post.mk 1 "hello" "world" None 200 1.

Definition sample_db : DB := mkDB [alice; bob] [hello] [] [] [].

(* bob follows alice and likes her post *)
Definition sample_db_liked : DB :=
  mkDB [alice; bob] [hello] [Like.mk 1 2 1 300] [] [Follow.mk 1 2 1 150].

Definition post_request (fields : list (string * string)) : request :=
  mkRequest POST fields [] 400 "$2b$12$c".

(* alice and bob register, bob follows alice, alice posts, bob reads his
   feed, likes the post, takes the like back and comments. *)
Definition scenario : list action :=
  [ Register None (mkRequest POST
      [("username", "alice"); ("email", "a@x.com");
       ("password", "pw1"); ("confirm_password", "pw1")] [] 10 "$2b$12$a");
    Register None (mkRequest POST
      [("username", "bob"); ("email", "b@x.com");
       ("password", "pw2"); ("confirm_password", "pw2")] [] 11 "$2b$12$b");
    FollowUser (Some 2) 12 "alice";
    NewPost (Some 1) (mkRequest POST
      [("title", "hello"); ("content", "world")] [] 13 "");
    ApiFeed (Some 2) 1;
    LikePost (Some 2) 14 1;
    LikePost (Some 2) 15 1;
    AddComment (Some 2) 16 1 (Some "nice") ].

Fixpoint run (db : DB) (actions : list action) : DB * list response :=
  match actions with
  | [] => (db, [])
  | a :: rest =>
      let '(db1, r) := handle db a in
      let '(db2, rs) := run db1 rest in
      (db2, r :: rs)
  end.

(** ** Views that only read, and the session *)

(* What a view that renders a page gives back: its template context, an
   abort, or the redirect of [login_required]. *)
Inductive rendered (A : Type) :=
| Page (context : A)
| PageAbort (code : nat)
| PageLoginRedirect
| PageRaised (e : exn).

Arguments Page {A} context.
Arguments PageAbort {A} code.
Arguments PageLoginRedirect {A}.
Arguments PageRaised {A} e.

(* Post.query.filter_by(user_id=user.id).order_by(Post.created_at.desc()) *)
Definition posts_of (db : DB) (user : User.t) : list Post.t :=
  order_by_created_at_desc
    (filter (fun p => Post.user_id p =? User.id user) (posts db)).

(* user.followers.count() and user.following.count() *)
Definition followers_count (db : DB) (user : User.t) : nat :=
  List.length (filter (fun f => Follow.followed_id f =? User.id user) (follows db)).

Definition following_count (db : DB) (user : User.t) : nat :=
  List.length (filter (fun f => Follow.follower_id f =? User.id user) (follows db)).

Record profile_context := mkProfile
  { pc_user : User.t;
    pc_posts : list Post.t;
    pc_followers_count : nat;
    pc_following_count : nat }.

Definition profile (db : DB) (session : option nat) : rendered profile_context :=
  match current_user db session with
  | None => PageLoginRedirect
  | Some cu =>
      Page (mkProfile cu (posts_of db cu)
                      (followers_count db cu) (following_count db cu))
  end.

Record user_profile_context := mkUserProfile
  { upc_user : User.t;
    upc_posts : list Post.t;
    upc_is_following : option bool;     (* None on one's own page *)
    upc_followers_count : nat;
    upc_following_count : nat }.

Definition user_profile (db : DB) (session : option nat) (username : string)
    : rendered user_profile_context :=
  match current_user db session with
  | None => PageLoginRedirect
  | Some cu =>
      match first (by_username username) (users db) with
      | None => PageAbort 404
      | Some user =>
          Page (mkUserProfile user (posts_of db user)
                  (if negb (user_eq cu user)
                   then Some (is_following db cu user)
                   else None)
                  (followers_count db user) (following_count db user))
      end
  end.

Definition view_post (db : DB) (session : option nat) (post_id : nat)
    : rendered Post.t :=
  match current_user db session with
  | None => PageLoginRedirect
  | Some _ =>
      match get Post.id (posts db) post_id with
      | None => if fits_sqlite (Z.of_nat post_id) then PageAbort 404
                else PageRaised OverflowError
      | Some post => Page post
      end
  end.

Record search_context := mkSearch
  { sc_query : string;
    sc_users : list User.t;
    sc_posts : list Post.t }.

(* column.contains(query) on a column that may be NULL: NULL matches nothing *)
Definition contains_opt (contains : string -> string -> bool)
    (column : option string) (query : string) : bool :=
  match column with
  | Some value => contains value query
  | None => false
  end.

(* [contains value query] is the substring match of the database (LIKE);
   [q] is the query parameter, request.args.get('q', '') giving '' for None. *)
Definition search (contains : string -> string -> bool) (db : DB)
    (session : option nat) (q : option string) : rendered search_context :=
  match current_user db session with
  | None => PageLoginRedirect
  | Some _ =>
      let query := match q with Some s => s | None => "" end in
      if negb (String.eqb query "")
      then Page (mkSearch query
                   (filter (fun u => contains (User.username u) query
                                     || contains_opt contains (User.bio u) query)
                           (users db))
                   (filter (fun p => contains (Post.content p) query
                                     || contains (Post.title p) query)
                           (posts db)))
      else Page (mkSearch query [] [])
  end.

Inductive login_response :=
| LoginRedirectTo (next_page : string)
| LoginRedirectHome
| LoginPage (flash : option (string * string))
| LoginRaised (e : exn).

(* [check_password_hash pw_hash password] is bcrypt's verdict, or the
   exception it raises (a password that is None, a malformed hash);
   [next_page] is request.args.get('next').  The session cookie is the state
   here: login_user stores the id of the user. *)
Definition login (check_password_hash : string -> option string -> exn + bool)
    (db : DB) (session : option nat) (req : request) (next_page : option string)
    : option nat * login_response :=
  match current_user db session with
  | Some _ => (session, LoginRedirectHome)
  | None =>
      match method req with
      | POST =>
          let email := dict_get "email" (form req) in
          let password := dict_get "password" (form req) in
          let failed :=
            (session,
             LoginPage (Some ("Login failed. Check email and password.", "danger"))) in
          match first_by by_email email db with
          | None => failed
          | Some user =>
              match check_password_hash (User.password user) password with
              | inl e => (session, LoginRaised e)
              | inr true =>
                  (Some (User.id user),
                   match next_page with
                   | Some url => if negb (String.eqb url "")
                                 then LoginRedirectTo url
                                 else LoginRedirectHome
                   | None => LoginRedirectHome
                   end)
              | inr false => failed
              end
          end
      | GET => (session, LoginPage None)
      end
  end.

Definition logout (db : DB) (session : option nat) : option nat * response :=
  match current_user db session with
  | None => (session, LoginRedirect)
  | Some _ => (None, Redirect "home" None None)
  end.

(** ** Properties of states *)

(* The requests that go through [login_required]. *)
Definition protected (a : action) : option (option nat) :=
  match a with
  | UpdateProfile session _ | NewPost session _ | DeletePost session _
  | LikePost session _ _ | AddComment session _ _ _
  | FollowUser session _ _ | UnfollowUser session _ | ApiFeed session _ =>
      Some session
  | Initialize _ _ | Register _ _ | Home _ => None
  end.

Definition no_self_follow (db : DB) : Prop :=
  forall f, In f (follows db) -> Follow.follower_id f <> Follow.followed_id f.

Definition user_exists (db : DB) (uid : nat) : Prop :=
  In uid (map User.id (users db)).

Definition post_exists (db : DB) (pid : nat) : Prop :=
  In pid (map Post.id (posts db)).

(* What the ForeignKey columns of the models point to is there. *)
Record foreign_keys_ok (db : DB) : Prop := mkForeignKeysOk
  { fk_post_user : forall p, In p (posts db) -> user_exists db (Post.user_id p);
    fk_like_user : forall l, In l (likes db) -> user_exists db (Like.user_id l);
    fk_like_post : forall l, In l (likes db) -> post_exists db (Like.post_id l);
    fk_comment_user :
      forall c, In c (comments db) -> user_exists db (Comment.user_id c);
    fk_comment_post :
      forall c, In c (comments db) -> post_exists db (Comment.post_id c);
    fk_follower :
      forall f, In f (follows db) -> user_exists db (Follow.follower_id f);
    fk_followed :
      forall f, In f (follows db) -> user_exists db (Follow.followed_id f) }.

Definition contents_nonempty (db : DB) : Prop :=
  (forall p, In p (posts db) -> Post.content p <> "") /\
  (forall c, In c (comments db) -> Comment.content c <> "").

(* bcrypt stand-in for the examples: a password verifies against itself *)
Definition plain_check (pw_hash : string) (password : option string)
    : exn + bool :=
  match password with
  | Some pw => inr (String.eqb pw_hash pw)
  | None => inl (ValueError "password")
  end.

(* '.' in filename *)
Fixpoint contains_dot (s : string) : bool :=
  match s with
  | EmptyString => false
  | String c rest => Ascii.eqb c "."%char || contains_dot rest
  end.

(* The writes a request can commit: what the view functions do to the
   tables, with the facts the handler has checked before. *)
Inductive db_write (db : DB) : DB -> Prop :=
| write_nothing : db_write db db
| write_new_user (u : User.t) :
    db_write db (set_users db (users db ++ [u]))
| write_profile (p : pending_user) (n : string) :
    db_write db (set_users db (map (write_user p n) (users db)))
| write_new_post (cu : User.t) (title content : string) (image : option string)
                 (now : datetime) :
    In cu (users db) -> content <> "" ->
    db_write db (set_posts db
                   (posts db ++ [Post.mk (next_id Post.id (posts db)) title content
                                         image now (User.id cu)]))
| write_delete_post (post : Post.t) :
    db_write db (delete_post_cascade db post)
| write_new_like (cu : User.t) (post : Post.t) (now : datetime) :
    In cu (users db) -> In post (posts db) ->
    db_write db (set_likes db
                   (likes db ++ [Like.mk (next_id Like.id (likes db))
                                         (User.id cu) (Post.id post) now]))
| write_delete_like (like : Like.t) :
    db_write db (delete_like db like)
| write_new_comment (cu : User.t) (post : Post.t) (content : string)
                    (now : datetime) :
    In cu (users db) -> In post (posts db) -> content <> "" ->
    db_write db (set_comments db
                   (comments db ++
                    [Comment.mk (next_id Comment.id (comments db)) content now
                                (User.id cu) (Post.id post)]))
| write_new_follow (cu user : User.t) (now : datetime) :
    In cu (users db) -> In user (users db) -> User.id cu <> User.id user ->
    db_write db (set_follows db
                   (follows db ++ [Follow.mk (next_id Follow.id (follows db))
                                             (User.id cu) (User.id user) now]))
| write_delete_follow (k : nat) :
    db_write db (set_follows db (delete Follow.id (follows db) k)).

(** * Facts about tables *)

Section TableFacts.
Variable row : Type.
Variable pk : row -> nat.

Lemma next_id_fresh (rows : list row) (r : row) :
  In r rows -> pk r < next_id pk rows.
Proof.
  intros Hin. unfold next_id.
  assert (H : Forall (fun k => k <= list_max (map pk rows)) (map pk rows))
    by (apply list_max_le; lia).
  rewrite Forall_forall in H.
  specialize (H (pk r) (in_map pk _ _ Hin)). lia.
Qed.

Lemma get_some (rows : list row) (k : nat) (r : row) :
  get pk rows k = Some r -> In r rows /\ pk r = k.
Proof.
  unfold get. intros H. apply find_some in H. destruct H as [Hin Hk].
  apply Nat.eqb_eq in Hk. auto.
Qed.

Lemma in_delete (rows : list row) (k : nat) (r : row) :
  In r (delete pk rows k) <-> In r rows /\ pk r <> k.
Proof.
  unfold delete. rewrite filter_In, negb_true_iff, Nat.eqb_neq. reflexivity.
Qed.

Lemma pk_append (rows : list row) (r : row) :
  NoDup (map pk rows) -> pk r = next_id pk rows ->
  NoDup (map pk (rows ++ [r])).
Proof.
  intros Hnd Hr. rewrite map_app. simpl.
  apply NoDup_app; [assumption | repeat constructor; simpl; tauto | ].
  intros k Hk [Hk' | []]. subst k.
  apply in_map_iff in Hk. destruct Hk as [r' [Heq Hin]].
  apply next_id_fresh in Hin. lia.
Qed.
End TableFacts.

Section KeyFacts.
Variables row K : Type.
Variable key : row -> K.

Lemma NoDup_key_inj (rows : list row) (x y : row) :
  NoDup (map key rows) -> In x rows -> In y rows -> key x = key y -> x = y.
Proof.
  induction rows as [| r rows IH]; simpl; intros Hnd Hx Hy Heq; [contradiction |].
  inversion Hnd as [| k ks Hnotin Hnd']; subst.
  destruct Hx as [-> | Hx], Hy as [-> | Hy]; auto.
  - exfalso. apply Hnotin. rewrite Heq. now apply in_map.
  - exfalso. apply Hnotin. rewrite <- Heq. now apply in_map.
Qed.

Lemma NoDup_key_filter (p : row -> bool) (rows : list row) :
  NoDup (map key rows) -> NoDup (map key (filter p rows)).
Proof.
  induction rows as [| r rows IH]; simpl; intros Hnd; [constructor |].
  inversion Hnd as [| k ks Hnotin Hnd']; subst.
  destruct (p r); simpl; auto.
  constructor; auto.
  intros Hin. apply Hnotin.
  apply in_map_iff in Hin. destruct Hin as [r' [Heq Hin]].
  apply filter_In in Hin. rewrite <- Heq. apply in_map. tauto.
Qed.

Lemma NoDup_key_append (rows : list row) (r : row) :
  NoDup (map key rows) -> (forall r', In r' rows -> key r' <> key r) ->
  NoDup (map key (rows ++ [r])).
Proof.
  intros Hnd Hfresh. rewrite map_app. simpl.
  apply NoDup_app; [assumption | repeat constructor; simpl; tauto | ].
  intros k Hk [Hk' | []]. subst k.
  apply in_map_iff in Hk. destruct Hk as [r' [Heq Hin]].
  now apply (Hfresh r').
Qed.
End KeyFacts.

(* Deleting by primary key takes exactly the one row away. *)
Lemma count_delete (row : Type) (pk : row -> nat) (p : row -> bool)
    (rows : list row) (r : row) :
  NoDup (map pk rows) -> In r rows ->
  List.length (filter p rows) =
  List.length (filter p (delete pk rows (pk r))) + (if p r then 1 else 0).
Proof.
  induction rows as [| x rows IH]; simpl; intros Hnd Hin; [contradiction |].
  inversion Hnd as [| k ks Hnotin Hnd']; subst.
  destruct Hin as [-> | Hin].
  - rewrite Nat.eqb_refl. simpl.
    replace (delete pk rows (pk r)) with rows.
    + destruct (p r); simpl; lia.
    + unfold delete. symmetry. apply forallb_filter_id.
      apply forallb_forall. intros y Hy.
      apply negb_true_iff, Nat.eqb_neq. intros Heq.
      apply Hnotin. rewrite <- Heq. now apply in_map.
  - assert (Hne : pk x <> pk r).
    { intros Heq. apply Hnotin. rewrite Heq. now apply in_map. }
    apply Nat.eqb_neq in Hne. rewrite Hne. simpl.
    specialize (IH Hnd' Hin).
    destruct (p x); simpl; lia.
Qed.

(** * Likes *)

Lemma found_find (A : Type) (p : A -> bool) (l : list A) :
  found (find p l) = existsb p l.
Proof.
  induction l as [| x l IH]; simpl; [reflexivity |].
  destruct (p x); simpl; auto.
Qed.

Lemma has_like_iff (db : DB) (uid pid : nat) :
  has_like db uid pid = true <->
  exists l, In l (likes db) /\ Like.user_id l = uid /\ Like.post_id l = pid.
Proof.
  unfold has_like. rewrite existsb_exists. unfold like_by.
  split; intros [l [Hin H]]; exists l; split; auto.
  - apply andb_true_iff in H. now rewrite !Nat.eqb_eq in H.
  - apply andb_true_iff. now rewrite !Nat.eqb_eq.
Qed.

Lemma like_by_key (uid pid : nat) (l : Like.t) :
  like_by uid pid l = true <-> Like.key l = (uid, pid).
Proof.
  unfold like_by, Like.key. rewrite andb_true_iff, !Nat.eqb_eq.
  split; [intros [-> ->]; reflexivity | intros H; inversion H; auto].
Qed.

Lemma schema_ok_set_likes (db : DB) (ls : list Like.t) :
  schema_ok db -> NoDup (map Like.id ls) -> NoDup (map Like.key ls) ->
  schema_ok (set_likes db ls).
Proof.
  intros [] Hpk Hkey. constructor; simpl; assumption.
Qed.

(* The unlike branch: the row found by first() is deleted. *)
Lemma like_post_unlike (db : DB) (session : option nat) (cu : User.t)
    (now : datetime) (post_id : nat) (post : Post.t) (like : Like.t) :
  current_user db session = Some cu ->
  get Post.id (posts db) post_id = Some post ->
  first (like_by (User.id cu) post_id) (likes db) = Some like ->
  like_post db session now post_id =
  (delete_like db like,
   Jsonify (LikeJson false (like_count (delete_like db like) post)) 200).
Proof.
  intros Hcu Hpost Hlike. unfold like_post, login_required.
  now rewrite Hcu, Hpost, Hlike.
Qed.

(* The like branch: the insert passes the unique_like constraint. *)
Lemma like_post_like (db : DB) (session : option nat) (cu : User.t)
    (now : datetime) (post_id : nat) (post : Post.t) :
  current_user db session = Some cu ->
  get Post.id (posts db) post_id = Some post ->
  first (like_by (User.id cu) post_id) (likes db) = None ->
  let db' := set_likes db (likes db ++
               [Like.mk (next_id Like.id (likes db)) (User.id cu) post_id now]) in
  like_post db session now post_id =
  (db', Jsonify (LikeJson true (like_count db' post)) 200).
Proof.
  intros Hcu Hpost Hlike. unfold like_post, login_required.
  rewrite Hcu, Hpost, Hlike. unfold insert_like.
  assert (Hex : existsb (like_by (User.id cu) post_id) (likes db) = false).
  { rewrite <- found_find. unfold first in Hlike. now rewrite Hlike. }
  now rewrite Hex.
Qed.

Lemma like_post_spec (db : DB) (session : option nat) (cu : User.t)
    (now : datetime) (post_id : nat) (post : Post.t) :
  schema_ok db ->
  current_user db session = Some cu ->
  get Post.id (posts db) post_id = Some post ->
  let was := has_like db (User.id cu) post_id in
  let db' := fst (like_post db session now post_id) in
  snd (like_post db session now post_id) =
    Jsonify (LikeJson (negb was) (like_count db' post)) 200 /\
  has_like db' (User.id cu) post_id = negb was /\
  (was = true ->
   (forall l, In l (likes db') <->
              In l (likes db) /\ Like.key l <> (User.id cu, post_id)) /\
   S (like_count db' post) = like_count db post) /\
  (was = false ->
   likes db' = likes db ++
               [Like.mk (next_id Like.id (likes db)) (User.id cu) post_id now] /\
   like_count db' post = S (like_count db post)) /\
  users db' = users db /\ posts db' = posts db /\
  comments db' = comments db /\ follows db' = follows db /\
  schema_ok db'.
Proof.
  intros Hok Hcu Hpost was db'.
  pose proof (get_some _ _ _ _ _ Hpost) as [_ Hpid].
  destruct (first (like_by (User.id cu) post_id) (likes db)) as [like |] eqn:Hlike.
  - (* unlike *)
    pose proof (like_post_unlike _ _ _ now _ _ _ Hcu Hpost Hlike) as Heq.
    assert (Hwas : was = true).
    { unfold was, has_like. rewrite <- found_find.
      unfold first in Hlike. now rewrite Hlike. }
    unfold first in Hlike. apply find_some in Hlike. destruct Hlike as [Hin Hby].
    assert (Hchar : forall l, In l (delete Like.id (likes db) (Like.id like)) <->
                   In l (likes db) /\ Like.key l <> (User.id cu, post_id)).
    { intros l. rewrite in_delete. apply like_by_key in Hby.
      split; intros [Hl Hne]; split; auto.
      - intros Hk. apply Hne. f_equal.
        apply (NoDup_key_inj _ _ Like.key (likes db)); auto using unique_like. congruence.
      - intros Hid. apply Hne.
        assert (l = like)
          by (apply (NoDup_key_inj _ _ Like.id (likes db)); auto using likes_pk).
        congruence. }
    subst db'. rewrite Heq. simpl. rewrite Hwas. simpl.
    refine (conj eq_refl (conj _ (conj _ (conj _
             (conj eq_refl (conj eq_refl (conj eq_refl (conj eq_refl _)))))))).
    + apply not_true_is_false. intros H. apply has_like_iff in H.
      destruct H as [l [Hl [Hu Hp]]]. simpl in Hl. apply Hchar in Hl.
      apply (proj2 Hl). unfold Like.key. congruence.
    + intros _. split; [exact Hchar |].
      unfold like_count. simpl.
      rewrite (count_delete _ Like.id (fun l => Like.post_id l =? Post.id post)
                 (likes db) like (likes_pk _ Hok) Hin).
      apply like_by_key in Hby. unfold Like.key in Hby. inversion Hby as [[Hu Hp]].
      rewrite Hp, Hpid, Nat.eqb_refl. lia.
    + discriminate.
    + apply schema_ok_set_likes; auto; apply NoDup_key_filter;
        auto using likes_pk, unique_like.
  - (* like *)
    pose proof (like_post_like _ _ _ now _ _ Hcu Hpost Hlike) as Heq. simpl in Heq.
    assert (Hwas : was = false).
    { unfold was, has_like. rewrite <- found_find.
      unfold first in Hlike. now rewrite Hlike. }
    subst db'. rewrite Heq. simpl. rewrite Hwas. simpl.
    refine (conj eq_refl (conj _ (conj _ (conj _
             (conj eq_refl (conj eq_refl (conj eq_refl (conj eq_refl _)))))))).
    + apply has_like_iff. eexists. split.
      * simpl. apply in_or_app. right. left. reflexivity.
      * simpl. auto.
    + discriminate.
    + intros _. split; [reflexivity |].
      unfold like_count. simpl. rewrite filter_app, length_app. simpl.
      rewrite Hpid, Nat.eqb_refl. simpl. lia.
    + apply schema_ok_set_likes; auto.
      * apply pk_append; auto using likes_pk.
      * apply NoDup_key_append; auto using unique_like.
        intros l Hl Hk. unfold Like.key in Hk. simpl in Hk.
        assert (Hc : has_like db (User.id cu) post_id = true).
        { apply has_like_iff. exists l. inversion Hk. auto. }
        fold was in Hc. congruence.
Qed.

Ltac nodup_concrete :=
  simpl; repeat (constructor; simpl; [intuition (try discriminate; try lia) |]);
  constructor.

Lemma sample_db_ok : schema_ok sample_db.
Proof. constructor; nodup_concrete. Qed.

Lemma sample_db_liked_ok : schema_ok sample_db_liked.
Proof. constructor; nodup_concrete. Qed.

(** C1: for an authenticated user [cu] and an existing post, [like_post]
    removes the user's Like on the post when the like table has one and
    creates one otherwise; the JSON answer carries the new liked-state, which
    is true exactly when a Like row of that user on that post is in the table
    afterwards, and the updated like count of the post: the number of Like
    rows on the post in the table afterwards, one less than before after an
    unlike and one more than before after a like. *)
Theorem like_post_toggles (db : DB) (session : option nat) (cu : User.t)
    (now : datetime) (post_id : nat) (post : Post.t) :
  schema_ok db ->
  current_user db session = Some cu ->
  get Post.id (posts db) post_id = Some post ->
  let db' := fst (like_post db session now post_id) in
  let likes_on_post (d : DB) :=
    List.length (filter (fun l => Like.post_id l =? post_id) (likes d)) in
  let liked_in (d : DB) :=
    exists l, In l (likes d) /\
              Like.user_id l = User.id cu /\ Like.post_id l = post_id in
  exists (liked : bool) (count : nat),
    snd (like_post db session now post_id) =
      Jsonify (LikeJson liked count) 200 /\
    count = likes_on_post db' /\
    (liked = true <-> liked_in db') /\
    (liked_in db ->
     liked = false /\
     S count = likes_on_post db /\
     forall l, In l (likes db') <->
               In l (likes db) /\
               ~ (Like.user_id l = User.id cu /\ Like.post_id l = post_id)) /\
    (~ liked_in db ->
     liked = true /\
     count = S (likes_on_post db) /\
     likes db' = likes db ++
                 [Like.mk (next_id Like.id (likes db)) (User.id cu) post_id now]) /\
    users db' = users db /\ posts db' = posts db /\
    comments db' = comments db /\ follows db' = follows db.
Proof.
  intros Hok Hcu Hpost db' likes_on_post liked_in.
  destruct (like_post_spec db session cu now post_id post Hok Hcu Hpost)
    as (Hresp & Hstate & Hunlike & Hlike & Hu & Hp & Hc & Hf & _).
  fold db' in Hresp, Hstate, Hunlike, Hlike, Hu, Hp, Hc, Hf.
  destruct (get_some _ _ _ _ _ Hpost) as [_ Hpid].
  assert (Hcount : forall d, like_count d post = likes_on_post d).
  { intros d. unfold like_count, likes_on_post. now rewrite Hpid. }
  rewrite !Hcount in *.
  exists (negb (has_like db (User.id cu) post_id)), (likes_on_post db').
  split; [exact Hresp |]. split; [reflexivity |].
  split; [rewrite <- Hstate; apply has_like_iff |].
  split; [| split].
  - intros Hwas. apply has_like_iff in Hwas. rewrite Hwas.
    destruct (Hunlike Hwas) as [Hrows Hn].
    split; [reflexivity |]. split; [exact Hn |].
    intros l. rewrite Hrows. unfold Like.key.
    split; intros [Hl Hne]; split; auto.
    + intros [Ha Hb]. apply Hne. congruence.
    + intros Hk. inversion Hk. auto.
  - intros Hnot.
    assert (Hwas : has_like db (User.id cu) post_id = false).
    { apply not_true_is_false. intros Hc'. apply Hnot. now apply has_like_iff. }
    rewrite Hwas. destruct (Hlike Hwas) as [Hrows Hn].
    split; [reflexivity |]. split; [exact Hn | exact Hrows].
  - auto.
Qed.

Lemma like_post_toggles_witness :
  schema_ok sample_db_liked /\
  current_user sample_db_liked (Some 2) = Some bob /\
  get Post.id (posts sample_db_liked) 1 = Some hello /\
  exists (liked : bool) (count : nat),
    snd (like_post sample_db_liked (Some 2) 500 1) =
    Jsonify (LikeJson liked count) 200 /\
    liked = false /\ count = 0.
Proof.
  refine (conj sample_db_liked_ok (conj eq_refl (conj eq_refl _))).
  destruct (like_post_toggles sample_db_liked (Some 2) bob 500 1 hello
              sample_db_liked_ok eq_refl eq_refl)
    as (liked & count & Hresp & Hcount & _ & Hunlike & _).
  exists liked, count. split; [exact Hresp |]. split.
  - refine (proj1 (Hunlike _)). eexists. split; [left; reflexivity |].
    split; reflexivity.
  - exact Hcount.
Defined.

(** C3: for an authenticated user [cu], an existing post and any database
    that satisfies the schema, two like-toggles in a row on the same post
    bring back the liked-state and the like count of the post that held
    before the first one, and the second answer reports exactly those. *)
Theorem like_post_twice (db : DB) (session : option nat) (cu : User.t)
    (now1 now2 : datetime) (post_id : nat) (post : Post.t) :
  schema_ok db ->
  current_user db session = Some cu ->
  get Post.id (posts db) post_id = Some post ->
  let db1 := fst (like_post db session now1 post_id) in
  let db2 := fst (like_post db1 session now2 post_id) in
  has_like db2 (User.id cu) post_id = has_like db (User.id cu) post_id /\
  like_count db2 post = like_count db post /\
  snd (like_post db1 session now2 post_id) =
    Jsonify (LikeJson (has_like db (User.id cu) post_id) (like_count db post)) 200.
Proof.
  intros Hok Hcu Hpost db1 db2.
  destruct (like_post_spec db session cu now1 post_id post Hok Hcu Hpost)
    as (_ & Hstate1 & Hunlike1 & Hlike1 & Hu1 & Hp1 & _ & _ & Hok1).
  fold db1 in Hstate1, Hunlike1, Hlike1, Hu1, Hp1, Hok1.
  assert (Hcu1 : current_user db1 session = Some cu).
  { unfold current_user, load_user in *. now rewrite Hu1. }
  assert (Hpost1 : get Post.id (posts db1) post_id = Some post)
    by now rewrite Hp1.
  destruct (like_post_spec db1 session cu now2 post_id post Hok1 Hcu1 Hpost1)
    as (Hresp2 & Hstate2 & Hunlike2 & Hlike2 & _).
  fold db2 in Hresp2, Hstate2, Hunlike2, Hlike2.
  rewrite Hstate1 in Hresp2, Hstate2. rewrite negb_involutive in Hresp2, Hstate2.
  assert (Hcount : like_count db2 post = like_count db post).
  { destruct (has_like db (User.id cu) post_id) eqn:Hwas.
    - destruct (Hunlike1 eq_refl) as [_ H1].
      destruct (Hlike2 Hstate1) as [_ H2]. simpl in H2. lia.
    - destruct (Hlike1 eq_refl) as [_ H1].
      destruct (Hunlike2 Hstate1) as [_ H2]. lia. }
  rewrite Hcount in Hresp2. auto.
Qed.

Lemma like_post_twice_witness :
  schema_ok sample_db_liked /\
  current_user sample_db_liked (Some 2) = Some bob /\
  get Post.id (posts sample_db_liked) 1 = Some hello /\
  snd (like_post (fst (like_post sample_db_liked (Some 2) 500 1)) (Some 2) 501 1) =
  Jsonify (LikeJson true 1) 200.
Proof.
  refine (conj sample_db_liked_ok (conj eq_refl (conj eq_refl _))).
  exact (proj2 (proj2 (like_post_twice sample_db_liked (Some 2) bob 500 501 1 hello
                         sample_db_liked_ok eq_refl eq_refl))).
Defined.

(** * The follow graph *)

Lemma is_following_has_edge (db : DB) (self user : User.t) :
  is_following db self user = has_edge db (User.id self) (User.id user).
Proof.
  unfold is_following, has_edge, first. rewrite <- found_find.
  now destruct (find _ _).
Qed.

Lemma edge_key (a b : nat) (f : Follow.t) :
  edge a b f = true <-> Follow.key f = (a, b).
Proof.
  unfold edge, Follow.key. rewrite andb_true_iff, !Nat.eqb_eq.
  split; [intros [-> ->]; reflexivity | intros H; inversion H; auto].
Qed.

Lemma find_app_last (A : Type) (p : A -> bool) (l : list A) (x : A) :
  existsb p l = false -> p x = true -> find p (l ++ [x]) = Some x.
Proof.
  induction l as [| y l IH]; simpl; intros Hex Hx.
  - now rewrite Hx.
  - apply orb_false_iff in Hex. destruct Hex as [Hy Hex].
    rewrite Hy. auto.
Qed.

(* Deleting the row that was just appended gives the table back. *)
Lemma delete_appended (row : Type) (pk : row -> nat) (rows : list row) (r : row) :
  pk r = next_id pk rows -> delete pk (rows ++ [r]) (pk r) = rows.
Proof.
  intros Hr. unfold delete. rewrite filter_app. simpl.
  rewrite Nat.eqb_refl. simpl. rewrite app_nil_r.
  apply forallb_filter_id, forallb_forall. intros x Hx.
  apply negb_true_iff, Nat.eqb_neq.
  apply (next_id_fresh _ pk) in Hx. lia.
Qed.

(* The three outcomes of [follow_user] for an existing target. *)
Lemma follow_user_spec (db : DB) (session : option nat) (cu : User.t)
    (now : datetime) (username : string) (user : User.t) :
  current_user db session = Some cu ->
  first (by_username username) (users db) = Some user ->
  follow_user db session now username =
  if user_eq cu user
  then (db, Redirect "user_profile" (Some username)
              (Some ("You cannot follow yourself!", "danger")))
  else if has_edge db (User.id cu) (User.id user)
  then (db, Redirect "user_profile" (Some username)
              (Some (("You are already following " ++ username ++ "!")%string,
                     "info")))
  else (set_follows db
          (follows db ++
           [Follow.mk (next_id Follow.id (follows db))
                      (User.id cu) (User.id user) now]),
        Redirect "user_profile" (Some username)
          (Some (("You are now following " ++ username ++ "!")%string,
                 "success"))).
Proof.
  intros Hcu Huser. unfold follow_user, login_required.
  rewrite Hcu, Huser, is_following_has_edge.
  destruct (user_eq cu user); [reflexivity |].
  unfold insert_follow, has_edge.
  now destruct (existsb _ _).
Qed.

Lemma unfollow_user_spec (db : DB) (session : option nat) (cu : User.t)
    (username : string) (user : User.t) :
  current_user db session = Some cu ->
  first (by_username username) (users db) = Some user ->
  unfollow_user db session username =
  match first (edge (User.id cu) (User.id user)) (follows db) with
  | Some follow =>
      (set_follows db (delete Follow.id (follows db) (Follow.id follow)),
       Redirect "user_profile" (Some username)
         (Some (("You have unfollowed " ++ username ++ "!")%string, "success")))
  | None => (db, Redirect "user_profile" (Some username) None)
  end.
Proof.
  intros Hcu Huser. unfold unfollow_user, login_required.
  now rewrite Hcu, Huser.
Qed.

Lemma has_edge_iff (db : DB) (a b : nat) :
  has_edge db a b = true <->
  exists f, In f (follows db) /\
            Follow.follower_id f = a /\ Follow.followed_id f = b.
Proof.
  unfold has_edge. rewrite existsb_exists. unfold edge.
  split; intros [f [Hin H]]; exists f; split; auto.
  - apply andb_true_iff in H. now rewrite !Nat.eqb_eq in H.
  - apply andb_true_iff. now rewrite !Nat.eqb_eq.
Qed.

(** C8: for an authenticated user [cu] and an existing target,
    [follow_user] leaves the database as it is and flashes a 'danger'
    message when the target is the user; leaves it as it is and flashes an
    'info' message when the follow table has a row from the user to the
    target; and when it has none appends exactly one Follow row, from the
    user to the target, to the follow table and changes nothing else. *)
Theorem follow_user_cases (db : DB) (session : option nat) (cu : User.t)
    (now : datetime) (username : string) (user : User.t) :
  current_user db session = Some cu ->
  first (by_username username) (users db) = Some user ->
  let db' := fst (follow_user db session now username) in
  let resp := snd (follow_user db session now username) in
  let follows_already :=
    exists f, In f (follows db) /\
              Follow.follower_id f = User.id cu /\
              Follow.followed_id f = User.id user in
  (User.id cu = User.id user ->
   db' = db /\
   resp = Redirect "user_profile" (Some username)
            (Some ("You cannot follow yourself!", "danger"))) /\
  (User.id cu <> User.id user ->
   follows_already ->
   db' = db /\
   resp = Redirect "user_profile" (Some username)
            (Some (("You are already following " ++ username ++ "!")%string,
                   "info"))) /\
  (User.id cu <> User.id user ->
   ~ follows_already ->
   follows db' = follows db ++
                 [Follow.mk (next_id Follow.id (follows db))
                            (User.id cu) (User.id user) now] /\
   users db' = users db /\ posts db' = posts db /\
   likes db' = likes db /\ comments db' = comments db /\
   resp = Redirect "user_profile" (Some username)
            (Some (("You are now following " ++ username ++ "!")%string,
                   "success"))).
Proof.
  intros Hcu Huser db' resp follows_already. subst db' resp.
  rewrite (follow_user_spec db session cu now username user Hcu Huser).
  unfold user_eq.
  split; [| split].
  - intros Heq. apply Nat.eqb_eq in Heq. rewrite Heq. auto.
  - intros Hne Hfol. apply Nat.eqb_neq in Hne. apply has_edge_iff in Hfol.
    rewrite Hne, Hfol. auto.
  - intros Hne Hnot. apply Nat.eqb_neq in Hne.
    assert (Hfol : has_edge db (User.id cu) (User.id user) = false).
    { apply not_true_is_false. intros Hc. apply Hnot. now apply has_edge_iff. }
    rewrite Hne, Hfol. simpl. repeat split; reflexivity.
Qed.

Lemma follow_user_cases_witness :
  current_user sample_db (Some 2) = Some bob /\
  first (by_username "alice") (users sample_db) = Some alice /\
  follows (fst (follow_user sample_db (Some 2) 500 "alice")) =
  [Follow.mk 1 2 1 500] /\
  fst (follow_user sample_db_liked (Some 2) 500 "alice") = sample_db_liked /\
  fst (follow_user sample_db (Some 2) 500 "bob") = sample_db.
Proof.
  assert (Hne : User.id bob <> User.id alice) by discriminate.
  refine (conj eq_refl (conj eq_refl (conj _ (conj _ _)))).
  - destruct (follow_user_cases sample_db (Some 2) bob 500 "alice" alice
                eq_refl eq_refl) as (_ & _ & H).
    refine (proj1 (H Hne _)). intros [f [[] _]].
  - destruct (follow_user_cases sample_db_liked (Some 2) bob 500 "alice" alice
                eq_refl eq_refl) as (_ & H & _).
    refine (proj1 (H Hne _)). eexists. split; [left; reflexivity |].
    split; reflexivity.
  - destruct (follow_user_cases sample_db (Some 2) bob 500 "bob" bob
                eq_refl eq_refl) as (H & _).
    exact (proj1 (H eq_refl)).
Defined.

(** C4 as stated fails: when the user already follows the target, follow is
    a no-op and the unfollow that comes after it removes the edge that was
    there before. *)
Lemma follow_unfollow_drops_existing_edge :
  follows sample_db_liked = [Follow.mk 1 2 1 150] /\
  follows (fst (unfollow_user (fst (follow_user sample_db_liked (Some 2) 500 "alice"))
                              (Some 2) "alice")) = [] /\
  ~ (forall (db : DB) (session : option nat) (cu user : User.t)
            (now : datetime) (username : string),
        schema_ok db ->
        current_user db session = Some cu ->
        first (by_username username) (users db) = Some user ->
        User.id cu <> User.id user ->
        follows (fst (unfollow_user (fst (follow_user db session now username))
                                    session username))
        = follows db).
Proof.
  split; [reflexivity |]. split; [reflexivity |].
  intros H.
  specialize (H sample_db_liked (Some 2) bob alice 500%Z "alice"
                sample_db_liked_ok eq_refl eq_refl).
  assert (Hne : User.id bob <> User.id alice) by (simpl; lia).
  specialize (H Hne). vm_compute in H. discriminate H.
Qed.

(** C4, amended: for an authenticated user [cu] and another existing user
    whom [cu] does not follow yet, [follow_user] and then [unfollow_user] on
    that user give back the database, and so the follow table, exactly as
    it was. *)
Theorem follow_then_unfollow (db : DB) (session : option nat) (cu user : User.t)
    (now : datetime) (username : string) :
  current_user db session = Some cu ->
  first (by_username username) (users db) = Some user ->
  User.id cu <> User.id user ->
  is_following db cu user = false ->
  let db1 := fst (follow_user db session now username) in
  let db2 := fst (unfollow_user db1 session username) in
  follows db1 = follows db ++
                [Follow.mk (next_id Follow.id (follows db))
                           (User.id cu) (User.id user) now] /\
  follows db2 = follows db /\
  db2 = db.
Proof.
  intros Hcu Huser Hne Hfol db1 db2.
  assert (E1 : follow_user db session now username =
               (set_follows db
                  (follows db ++
                   [Follow.mk (next_id Follow.id (follows db))
                              (User.id cu) (User.id user) now]),
                Redirect "user_profile" (Some username)
                  (Some (("You are now following " ++ username ++ "!")%string,
                         "success")))).
  { rewrite (follow_user_spec db session cu now username user Hcu Huser).
    rewrite is_following_has_edge in Hfol. unfold user_eq.
    apply Nat.eqb_neq in Hne. now rewrite Hne, Hfol. }
  assert (Hdb1 : db1 = set_follows db
                  (follows db ++
                   [Follow.mk (next_id Follow.id (follows db))
                              (User.id cu) (User.id user) now]))
    by (subst db1; now rewrite E1).
  assert (E2 : db2 = db).
  { subst db2. rewrite Hdb1.
    rewrite (unfollow_user_spec _ session cu username user); [| exact Hcu | exact Huser].
    simpl. unfold first.
    rewrite find_app_last.
    - simpl. rewrite (delete_appended _ Follow.id (follows db)); [| reflexivity].
      now destruct db.
    - rewrite is_following_has_edge in Hfol. exact Hfol.
    - unfold edge. simpl. now rewrite !Nat.eqb_refl. }
  split; [now rewrite Hdb1 |]. split; [now rewrite E2 | exact E2].
Qed.

Lemma follow_then_unfollow_witness :
  current_user sample_db (Some 2) = Some bob /\
  first (by_username "alice") (users sample_db) = Some alice /\
  User.id bob <> User.id alice /\
  is_following sample_db bob alice = false /\
  fst (unfollow_user (fst (follow_user sample_db (Some 2) 500 "alice"))
                     (Some 2) "alice") = sample_db.
Proof.
  assert (Hne : User.id bob <> User.id alice) by discriminate.
  refine (conj eq_refl (conj eq_refl (conj Hne (conj eq_refl _)))).
  exact (proj2 (proj2 (follow_then_unfollow sample_db (Some 2) bob alice 500
                         "alice" eq_refl eq_refl Hne eq_refl))).
Defined.

(** * Posts *)

Lemma current_user_id (db : DB) (session : option nat) (cu : User.t) :
  current_user db session = Some cu ->
  load_user db (User.id cu) = Some cu.
Proof.
  unfold current_user. destruct session as [uid |]; [| discriminate].
  intros H. destruct (get_some _ _ _ _ _ H) as [_ Hid]. now rewrite Hid.
Qed.

(** C6: for an authenticated user, a POST to [new_post] whose content field
    is missing or empty is answered with the 'danger' flash and a redirect
    back to the form, and the database is left exactly as it was: no Post
    row is stored. *)
Theorem new_post_rejects_empty_content (db : DB) (session : option nat)
    (cu : User.t) (req : request) :
  current_user db session = Some cu ->
  method req = POST ->
  dict_get "content" (form req) = None \/ dict_get "content" (form req) = Some "" ->
  new_post db session req =
  (db, Redirect "new_post" None (Some ("Post content cannot be empty!", "danger"))).
Proof.
  intros Hcu Hm Hcontent. unfold new_post, login_required.
  rewrite Hcu, Hm.
  destruct Hcontent as [-> | ->]; reflexivity.
Qed.

Lemma new_post_rejects_empty_content_witness :
  current_user sample_db (Some 1) = Some alice /\
  method (post_request [("title", "hello"); ("content", "")]) = POST /\
  posts (fst (new_post sample_db (Some 1)
                (post_request [("title", "hello"); ("content", "")])))
  = posts sample_db.
Proof.
  refine (conj eq_refl (conj eq_refl _)).
  rewrite (new_post_rejects_empty_content sample_db (Some 1) alice
             (post_request [("title", "hello"); ("content", "")])
             eq_refl eq_refl (or_intror eq_refl)).
  reflexivity.
Defined.

(** C9 as stated fails: with non-empty content and no title field in the
    form, the insert violates NOT NULL on post.title and nothing is stored. *)
Lemma new_post_without_title_not_persisted :
  new_post sample_db (Some 1) (post_request [("content", "again")]) =
  (sample_db, Raised (IntegrityError "NOT NULL constraint failed: post.title")) /\
  ~ (forall (db : DB) (session : option nat) (cu : User.t) (req : request)
            (content : string),
        current_user db session = Some cu ->
        method req = POST ->
        dict_get "title" (form req) = None ->
        dict_get "content" (form req) = Some content ->
        content <> "" ->
        files req = [] ->
        exists p, In p (posts (fst (new_post db session req))) /\
                  Post.content p = content /\ Post.user_id p = User.id cu).
Proof.
  split; [reflexivity |].
  intros H.
  destruct (H sample_db (Some 1) alice (post_request [("content", "again")])
              "again" eq_refl eq_refl eq_refl eq_refl)
    as [p [Hin [Hc _]]]; [discriminate | reflexivity |].
  simpl in Hin. destruct Hin as [<- | []]. discriminate Hc.
Qed.

(** C9, amended: the title column of a post is NOT NULL.  For an
    authenticated user, a POST to [new_post] with non-empty content and a
    title field in the form, the empty string included, whose picture upload
    (if there is one) does not raise, stores exactly one new post with that
    title and content, owned by the user, and redirects to the home page. *)
Theorem new_post_persists (db : DB) (session : option nat) (cu : User.t)
    (req : request) (title content : string) (image : option string) :
  current_user db session = Some cu ->
  method req = POST ->
  dict_get "title" (form req) = Some title ->
  dict_get "content" (form req) = Some content ->
  content <> "" ->
  upload req "image" = inr image ->
  new_post db session req =
  (set_posts db
     (posts db ++
      [Post.mk (next_id Post.id (posts db)) title content image
               (utcnow req) (User.id cu)]),
   Redirect "home" None (Some ("Your post has been created!", "success"))).
Proof.
  intros Hcu Hm Ht Hc Hne Hup. unfold new_post, login_required.
  rewrite Hcu, Hm, Ht, Hc, Hup. simpl.
  apply String.eqb_neq in Hne. now rewrite Hne.
Qed.

Lemma new_post_persists_witness :
  current_user sample_db (Some 1) = Some alice /\
  "again" <> "" /\
  posts (fst (new_post sample_db (Some 1)
                (post_request [("title", ""); ("content", "again")]))) =
  [hello; Post.mk 2 "" "again" None 400 1].
Proof.
  assert (Hne : "again" <> "") by discriminate.
  refine (conj eq_refl (conj Hne _)).
  rewrite (new_post_persists sample_db (Some 1) alice
             (post_request [("title", ""); ("content", "again")])
             "" "again" None eq_refl eq_refl eq_refl eq_refl Hne eq_refl).
  reflexivity.
Defined.

(** C7: for an authenticated user [cu] and an existing post, [delete_post]
    by anyone but the owner is answered with the 'danger' flash and leaves
    the database exactly as it was, the post row included; called by the
    owner it removes the post row (with the likes and comments on it) and
    leaves the other posts, the users and the follow table alone. *)
Theorem delete_post_owner_only (db : DB) (session : option nat) (cu : User.t)
    (post_id : nat) (post : Post.t) :
  current_user db session = Some cu ->
  get Post.id (posts db) post_id = Some post ->
  let db' := fst (delete_post db session post_id) in
  let resp := snd (delete_post db session post_id) in
  (User.id cu <> Post.user_id post ->
   db' = db /\ In post (posts db') /\
   resp = Redirect "home" None (Some ("You cannot delete this post!", "danger"))) /\
  (User.id cu = Post.user_id post ->
   get Post.id (posts db') post_id = None /\
   (forall p, In p (posts db') <-> In p (posts db) /\ Post.id p <> post_id) /\
   (forall l, In l (likes db') <-> In l (likes db) /\ Like.post_id l <> post_id) /\
   (forall c, In c (comments db') <->
              In c (comments db) /\ Comment.post_id c <> post_id) /\
   users db' = users db /\ follows db' = follows db /\
   resp = Redirect "home" None (Some ("Post deleted!", "success"))).
Proof.
  intros Hcu Hpost db' resp. subst db' resp.
  destruct (get_some _ _ _ _ _ Hpost) as [Hin Hpid].
  unfold delete_post, login_required. rewrite Hcu, Hpost.
  split.
  - intros Hne.
    assert (Hsame : match author db post with
                    | Some a => user_eq a cu
                    | None => false
                    end = false).
    { unfold author. destruct (get User.id (users db) (Post.user_id post))
        as [a |] eqn:Ha; [| reflexivity].
      destruct (get_some _ _ _ _ _ Ha) as [_ Hid].
      unfold user_eq. apply Nat.eqb_neq. congruence. }
    rewrite Hsame. simpl. auto.
  - intros Heq.
    assert (Hsame : match author db post with
                    | Some a => user_eq a cu
                    | None => false
                    end = true).
    { unfold author. rewrite <- Heq.
      apply current_user_id in Hcu. unfold load_user in Hcu. rewrite Hcu.
      apply Nat.eqb_refl. }
    rewrite Hsame. simpl.
    refine (conj _ (conj _ (conj _ (conj _ (conj eq_refl (conj eq_refl eq_refl)))))).
    + destruct (get Post.id (delete Post.id (posts db) (Post.id post)) post_id)
        as [p |] eqn:Hp; [| reflexivity].
      destruct (get_some _ _ _ _ _ Hp) as [Hp1 Hp2].
      apply in_delete in Hp1. destruct Hp1 as [_ Hp1]. congruence.
    + intros p. rewrite in_delete, Hpid. reflexivity.
    + intros l. rewrite filter_In, negb_true_iff, Nat.eqb_neq, Hpid. reflexivity.
    + intros c. rewrite filter_In, negb_true_iff, Nat.eqb_neq, Hpid. reflexivity.
Qed.

Lemma delete_post_owner_only_witness :
  current_user sample_db_liked (Some 2) = Some bob /\
  get Post.id (posts sample_db_liked) 1 = Some hello /\
  fst (delete_post sample_db_liked (Some 2) 1) = sample_db_liked.
Proof.
  refine (conj eq_refl (conj eq_refl _)).
  destruct (delete_post_owner_only sample_db_liked (Some 2) bob 1 hello
              eq_refl eq_refl) as [H _].
  refine (proj1 (H _)). discriminate.
Defined.

(** * Accounts *)

Lemma write_user_id (p : pending_user) (n : string) (u : User.t) :
  User.id (write_user p n u) = User.id u.
Proof. unfold write_user. now destruct (User.id u =? p_id p). Qed.

Lemma write_user_email (p : pending_user) (n : string) (u : User.t) :
  User.email (write_user p n u) = User.email u.
Proof. unfold write_user. now destruct (User.id u =? p_id p). Qed.

Lemma get_write_user (p : pending_user) (n : string) (us : list User.t) (k : nat) :
  get User.id (map (write_user p n) us) k =
  option_map (write_user p n) (get User.id us k).
Proof.
  unfold get. induction us as [| u us IH]; simpl; [reflexivity |].
  rewrite write_user_id. now destruct (User.id u =? k).
Qed.

(* The flush of [update_profile] goes through exactly when the pending
   username is present and no other account holds it. *)
Lemma update_user_ok (db : DB) (p : pending_user) (n : string) :
  p_username p = Some n ->
  (forall u, In u (users db) -> User.username u = n -> User.id u = p_id p) ->
  update_user db p = inr (set_users db (map (write_user p n) (users db))).
Proof.
  intros Hn Hfree. unfold update_user. rewrite Hn.
  destruct (existsb _ (users db)) eqn:Hex; [| reflexivity].
  apply existsb_exists in Hex. destruct Hex as [u [Hin Hu]].
  apply andb_true_iff in Hu. destruct Hu as [Hname Hid].
  apply String.eqb_eq in Hname. apply negb_true_iff, Nat.eqb_neq in Hid.
  exfalso. apply Hid. now apply Hfree.
Qed.

Lemma update_user_taken (db : DB) (p : pending_user) (n : string) (u : User.t) :
  p_username p = Some n ->
  In u (users db) -> User.username u = n -> User.id u <> p_id p ->
  update_user db p =
  inl (IntegrityError "UNIQUE constraint failed: user.username").
Proof.
  intros Hn Hin Hname Hid. unfold update_user. rewrite Hn.
  assert (Hex : existsb (fun u => by_username n u && negb (User.id u =? p_id p))
                        (users db) = true).
  { apply existsb_exists. exists u. split; [assumption |].
    apply andb_true_iff. split.
    - now apply String.eqb_eq.
    - now apply negb_true_iff, Nat.eqb_neq. }
  now rewrite Hex.
Qed.

Lemma assign_picture_fields (p : pending_user) (picture : option string) :
  p_id (assign_picture p picture) = p_id p /\
  p_username (assign_picture p picture) = p_username p /\
  p_bio (assign_picture p picture) = p_bio p /\
  p_location (assign_picture p picture) = p_location p.
Proof. destruct picture; simpl; auto. Qed.

(** C10 as stated fails: a profile update whose form has no username field
    overwrites nothing, the submitted bio and location included; the flush
    violates NOT NULL on user.username and the user row stays as it was. *)
Lemma update_profile_absent_username_not_stored :
  update_profile sample_db (Some 1)
    (post_request [("bio", "hi"); ("location", "Nairobi")]) =
  (sample_db, Raised (IntegrityError "NOT NULL constraint failed: user.username")) /\
  ~ (forall (db : DB) (session : option nat) (cu : User.t) (req : request),
        current_user db session = Some cu ->
        method req = POST ->
        files req = [] ->
        exists u, load_user (fst (update_profile db session req)) (User.id cu)
                  = Some u /\
                  User.bio u = dict_get "bio" (form req) /\
                  User.location u = dict_get "location" (form req)).
Proof.
  split; [reflexivity |].
  intros H.
  destruct (H sample_db (Some 1) alice
              (post_request [("bio", "hi"); ("location", "Nairobi")])
              eq_refl eq_refl eq_refl) as [u [Hu [Hbio _]]].
  vm_compute in Hu. inversion Hu. subst u. discriminate Hbio.
Qed.

(** C10, amended: [update_profile] assigns the submitted username, bio and
    location to the current user without any check of its own, and the
    assignment is stored, an empty username and an empty or absent bio or
    location included, whenever the submitted username is present and is not
    the username of another account (the picture upload, if any, not
    raising).  When the username is absent, or is the username of another
    account, the handler has no rejection of its own (registration answers a
    taken username with a flash message and stores nothing): the flush runs
    into the NOT NULL or UNIQUE constraint on user.username and the database
    is left as it was. *)
Theorem update_profile_overwrites (db : DB) (session : option nat) (cu : User.t)
    (req : request) (picture : option string) :
  current_user db session = Some cu ->
  method req = POST ->
  upload req "profile_image" = inr picture ->
  let username := dict_get "username" (form req) in
  let bio := dict_get "bio" (form req) in
  let location := dict_get "location" (form req) in
  let db' := fst (update_profile db session req) in
  (forall n,
     username = Some n ->
     (forall u, In u (users db) -> User.username u = n -> User.id u = User.id cu) ->
     load_user db' (User.id cu) =
       Some (User.mk (User.id cu) n (User.email cu) (User.password cu)
                     (match picture with
                      | Some picture_fn => picture_fn
                      | None => User.profile_image cu
                      end)
                     bio location (User.created_at cu)) /\
     (forall u, In u (users db') ->
                User.id u <> User.id cu -> In u (users db)) /\
     snd (update_profile db session req) =
       Redirect "profile" None (Some ("Profile updated successfully!", "success"))) /\
  (username = None ->
   update_profile db session req =
   (db, Raised (IntegrityError "NOT NULL constraint failed: user.username"))) /\
  (forall n u,
     username = Some n ->
     In u (users db) -> User.username u = n -> User.id u <> User.id cu ->
     update_profile db session req =
     (db, Raised (IntegrityError "UNIQUE constraint failed: user.username"))) /\
  (forall n u reg anonymous,
     current_user db anonymous = None ->
     method reg = POST ->
     dict_get "password" (form reg) = dict_get "confirm_password" (form reg) ->
     dict_get "username" (form reg) = Some n ->
     In u (users db) -> User.username u = n ->
     register db anonymous reg =
     (db, Redirect "register" None (Some ("Username already exists!", "danger")))).
Proof.
  intros Hcu Hm Hup username bio location db'.
  assert (Hunfold : update_profile db session req =
            match update_user db (assign_picture (assign_profile cu req) picture) with
            | inl e => (db, Raised e)
            | inr db1 =>
                (db1, Redirect "profile" None
                        (Some ("Profile updated successfully!", "success")))
            end).
  { unfold update_profile, login_required. now rewrite Hcu, Hm, Hup. }
  destruct (assign_picture_fields (assign_profile cu req) picture)
    as (Hid & Hname & Hbio & Hloc).
  simpl in Hid, Hname, Hbio, Hloc.
  refine (conj _ (conj _ (conj _ _))).
  - intros n Hn Hfree.
    assert (Hflush := update_user_ok db
              (assign_picture (assign_profile cu req) picture) n).
    rewrite Hname, Hid in Hflush. specialize (Hflush Hn Hfree).
    subst db'. rewrite Hunfold, Hflush. simpl.
    split; [| split; [| reflexivity]].
    + unfold load_user. simpl. rewrite get_write_user.
      apply current_user_id in Hcu. unfold load_user in Hcu. rewrite Hcu. simpl.
      unfold write_user. rewrite Hid, Nat.eqb_refl, Hbio, Hloc.
      now destruct picture.
    + intros u Hin Hne. apply in_map_iff in Hin.
      destruct Hin as [u0 [Hw Hin0]]. unfold write_user in Hw.
      rewrite Hid in Hw.
      destruct (User.id u0 =? User.id cu) eqn:He.
      * subst u. simpl in Hne. apply Nat.eqb_eq in He. congruence.
      * now subst u.
  - intros Hn. rewrite Hunfold. unfold update_user.
    rewrite Hname. fold username. now rewrite Hn.
  - intros n u Hn Hin Hu Hne. rewrite Hunfold.
    rewrite (update_user_taken db _ n u); auto.
    + now rewrite Hname.
    + now rewrite Hid.
  - intros n u reg anonymous Hanon Hreg Hpw Hn Hin Hu.
    unfold register. rewrite Hanon, Hreg, Hpw, Hn.
    assert (Hsame : forall o, opt_string_eqb o o = true).
    { intros [s |]; simpl; [apply String.eqb_refl | reflexivity]. }
    rewrite Hsame. simpl.
    destruct (first (by_username n) (users db)) as [u1 |] eqn:Hfirst;
      [reflexivity |].
    exfalso. unfold first in Hfirst.
    pose proof (find_none _ _ Hfirst u Hin) as Hno.
    unfold by_username in Hno. apply String.eqb_neq in Hno. contradiction.
Qed.

Lemma update_profile_overwrites_witness :
  current_user sample_db (Some 1) = Some alice /\
  load_user (fst (update_profile sample_db (Some 1)
                    (post_request [("username", "")]))) 1 =
  Some (User.mk 1 "" "a@x.com" "$2b$12$a" "default.jpg" None None 100).
Proof.
  refine (conj eq_refl _).
  destruct (update_profile_overwrites sample_db (Some 1) alice
              (post_request [("username", "")]) None eq_refl eq_refl eq_refl)
    as [H _].
  refine (proj1 (H "" eq_refl _)).
  intros u [<- | [<- | []]]; simpl; [reflexivity | discriminate].
Defined.

(** * The schema constraints are invariant *)

Lemma empty_db_ok : schema_ok empty_db.
Proof. constructor; simpl; constructor. Qed.

Lemma insert_like_ok (db db' : DB) (uid pid : nat) (now : datetime) :
  schema_ok db -> insert_like db uid pid now = inr db' -> schema_ok db'.
Proof.
  intros Hok. unfold insert_like.
  destruct (existsb (like_by uid pid) (likes db)) eqn:Hex; [discriminate |].
  intros H. inversion H. subst db'. clear H.
  apply schema_ok_set_likes; auto.
  - apply pk_append; auto using likes_pk.
  - apply NoDup_key_append; auto using unique_like.
    intros l Hl Hk. simpl in Hk.
    assert (Hc : existsb (like_by uid pid) (likes db) = true).
    { apply existsb_exists. exists l. split; [assumption |].
      now apply like_by_key. }
    congruence.
Qed.

Lemma delete_like_ok (db : DB) (like : Like.t) :
  schema_ok db -> schema_ok (delete_like db like).
Proof.
  intros Hok. apply schema_ok_set_likes; auto;
    apply NoDup_key_filter; auto using likes_pk, unique_like.
Qed.

Lemma schema_ok_set_follows (db : DB) (fs : list Follow.t) :
  schema_ok db -> NoDup (map Follow.id fs) -> NoDup (map Follow.key fs) ->
  schema_ok (set_follows db fs).
Proof.
  intros [] Hpk Hkey. constructor; simpl; assumption.
Qed.

Lemma insert_follow_ok (db db' : DB) (a b : nat) (now : datetime) :
  schema_ok db -> insert_follow db a b now = inr db' -> schema_ok db'.
Proof.
  intros Hok. unfold insert_follow.
  destruct (existsb (edge a b) (follows db)) eqn:Hex; [discriminate |].
  intros H. inversion H. subst db'. clear H.
  apply schema_ok_set_follows; auto.
  - apply pk_append; auto using follows_pk.
  - apply NoDup_key_append; auto using unique_follow.
    intros f Hf Hk. simpl in Hk.
    assert (Hc : existsb (edge a b) (follows db) = true).
    { apply existsb_exists. exists f. split; [assumption |].
      now apply edge_key. }
    congruence.
Qed.

Lemma delete_follow_ok (db : DB) (k : nat) :
  schema_ok db -> schema_ok (set_follows db (delete Follow.id (follows db) k)).
Proof.
  intros Hok. apply schema_ok_set_follows; auto;
    apply NoDup_key_filter; auto using follows_pk, unique_follow.
Qed.

Lemma insert_post_ok (db db' : DB) (title content image : option string)
    (uid : nat) (now : datetime) :
  schema_ok db -> insert_post db title content image uid now = inr db' ->
  schema_ok db'.
Proof.
  intros Hok. unfold insert_post.
  destruct title as [t |]; [| discriminate].
  destruct content as [c |]; [| discriminate].
  intros H. inversion H. subst db'. clear H.
  destruct Hok. constructor; simpl; auto.
  apply pk_append; auto.
Qed.

Lemma insert_comment_ok (db db' : DB) (content : option string)
    (uid pid : nat) (now : datetime) :
  schema_ok db -> insert_comment db content uid pid now = inr db' ->
  schema_ok db'.
Proof.
  intros Hok. unfold insert_comment.
  destruct content as [c |]; [| discriminate].
  intros H. inversion H. subst db'. clear H.
  destruct Hok. constructor; simpl; auto.
  apply pk_append; auto.
Qed.

Lemma delete_post_cascade_ok (db : DB) (post : Post.t) :
  schema_ok db -> schema_ok (delete_post_cascade db post).
Proof.
  intros []. constructor; simpl; auto; apply NoDup_key_filter; auto.
Qed.

Lemma insert_user_ok (db db' : DB) (username email : option string)
    (password : string) (now : datetime) :
  schema_ok db -> insert_user db username email password now = inr db' ->
  schema_ok db'.
Proof.
  intros Hok. unfold insert_user.
  destruct username as [n |]; [| discriminate].
  destruct email as [e |]; [| discriminate].
  destruct (existsb (by_username n) (users db)) eqn:Hn; [discriminate |].
  destruct (existsb (by_email e) (users db)) eqn:He; [discriminate |].
  intros H. inversion H. subst db'. clear H.
  destruct Hok. constructor; simpl; auto.
  - apply pk_append; auto.
  - apply NoDup_key_append; auto. simpl. intros u Hu Heq.
    assert (Hc : existsb (by_username n) (users db) = true).
    { apply existsb_exists. exists u. split; [assumption |].
      now apply String.eqb_eq. }
    congruence.
  - apply NoDup_key_append; auto. simpl. intros u Hu Heq.
    assert (Hc : existsb (by_email e) (users db) = true).
    { apply existsb_exists. exists u. split; [assumption |].
      now apply String.eqb_eq. }
    congruence.
Qed.

(* Renaming one account keeps usernames distinct when nobody else has the
   new name. *)
Lemma write_user_usernames (p : pending_user) (n : string) (us : list User.t) :
  NoDup (map User.id us) ->
  NoDup (map User.username us) ->
  (forall u, In u us -> User.username u = n -> User.id u = p_id p) ->
  NoDup (map User.username (map (write_user p n) us)).
Proof.
  induction us as [| x us IH]; simpl; intros Hid Hname Hfree; [constructor |].
  inversion Hid as [| ? ? Hid1 Hid2]; subst.
  inversion Hname as [| ? ? Hname1 Hname2]; subst.
  constructor.
  - intros Hin. apply in_map_iff in Hin. destruct Hin as [y' [Hy' Hin]].
    apply in_map_iff in Hin. destruct Hin as [y [Hy Hin]]. subst y'.
    unfold write_user in Hy'.
    destruct (User.id y =? p_id p) eqn:Ey, (User.id x =? p_id p) eqn:Ex;
      simpl in Hy'.
    + apply Nat.eqb_eq in Ey, Ex. apply Hid1. rewrite Ex, <- Ey. now apply in_map.
    + apply Nat.eqb_neq in Ex. apply Ex. apply Hfree; auto.
    + apply Nat.eqb_neq in Ey. apply Ey. apply Hfree; auto.
    + apply Hname1. rewrite <- Hy'. now apply in_map.
  - apply IH; auto.
Qed.

Lemma update_user_schema_ok (db db' : DB) (p : pending_user) :
  schema_ok db -> update_user db p = inr db' -> schema_ok db'.
Proof.
  intros Hok. unfold update_user.
  destruct (p_username p) as [n |]; [| discriminate].
  destruct (existsb _ (users db)) eqn:Hex; [discriminate |].
  intros H. inversion H. subst db'. clear H.
  assert (Hfree : forall u, In u (users db) -> User.username u = n ->
                            User.id u = p_id p).
  { intros u Hu Hn.
    destruct (Nat.eq_dec (User.id u) (p_id p)) as [| Hne]; [assumption |].
    exfalso.
    assert (Hc : existsb (fun u => by_username n u && negb (User.id u =? p_id p))
                         (users db) = true).
    { apply existsb_exists. exists u. split; [assumption |].
      apply andb_true_iff. split.
      - now apply String.eqb_eq.
      - now apply negb_true_iff, Nat.eqb_neq. }
    congruence. }
  destruct Hok. constructor; simpl; auto.
  - rewrite map_map.
    rewrite (map_ext _ User.id (write_user_id p n)). assumption.
  - apply write_user_usernames; auto.
  - rewrite map_map.
    rewrite (map_ext _ User.email (write_user_email p n)). assumption.
Qed.

(* Case analysis on the tests a view function goes through. *)
Ltac view_cases :=
  repeat match goal with
         | |- context [match ?x with _ => _ end] => destruct x eqn:?
         end;
  simpl; try assumption.

Lemma like_post_ok (db : DB) (session : option nat) (now : datetime) (post_id : nat) :
  schema_ok db -> schema_ok (fst (like_post db session now post_id)).
Proof.
  intros Hok. unfold like_post, login_required. view_cases.
  - now apply delete_like_ok.
  - eapply insert_like_ok; eauto.
Qed.

Lemma follow_user_ok (db : DB) (session : option nat) (now : datetime)
    (username : string) :
  schema_ok db -> schema_ok (fst (follow_user db session now username)).
Proof.
  intros Hok. unfold follow_user, login_required. view_cases.
  eapply insert_follow_ok; eauto.
Qed.

Lemma unfollow_user_ok (db : DB) (session : option nat) (username : string) :
  schema_ok db -> schema_ok (fst (unfollow_user db session username)).
Proof.
  intros Hok. unfold unfollow_user, login_required. view_cases.
  now apply delete_follow_ok.
Qed.

Lemma new_post_ok (db : DB) (session : option nat) (req : request) :
  schema_ok db -> schema_ok (fst (new_post db session req)).
Proof.
  intros Hok. unfold new_post, login_required. view_cases.
  eapply insert_post_ok; eauto.
Qed.

Lemma delete_post_ok (db : DB) (session : option nat) (post_id : nat) :
  schema_ok db -> schema_ok (fst (delete_post db session post_id)).
Proof.
  intros Hok. unfold delete_post, login_required. view_cases;
    now apply delete_post_cascade_ok.
Qed.

Lemma add_comment_ok (db : DB) (session : option nat) (now : datetime)
    (post_id : nat) (content : option string) :
  schema_ok db -> schema_ok (fst (add_comment db session now post_id content)).
Proof.
  intros Hok. unfold add_comment, login_required. view_cases;
    eapply insert_comment_ok; eauto.
Qed.

Lemma register_ok (db : DB) (session : option nat) (req : request) :
  schema_ok db -> schema_ok (fst (register db session req)).
Proof.
  intros Hok. unfold register. view_cases.
  eapply insert_user_ok; eauto.
Qed.

Lemma update_profile_ok (db : DB) (session : option nat) (req : request) :
  schema_ok db -> schema_ok (fst (update_profile db session req)).
Proof.
  intros Hok. unfold update_profile, login_required. view_cases.
  eapply update_user_schema_ok; eauto.
Qed.

Lemma initialize_database_ok (db : DB) (now : datetime) (digest : string) :
  schema_ok db -> schema_ok (initialize_database db now digest).
Proof.
  intros Hok. unfold initialize_database. view_cases.
  eapply insert_user_ok; eauto.
Qed.

Lemma read_only_views (db : DB) (session : option nat) (page : Z) :
  fst (home db session) = db /\ fst (api_feed db session page) = db.
Proof.
  unfold home, api_feed, login_required. split; view_cases; reflexivity.
Qed.

Lemma handle_ok (db : DB) (a : action) :
  schema_ok db -> schema_ok (fst (handle db a)).
Proof.
  intros Hok. destruct a; simpl.
  - now apply initialize_database_ok.
  - now apply register_ok.
  - now apply update_profile_ok.
  - now apply new_post_ok.
  - now apply delete_post_ok.
  - now apply like_post_ok.
  - now apply add_comment_ok.
  - now apply follow_user_ok.
  - now apply unfollow_user_ok.
  - now rewrite (proj1 (read_only_views db session 1)).
  - now rewrite (proj2 (read_only_views db session page)).
Qed.

Lemma reachable_schema_ok (db : DB) : reachable db -> schema_ok db.
Proof.
  induction 1 as [| db a Hreach IH].
  - exact empty_db_ok.
  - now apply handle_ok.
Qed.

(** Every post of a reachable database has its author *)

Lemma author_exists_iff (db : DB) (p : Post.t) :
  author db p <> None <-> In (Post.user_id p) (map User.id (users db)).
Proof.
  unfold author, get. split.
  - intros H. destruct (find _ (users db)) as [u |] eqn:Hu; [| contradiction].
    apply find_some in Hu. destruct Hu as [Hin Hid]. apply Nat.eqb_eq in Hid.
    rewrite <- Hid. now apply in_map.
  - intros Hin Hnone. apply in_map_iff in Hin. destruct Hin as [u [Hid Hin]].
    pose proof (find_none _ _ Hnone u Hin) as Hno. simpl in Hno.
    apply Nat.eqb_neq in Hno. contradiction.
Qed.

Lemma authors_exist_mono (db db' : DB) :
  (forall k, In k (map User.id (users db)) -> In k (map User.id (users db'))) ->
  (forall p, In p (posts db') ->
             In p (posts db) \/ In (Post.user_id p) (map User.id (users db'))) ->
  authors_exist db -> authors_exist db'.
Proof.
  intros Hus Hps Hdb p Hp. apply author_exists_iff.
  destruct (Hps p Hp) as [Hold | Hnew]; [| assumption].
  apply Hus. apply author_exists_iff. now apply Hdb.
Qed.

Lemma authors_exist_frame (db db' : DB) :
  users db' = users db -> posts db' = posts db ->
  authors_exist db -> authors_exist db'.
Proof.
  intros Hu Hp. apply authors_exist_mono.
  - intros k. now rewrite Hu.
  - intros p. rewrite Hp. auto.
Qed.

Lemma insert_user_authors (db db' : DB) (username email : option string)
    (password : string) (now : datetime) :
  authors_exist db -> insert_user db username email password now = inr db' ->
  authors_exist db'.
Proof.
  intros Hdb. unfold insert_user.
  destruct username as [n |]; [| discriminate].
  destruct email as [e |]; [| discriminate].
  destruct (existsb (by_username n) (users db)); [discriminate |].
  destruct (existsb (by_email e) (users db)); [discriminate |].
  intros H. inversion H. subst db'. clear H.
  revert Hdb. apply authors_exist_mono; simpl.
  - intros k Hk. rewrite map_app. apply in_or_app. now left.
  - auto.
Qed.

Lemma update_user_authors (db db' : DB) (p : pending_user) :
  authors_exist db -> update_user db p = inr db' -> authors_exist db'.
Proof.
  intros Hdb. unfold update_user.
  destruct (p_username p) as [n |]; [| discriminate].
  destruct (existsb _ (users db)); [discriminate |].
  intros H. inversion H. subst db'. clear H.
  revert Hdb. apply authors_exist_mono; simpl.
  - intros k Hk. rewrite map_map.
    now rewrite (map_ext _ User.id (write_user_id p n)).
  - auto.
Qed.

Lemma insert_post_authors (db db' : DB) (cu : User.t)
    (title content image : option string) (now : datetime) :
  In cu (users db) ->
  authors_exist db ->
  insert_post db title content image (User.id cu) now = inr db' ->
  authors_exist db'.
Proof.
  intros Hcu Hdb. unfold insert_post.
  destruct title as [t |]; [| discriminate].
  destruct content as [c |]; [| discriminate].
  intros H. inversion H. subst db'. clear H.
  revert Hdb. apply authors_exist_mono; simpl.
  - auto.
  - intros p Hp. apply in_app_or in Hp. destruct Hp as [Hp | [<- | []]].
    + now left.
    + right. simpl. now apply in_map.
Qed.

(* Likes, comments and follows leave the user and post tables alone. *)
Lemma insert_like_frame (db db' : DB) (uid pid : nat) (now : datetime) :
  insert_like db uid pid now = inr db' ->
  users db' = users db /\ posts db' = posts db.
Proof.
  unfold insert_like. destruct (existsb _ _); [discriminate |].
  intros H. inversion H. auto.
Qed.

Lemma insert_comment_frame (db db' : DB) (content : option string)
    (uid pid : nat) (now : datetime) :
  insert_comment db content uid pid now = inr db' ->
  users db' = users db /\ posts db' = posts db.
Proof.
  unfold insert_comment. destruct content; [| discriminate].
  intros H. inversion H. auto.
Qed.

Lemma insert_follow_frame (db db' : DB) (a b : nat) (now : datetime) :
  insert_follow db a b now = inr db' ->
  users db' = users db /\ posts db' = posts db.
Proof.
  unfold insert_follow. destruct (existsb _ _); [discriminate |].
  intros H. inversion H. auto.
Qed.

Lemma current_user_in (db : DB) (session : option nat) (cu : User.t) :
  current_user db session = Some cu -> In cu (users db).
Proof.
  unfold current_user, load_user. destruct session as [uid |]; [| discriminate].
  intros H. now destruct (get_some _ _ _ _ _ H).
Qed.

Lemma handle_authors (db : DB) (a : action) :
  authors_exist db -> authors_exist (fst (handle db a)).
Proof.
  intros Hdb. destruct a; simpl.
  - unfold initialize_database. view_cases.
    eapply insert_user_authors; eauto.
  - unfold register. view_cases. eapply insert_user_authors; eauto.
  - unfold update_profile, login_required. view_cases.
    eapply update_user_authors; eauto.
  - unfold new_post, login_required. view_cases.
    eapply insert_post_authors; eauto using current_user_in.
  - unfold delete_post, login_required. view_cases;
      (revert Hdb; apply authors_exist_mono; simpl; [auto |];
       intros p Hp; apply in_delete in Hp; tauto).
  - unfold like_post, login_required. view_cases.
    match goal with
    | H : insert_like _ _ _ _ = inr _ |- _ =>
        apply insert_like_frame in H; destruct H
    end.
    revert Hdb. now apply authors_exist_frame.
  - unfold add_comment, login_required. view_cases;
      match goal with
      | H : insert_comment _ _ _ _ _ = inr _ |- _ =>
          apply insert_comment_frame in H; destruct H
      end;
      (revert Hdb; now apply authors_exist_frame).
  - unfold follow_user, login_required. view_cases.
    match goal with
    | H : insert_follow _ _ _ _ = inr _ |- _ =>
        apply insert_follow_frame in H; destruct H
    end.
    revert Hdb. now apply authors_exist_frame.
  - unfold unfollow_user, login_required. view_cases.
  - now rewrite (proj1 (read_only_views db session 1)).
  - now rewrite (proj2 (read_only_views db session page)).
Qed.

Lemma reachable_authors_exist (db : DB) : reachable db -> authors_exist db.
Proof.
  induction 1 as [| db a Hreach IH].
  - intros p [].
  - now apply handle_authors.
Qed.

(* With distinct keys, a key selects at most one row. *)
Lemma NoDup_key_count (row : Type) (key : row -> nat * nat) (rows : list row)
    (k : nat * nat) :
  NoDup (map key rows) ->
  List.length (filter (fun r => (fst (key r) =? fst k) && (snd (key r) =? snd k))
                      rows) <= 1.
Proof.
  induction rows as [| x rows IH]; simpl; intros Hnd; [lia |].
  inversion Hnd as [| ? ? Hnotin Hnd']; subst.
  specialize (IH Hnd').
  destruct ((fst (key x) =? fst k) && (snd (key x) =? snd k)) eqn:Hx;
    simpl; [| lia].
  apply andb_true_iff in Hx. rewrite !Nat.eqb_eq in Hx.
  assert (Hkx : key x = k) by (destruct (key x), k; simpl in *; f_equal; tauto).
  destruct (filter _ rows) as [| y ys] eqn:Hf; simpl; [lia |].
  exfalso. apply Hnotin.
  assert (Hy : In y (filter (fun r => (fst (key r) =? fst k)
                                      && (snd (key r) =? snd k)) rows))
    by (rewrite Hf; now left).
  apply filter_In in Hy. destruct Hy as [Hy Hyk].
  apply andb_true_iff in Hyk. rewrite !Nat.eqb_eq in Hyk.
  assert (Hky : key y = k) by (destruct (key y), k; simpl in *; f_equal; tauto).
  rewrite Hkx, <- Hky. now apply in_map.
Qed.

(** C5: in every database the application can reach from empty tables by
    any sequence of its requests, the (follower id, followed id) pairs of the
    follow table are pairwise distinct and so are the (user id, post id)
    pairs of the like table: no user has two Follow rows to one target or
    two Like rows on one post. *)
Theorem reachable_unique_follow_like (db : DB) :
  reachable db ->
  NoDup (map Follow.key (follows db)) /\
  NoDup (map Like.key (likes db)) /\
  (forall follower followed,
     List.length (filter (edge follower followed) (follows db)) <= 1) /\
  (forall uid pid,
     List.length (filter (like_by uid pid) (likes db)) <= 1).
Proof.
  intros Hreach. apply reachable_schema_ok in Hreach.
  destruct Hreach as [_ _ _ _ _ Hlike _ _ Hfollow].
  split; [assumption |]. split; [assumption |]. split.
  - intros a b.
    exact (NoDup_key_count _ Follow.key (follows db) (a, b) Hfollow).
  - intros u p.
    exact (NoDup_key_count _ Like.key (likes db) (u, p) Hlike).
Qed.

Lemma reachable_unique_follow_like_witness :
  let db := fst (handle (fst (handle (fst (handle empty_db
                   (Initialize 1 "$2b$12$a")))
                   (NewPost (Some 1) (post_request [("title", "t"); ("content", "c")]))))
                   (LikePost (Some 1) 2 1)) in
  reachable db /\
  likes db = [Like.mk 1 1 1 2] /\
  NoDup (map Like.key (likes db)).
Proof.
  intros db.
  assert (Hreach : reachable db)
    by (apply reachable_step, reachable_step, reachable_step, reachable_empty).
  refine (conj Hreach (conj eq_refl _)).
  exact (proj1 (proj2 (reachable_unique_follow_like db Hreach))).
Defined.

(** * The feed *)

Lemma insert_desc_perm (p : Post.t) (l : list Post.t) :
  Permutation (insert_desc p l) (p :: l).
Proof.
  induction l as [| q l IH]; simpl; [reflexivity |].
  destruct (Post.created_at q <=? Post.created_at p)%Z; [reflexivity |].
  rewrite IH. apply perm_swap.
Qed.

Lemma order_by_perm (l : list Post.t) :
  Permutation (order_by_created_at_desc l) l.
Proof.
  induction l as [| p l IH]; simpl; [reflexivity |].
  rewrite insert_desc_perm. now apply perm_skip.
Qed.

Lemma insert_desc_hd (p x : Post.t) (l : list Post.t) :
  newer_first x p -> HdRel newer_first x l ->
  HdRel newer_first x (insert_desc p l).
Proof.
  intros Hxp Hhd. destruct l as [| q l]; simpl; [now constructor |].
  destruct (Post.created_at q <=? Post.created_at p)%Z; constructor; auto.
  now inversion Hhd.
Qed.

Lemma insert_desc_sorted (p : Post.t) (l : list Post.t) :
  Sorted newer_first l -> Sorted newer_first (insert_desc p l).
Proof.
  induction l as [| q l IH]; simpl; intros Hs.
  - repeat constructor.
  - inversion Hs as [| ? ? Hs' Hhd]; subst.
    destruct (Post.created_at q <=? Post.created_at p)%Z eqn:Hle.
    + constructor; [assumption |]. constructor.
      unfold newer_first. now apply Z.leb_le.
    + constructor; [now apply IH |].
      apply insert_desc_hd; [| assumption].
      unfold newer_first. apply Z.leb_gt in Hle. lia.
Qed.

Lemma order_by_sorted (l : list Post.t) :
  StronglySorted newer_first (order_by_created_at_desc l).
Proof.
  apply Sorted_StronglySorted.
  - intros a b c Hab Hbc. unfold newer_first in *. lia.
  - induction l as [| p l IH]; simpl; [constructor |].
    now apply insert_desc_sorted.
Qed.

Lemma in_following_ids (db : DB) (cu : User.t) (k : nat) :
  In k (following_ids db cu) <-> has_edge db (User.id cu) k = true.
Proof.
  unfold following_ids, has_edge. rewrite in_map_iff, existsb_exists.
  split.
  - intros [f [Hk Hf]]. apply filter_In in Hf. destruct Hf as [Hin Hfol].
    exists f. split; [assumption |]. unfold edge.
    now rewrite Hfol, Hk, Nat.eqb_refl.
  - intros [f [Hin He]]. unfold edge in He. apply andb_true_iff in He.
    destruct He as [Ha Hb]. apply Nat.eqb_eq in Hb.
    exists f. split; [assumption |]. apply filter_In. auto.
Qed.

Lemma in__iff (ids : list nat) (k : nat) : in_ ids k = true <-> In k ids.
Proof.
  unfold in_. rewrite existsb_exists. split.
  - intros [x [Hin Hx]]. apply Nat.eqb_eq in Hx. now subst.
  - intros Hin. exists k. split; [assumption | apply Nat.eqb_refl].
Qed.

Lemma in_feed_query (db : DB) (cu : User.t) (p : Post.t) :
  In p (feed_query db cu) <->
  In p (posts db) /\
  (Post.user_id p = User.id cu \/
   has_edge db (User.id cu) (Post.user_id p) = true).
Proof.
  unfold feed_query. split.
  - intros Hin. apply (Permutation_in _ (order_by_perm _)) in Hin.
    apply filter_In in Hin. destruct Hin as [Hin Hsel]. split; [assumption |].
    apply in__iff, in_app_or in Hsel. destruct Hsel as [Hf | [Hme | []]].
    + right. now apply in_following_ids.
    + left. auto.
  - intros [Hin Hsel].
    apply (Permutation_in _ (Permutation_sym (order_by_perm _))).
    apply filter_In. split; [assumption |].
    apply in__iff, in_or_app. destruct Hsel as [Hme | Hf].
    + right. left. auto.
    + left. now apply in_following_ids.
Qed.

(** Pages *)

Lemma firstn_add (A : Type) (a b : nat) (l : list A) :
  firstn (a + b) l = firstn a l ++ firstn b (skipn a l).
Proof.
  revert l. induction a as [| a IH]; intros l; simpl; [reflexivity |].
  destruct l as [| x l]; simpl.
  - now rewrite firstn_nil.
  - now rewrite IH.
Qed.

Lemma in_page (A : Type) (m k : nat) (l : list A) (x : A) :
  In x (firstn m (skipn k l)) -> In x l.
Proof.
  intros Hin.
  rewrite <- (firstn_skipn k l). apply in_or_app. right.
  rewrite <- (firstn_skipn m (skipn k l)). apply in_or_app. now left.
Qed.

(* Laying the pages end to end gives the query result back. *)
Lemma concat_pages (A : Type) (m n : nat) (l : list A) :
  List.concat (map (fun k => firstn m (skipn (k * m) l)) (seq 0 n)) =
  firstn (n * m) l.
Proof.
  induction n as [| n IH]; [reflexivity |].
  rewrite seq_S, map_app, concat_app, IH.
  change (S n * m) with (m + n * m).
  rewrite (Nat.add_comm m (n * m)), firstn_add.
  cbn [map List.concat Nat.add]. now rewrite app_nil_r.
Qed.

Lemma pages_formula (items : list Post.t) (page : Z) (n : nat) :
  Pagination.pages (Pagination.mk items page 10 n) = Z.of_nat ((n + 9) / 10).
Proof.
  unfold Pagination.pages. simpl.
  destruct (n =? 0) eqn:Hn.
  - apply Nat.eqb_eq in Hn. subst n. reflexivity.
  - replace (n + 10 - 1) with (n + 9) by lia. reflexivity.
Qed.

Lemma paginate_in_range (query : list Post.t) (page : Z) :
  (1 <= page)%Z ->
  (page <= Z.max 1 (Z.of_nat ((List.length query + 9) / 10)))%Z ->
  paginate query page 10 =
  Some (Pagination.mk (firstn 10 (skipn (Z.to_nat (page - 1) * 10) query))
                      page 10 (List.length query)).
Proof.
  intros Hlo Hhi. unfold paginate.
  assert (Hlt : (page <? 1)%Z = false) by (apply Z.ltb_ge; lia).
  rewrite Hlt.
  destruct (firstn 10 (skipn (Z.to_nat (page - 1) * 10) query)) as [| x xs] eqn:Hitems;
    [| reflexivity].
  destruct (page =? 1)%Z eqn:Hp; [reflexivity |].
  exfalso. apply Z.eqb_neq in Hp.
  assert (Hlen : List.length (firstn 10 (skipn (Z.to_nat (page - 1) * 10) query)) = 0)
    by now rewrite Hitems.
  rewrite length_firstn, length_skipn in Hlen.
  pose proof (Nat.div_mod_eq (List.length query + 9) 10) as Hdiv.
  assert (Hmod : (List.length query + 9) mod 10 < 10)
    by (apply Nat.mod_upper_bound; discriminate).
  lia.
Qed.

Lemma paginate_out_of_range (query : list Post.t) (page : Z) :
  (page < 1 \/ Z.max 1 (Z.of_nat ((List.length query + 9) / 10)) < page)%Z ->
  paginate query page 10 = None.
Proof.
  intros Hout. unfold paginate.
  destruct (page <? 1)%Z eqn:Hlt; [reflexivity |].
  apply Z.ltb_ge in Hlt. destruct Hout as [Hout | Hout]; [lia |].
  assert (Hskip : skipn (Z.to_nat (page - 1) * 10) query = []).
  { apply skipn_all2.
    pose proof (Nat.div_mod_eq (List.length query + 9) 10) as Hdiv.
    assert (Hmod : (List.length query + 9) mod 10 < 10)
      by (apply Nat.mod_upper_bound; discriminate).
    lia. }
  rewrite Hskip. simpl.
  assert (Hp : (page =? 1)%Z = false) by (apply Z.eqb_neq; lia).
  now rewrite Hp.
Qed.

Lemma posts_json_total (db : DB) (cu : User.t) (ps : list Post.t) :
  (forall p, In p ps -> author db p <> None) ->
  exists posts_data,
    posts_json db cu ps = inr posts_data /\
    map pd_id posts_data = map Post.id ps /\
    map pd_like_count posts_data = map (like_count db) ps /\
    map pd_liked posts_data = map (liked_by db cu) ps.
Proof.
  induction ps as [| p ps IH]; intros Hauth; simpl.
  - exists []. auto.
  - destruct IH as [ds [Hds [H1 [H2 H3]]]].
    { intros q Hq. apply Hauth. now right. }
    unfold post_json.
    destruct (author db p) as [a |] eqn:Ha.
    + rewrite Hds. eexists. split; [reflexivity |]. simpl.
      now rewrite H1, H2, H3.
    + exfalso. apply (Hauth p); [now left | assumption].
Qed.

(** C2: for an authenticated user [cu] the feed, as shown by [home] and
    served by [api_feed], holds exactly the posts whose owner is [cu] or a
    user [cu] follows, each as often as it is in the post table, newest
    first.  [api_feed] cuts it into pages of 10: every page from 1 to the
    last answers with its own number, the number of pages, whether a next
    and a previous page exist, and its slice of the feed; the slices are at
    most 10 long, exactly 10 before the last page, and laid end to end they
    are the feed.  A page number below 1, or beyond the last page, is
    answered by 404.  All this for page numbers whose offset (page - 1) * 10
    SQLite can take as a 64-bit integer: from page 1 on, a larger one ends
    the request in OverflowError. *)
Theorem feed_of_followed_users_in_pages (db : DB) (session : option nat)
    (cu : User.t) :
  current_user db session = Some cu ->
  authors_exist db ->
  let feed := feed_query db cu in
  let pages := Z.of_nat ((List.length feed + 9) / 10) in
  let slice (page : Z) := firstn 10 (skipn (Z.to_nat (page - 1) * 10) feed) in
  (forall p, In p feed <->
             In p (posts db) /\
             (Post.user_id p = User.id cu \/
              has_edge db (User.id cu) (Post.user_id p) = true)) /\
  Permutation feed
    (filter (fun p => in_ (following_ids db cu ++ [User.id cu]) (Post.user_id p))
            (posts db)) /\
  StronglySorted newer_first feed /\
  (exists suggested, home db session = (db, RenderIndex feed suggested)) /\
  (forall page, (1 <= page <= Z.max 1 pages)%Z ->
     ((page - 1) * 10 <= SQLITE_MAX_INT)%Z ->
     exists posts_data,
       api_feed db session page =
         (db, Jsonify (FeedJson posts_data (page <? pages)%Z (1 <? page)%Z
                                page pages) 200) /\
       posts_json db cu (slice page) = inr posts_data /\
       map pd_id posts_data = map Post.id (slice page)) /\
  (forall page, List.length (slice page) <= 10) /\
  (forall page, (1 <= page < pages)%Z -> List.length (slice page) = 10) /\
  List.concat (map (fun k => slice (Z.of_nat (S k))) (seq 0 (Z.to_nat pages)))
    = feed /\
  (forall page,
     (page < 1)%Z \/
     ((Z.max 1 pages < page)%Z /\ ((page - 1) * 10 <= SQLITE_MAX_INT)%Z) ->
     api_feed db session page = (db, Abort 404)) /\
  (forall page, (1 <= page)%Z -> (SQLITE_MAX_INT < (page - 1) * 10)%Z ->
     api_feed db session page = (db, Raised OverflowError)).
Proof.
  intros Hcu Hauth feed pages slice.
  assert (Hgate : forall page,
            (page < 1)%Z \/ ((page - 1) * 10 <= SQLITE_MAX_INT)%Z ->
            (1 <=? page)%Z && negb (fits_sqlite ((page - 1) * Z.of_nat 10)) = false).
  { intros page [Hlow | Hfit].
    - apply andb_false_iff. left. apply Z.leb_gt. exact Hlow.
    - apply andb_false_iff. right. apply negb_false_iff.
      unfold fits_sqlite. apply Z.leb_le. exact Hfit. }
  pose proof (Nat.div_mod_eq (List.length feed + 9) 10) as Hdiv.
  assert (Hmod : (List.length feed + 9) mod 10 < 10)
    by (apply Nat.mod_upper_bound; discriminate).
  refine (conj _ (conj _ (conj _ (conj _ (conj _ (conj _ (conj _ (conj _
           (conj _ _))))))))).
  - intros p. apply in_feed_query.
  - apply order_by_perm.
  - apply order_by_sorted.
  - unfold home. rewrite Hcu. eexists. reflexivity.
  - intros page Hrange Hfit.
    destruct (posts_json_total db cu (slice page)) as [ds [Hds [Hids _]]].
    { intros p Hp. apply Hauth.
      apply in_page in Hp. now apply in_feed_query in Hp. }
    exists ds. split; [| split; assumption].
    unfold api_feed, login_required. rewrite Hcu.
    rewrite (Hgate page (or_intror Hfit)).
    fold feed. rewrite (paginate_in_range feed page); [| lia | fold pages; lia].
    cbn [Pagination.items]. fold (slice page). rewrite Hds.
    unfold Pagination.has_next, Pagination.has_prev.
    rewrite pages_formula. reflexivity.
  - intros page. unfold slice. apply firstn_le_length.
  - intros page Hrange. unfold slice. rewrite length_firstn, length_skipn.
    unfold pages in Hrange. lia.
  - transitivity (firstn (Z.to_nat pages * 10) feed).
    + rewrite <- concat_pages. f_equal. apply map_ext. intros k.
      unfold slice. now replace (Z.to_nat (Z.of_nat (S k) - 1)) with k by lia.
    + apply firstn_all2. unfold pages. lia.
  - intros page Hout.
    unfold api_feed, login_required. rewrite Hcu.
    rewrite Hgate by tauto. fold feed.
    rewrite (paginate_out_of_range feed page); [reflexivity | fold pages; tauto].
  - intros page Hlow Hbig.
    unfold api_feed, login_required. rewrite Hcu.
    assert (Hraise : (1 <=? page)%Z
                     && negb (fits_sqlite ((page - 1) * Z.of_nat 10)) = true).
    { apply andb_true_iff. split; [now apply Z.leb_le |].
      apply negb_true_iff. unfold fits_sqlite. apply Z.leb_gt. exact Hbig. }
    now rewrite Hraise.
Qed.

Lemma feed_of_followed_users_in_pages_witness :
  current_user sample_db_liked (Some 2) = Some bob /\
  authors_exist sample_db_liked /\
  exists posts_data,
    api_feed sample_db_liked (Some 2) 1 =
    (sample_db_liked, Jsonify (FeedJson posts_data false false 1 1) 200) /\
    map pd_id posts_data = [1].
Proof.
  assert (Hauth : authors_exist sample_db_liked).
  { intros p [<- | []]. discriminate. }
  refine (conj eq_refl (conj Hauth _)).
  destruct (feed_of_followed_users_in_pages sample_db_liked (Some 2) bob
              eq_refl Hauth) as (_ & _ & _ & _ & H & _).
  destruct (H 1%Z) as [ds [Hresp [_ Hids]]]; [simpl; lia | discriminate |].
  exists ds. split; [exact Hresp | exact Hids].
Defined.

(** * The handlers on concrete requests *)

Example allowed_file_examples :
  allowed_file "photo.PNG" = true /\
  allowed_file "archive.tar.gif" = true /\
  allowed_file "notes.txt" = false /\
  allowed_file "jpg" = false /\
  allowed_file "" = false.
Proof. repeat split. Qed.

Example scenario_responses :
  snd (run empty_db scenario) =
  [ Redirect "login" None
      (Some ("Account created successfully! Please log in.", "success"));
    Redirect "login" None
      (Some ("Account created successfully! Please log in.", "success"));
    Redirect "user_profile" (Some "alice")
      (Some ("You are now following alice!", "success"));
    Redirect "home" None (Some ("Your post has been created!", "success"));
    Jsonify (FeedJson
               [mkPostData 1 "hello" "world" None 13 "alice" "default.jpg" 0 0 false]
               false false 1 1) 200;
    Jsonify (LikeJson true 1) 200;
    Jsonify (LikeJson false 0) 200;
    Jsonify (CommentJson "nice" "bob" "/static/uploads/default.jpg" 16 1) 200 ].
Proof. vm_compute. reflexivity. Qed.


(** * Further properties of the views *)

(** ** Uploads *)

Lemma rsplit_dot_none (s : string) :
  contains_dot s = false -> rsplit_dot s = None.
Proof.
  induction s as [| c s IH]; simpl; [reflexivity |].
  intros H. apply orb_false_iff in H. destruct H as [Hc Hs].
  now rewrite (IH Hs), Hc.
Qed.

Lemma rsplit_dot_app (stem ext : string) :
  contains_dot ext = false ->
  rsplit_dot (stem ++ String "."%char ext)%string = Some ext.
Proof.
  intros Hext. induction stem as [| c stem IH]; simpl.
  - now rewrite (rsplit_dot_none ext Hext).
  - now rewrite IH.
Qed.

Lemma rsplit_dot_some (s ext : string) :
  rsplit_dot s = Some ext ->
  exists stem, s = (stem ++ String "."%char ext)%string /\ contains_dot ext = false.
Proof.
  revert ext. induction s as [| c s IH]; simpl; intros ext H; [discriminate |].
  destruct (rsplit_dot s) as [e |] eqn:Hs.
  - inversion H. subst e. destruct (IH ext eq_refl) as [stem [Heq Hno]].
    exists (String c stem). simpl. now rewrite <- Heq.
  - destruct (Ascii.eqb c "."%char) eqn:Hc; [| discriminate].
    inversion H. subst ext. apply Ascii.eqb_eq in Hc. subst c.
    exists EmptyString. split; [reflexivity |].
    clear IH H. induction s as [| d s IH]; simpl in *; [reflexivity |].
    destruct (rsplit_dot s) as [e |]; [discriminate |].
    destruct (Ascii.eqb d "."%char); [discriminate |]. simpl. now apply IH.
Qed.

(** X1: [allowed_file] accepts exactly the names of the form stem.ext in
    which ext has no dot and is, lower-cased, one of png, jpg, jpeg, gif: the
    test looks at what follows the last dot only, whatever its case, and a
    name without a dot is refused. *)
Theorem allowed_file_last_extension (name : string) :
  allowed_file name = true <->
  exists stem ext,
    name = (stem ++ String "."%char ext)%string /\
    contains_dot ext = false /\
    In (lower ext) ALLOWED_EXTENSIONS.
Proof.
  unfold allowed_file. split.
  - destruct (rsplit_dot name) as [ext |] eqn:Hsplit; [| discriminate].
    intros Hin. apply rsplit_dot_some in Hsplit. destruct Hsplit as [stem [Hn Hno]].
    exists stem, ext. split; [assumption |]. split; [assumption |].
    apply existsb_exists in Hin. destruct Hin as [a [Ha Heq]].
    apply String.eqb_eq in Heq. now subst a.
  - intros [stem [ext [Hn [Hno Hin]]]]. subst name.
    rewrite (rsplit_dot_app stem ext Hno).
    apply existsb_exists. exists (lower ext). split; [assumption |].
    apply String.eqb_refl.
Qed.

(** X2: a file sent with a post whose name is empty or fails [allowed_file]
    is ignored without being opened: with a title and non-empty content the
    post is stored, its image left NULL, whatever [save_picture] would have
    done with the file. *)
Theorem new_post_ignores_disallowed_file (db : DB) (session : option nat)
    (cu : User.t) (req : request) (title content : string) (file : FileStorage) :
  current_user db session = Some cu ->
  method req = POST ->
  dict_get "title" (form req) = Some title ->
  dict_get "content" (form req) = Some content ->
  content <> "" ->
  dict_get "image" (files req) = Some file ->
  filename file = "" \/ allowed_file (filename file) = false ->
  new_post db session req =
  (set_posts db
     (posts db ++
      [Post.mk (next_id Post.id (posts db)) title content None
               (utcnow req) (User.id cu)]),
   Redirect "home" None (Some ("Your post has been created!", "success"))).
Proof.
  intros Hcu Hm Ht Hc Hne Hfile Hbad. unfold new_post, login_required.
  rewrite Hcu, Hm, Ht, Hc. simpl.
  apply String.eqb_neq in Hne. rewrite Hne. simpl.
  unfold upload. rewrite Hfile.
  assert (Hskip : negb (String.eqb (filename file) "")
                  && allowed_file (filename file) = false).
  { destruct Hbad as [-> | ->]; [reflexivity | apply andb_false_r]. }
  now rewrite Hskip.
Qed.

Lemma new_post_ignores_disallowed_file_witness :
  "again" <> "" /\
  posts (fst (new_post sample_db (Some 1)
                (mkRequest POST [("title", "t"); ("content", "again")]
                           [("image", mkFile "notes.txt" None)] 400 ""))) =
  [hello; Post.mk 2 "t" "again" None 400 1].
Proof.
  assert (Hne : "again" <> "") by discriminate.
  split; [exact Hne |].
  rewrite (new_post_ignores_disallowed_file sample_db (Some 1) alice
             (mkRequest POST [("title", "t"); ("content", "again")]
                        [("image", mkFile "notes.txt" None)] 400 "")
             "t" "again" (mkFile "notes.txt" None)
             eq_refl eq_refl eq_refl eq_refl Hne eq_refl (or_intror eq_refl)).
  reflexivity.
Defined.

(** X3: when the picture sent with a post or with a profile update has an
    allowed name and [save_picture] raises on it, the request ends in that
    exception and nothing is stored: no post row, no change of the profile,
    the other submitted fields included. *)
Theorem failed_picture_stores_nothing (db : DB) (session : option nat)
    (cu : User.t) (req : request) (field : string) (file : FileStorage) :
  current_user db session = Some cu ->
  method req = POST ->
  dict_get field (files req) = Some file ->
  filename file <> "" ->
  allowed_file (filename file) = true ->
  saved file = None ->
  (field = "image" ->
   truthy (dict_get "content" (form req)) = true ->
   new_post db session req = (db, Raised PictureError)) /\
  (field = "profile_image" ->
   update_profile db session req = (db, Raised PictureError)).
Proof.
  intros Hcu Hm Hfile Hname Hok Hsaved.
  apply String.eqb_neq in Hname.
  split; intros ->.
  - intros Hcontent. unfold new_post, login_required.
    rewrite Hcu, Hm, Hcontent. simpl. unfold upload.
    now rewrite Hfile, Hname, Hok, Hsaved.
  - unfold update_profile, login_required. rewrite Hcu, Hm. unfold upload.
    now rewrite Hfile, Hname, Hok, Hsaved.
Qed.

Lemma failed_picture_stores_nothing_witness :
  "me.png" <> "" /\
  update_profile sample_db (Some 1)
    (mkRequest POST [("username", "alice2"); ("bio", "hi")]
               [("profile_image", mkFile "me.png" None)] 400 "")
  = (sample_db, Raised PictureError).
Proof.
  assert (Hne : "me.png" <> "") by discriminate.
  split; [exact Hne |].
  exact (proj2 (failed_picture_stores_nothing sample_db (Some 1) alice
                  (mkRequest POST [("username", "alice2"); ("bio", "hi")]
                             [("profile_image", mkFile "me.png" None)] 400 "")
                  "profile_image" (mkFile "me.png" None)
                  eq_refl eq_refl eq_refl Hne eq_refl eq_refl) eq_refl).
Defined.

(** ** Who may do what *)

(** X4: every view behind [login_required], asked without a session that
    resolves to a user, answers with the redirect to the login page and
    leaves the database as it is; the pages that only read redirect too. *)
Theorem anonymous_requests_change_nothing (db : DB) (session : option nat) :
  current_user db session = None ->
  (forall a, protected a = Some session -> handle db a = (db, LoginRedirect)) /\
  profile db session = PageLoginRedirect /\
  (forall username, user_profile db session username = PageLoginRedirect) /\
  (forall post_id, view_post db session post_id = PageLoginRedirect) /\
  (forall contains q, search contains db session q = PageLoginRedirect) /\
  logout db session = (session, LoginRedirect).
Proof.
  intros Hanon.
  refine (conj _ (conj _ (conj _ (conj _ (conj _ _))))).
  - intros a Ha.
    destruct a; simpl in Ha; inversion Ha; subst; simpl;
      unfold update_profile, new_post, delete_post, like_post, add_comment,
             follow_user, unfollow_user, api_feed, login_required;
      now rewrite Hanon.
  - unfold profile. now rewrite Hanon.
  - intros username. unfold user_profile. now rewrite Hanon.
  - intros post_id. unfold view_post. now rewrite Hanon.
  - intros contains q. unfold search. now rewrite Hanon.
  - unfold logout. now rewrite Hanon.
Qed.

Lemma anonymous_requests_change_nothing_witness :
  current_user sample_db_liked (Some 9) = None /\
  handle sample_db_liked (DeletePost (Some 9) 1) = (sample_db_liked, LoginRedirect).
Proof.
  split; [reflexivity |].
  exact (proj1 (anonymous_requests_change_nothing sample_db_liked (Some 9) eq_refl)
               (DeletePost (Some 9) 1) eq_refl).
Defined.

Lemma get_none (row : Type) (pk : row -> nat) (rows : list row) (k : nat) :
  (forall r, In r rows -> pk r <> k) -> get pk rows k = None.
Proof.
  intros H. unfold get.
  destruct (find (fun r => pk r =? k) rows) as [r |] eqn:Hf; [| reflexivity].
  apply find_some in Hf. destruct Hf as [Hin Hk]. apply Nat.eqb_eq in Hk.
  exfalso. now apply (H r).
Qed.

Lemma first_by_username_none (db : DB) (username : string) :
  (forall u, In u (users db) -> User.username u <> username) ->
  first (by_username username) (users db) = None.
Proof.
  intros H. unfold first.
  destruct (find (by_username username) (users db)) as [u |] eqn:Hf;
    [| reflexivity].
  apply find_some in Hf. destruct Hf as [Hin Hu].
  unfold by_username in Hu. apply String.eqb_eq in Hu.
  exfalso. now apply (H u).
Qed.

(** X5: for an authenticated user, a request that names a post id no post
    row has, or a username no account has, changes nothing.  For the post id
    (like, comment, delete, view) the answer is 404 when the id fits a 64-bit
    integer, and the request ends in OverflowError when it does not; for the
    username (follow, unfollow, profile page) the answer is 404. *)
Theorem unknown_target_is_404 (db : DB) (session : option nat) (cu : User.t) :
  current_user db session = Some cu ->
  (forall post_id,
     (forall p, In p (posts db) -> Post.id p <> post_id) ->
     ((Z.of_nat post_id <= SQLITE_MAX_INT)%Z ->
      (forall now, like_post db session now post_id = (db, Abort 404)) /\
      (forall now content,
         add_comment db session now post_id content = (db, Abort 404)) /\
      delete_post db session post_id = (db, Abort 404) /\
      view_post db session post_id = PageAbort 404) /\
     ((SQLITE_MAX_INT < Z.of_nat post_id)%Z ->
      (forall now,
         like_post db session now post_id = (db, Raised OverflowError)) /\
      (forall now content,
         add_comment db session now post_id content =
         (db, Raised OverflowError)) /\
      delete_post db session post_id = (db, Raised OverflowError) /\
      view_post db session post_id = PageRaised OverflowError)) /\
  (forall username,
     (forall u, In u (users db) -> User.username u <> username) ->
     (forall now, follow_user db session now username = (db, Abort 404)) /\
     unfollow_user db session username = (db, Abort 404) /\
     user_profile db session username = PageAbort 404).
Proof.
  intros Hcu. split.
  - intros post_id Hnone. apply get_none in Hnone.
    unfold like_post, add_comment, delete_post, view_post, login_required,
           no_such_post.
    rewrite Hcu, Hnone. split; intros Hfit.
    + assert (Hf : fits_sqlite (Z.of_nat post_id) = true)
        by (unfold fits_sqlite; now apply Z.leb_le).
      rewrite Hf. auto.
    + assert (Hf : fits_sqlite (Z.of_nat post_id) = false)
        by (unfold fits_sqlite; now apply Z.leb_gt).
      rewrite Hf. auto.
  - intros username Hnone. apply first_by_username_none in Hnone.
    unfold follow_user, unfollow_user, user_profile, login_required.
    rewrite Hcu, Hnone. auto.
Qed.

Lemma unknown_target_is_404_witness :
  current_user sample_db_liked (Some 2) = Some bob /\
  like_post sample_db_liked (Some 2) 500 7 = (sample_db_liked, Abort 404).
Proof.
  split; [reflexivity |].
  destruct (unknown_target_is_404 sample_db_liked (Some 2) bob eq_refl) as [H _].
  refine (proj1 (proj1 (H 7 _) _) 500%Z).
  - intros p [<- | []]. discriminate.
  - discriminate.
Defined.

(** ** Requests that cannot run into the constraints *)

(** X7: [register] can end in an exception in four ways only: a missing or
    empty password and a password of more than 72 bytes (both ValueError
    from bcrypt), and a missing username or email field (NOT NULL).  A
    username or an email that is already taken is always caught by the
    handler's own checks, never by the UNIQUE constraints. *)
Theorem register_raises_only_on_missing_fields (db : DB) (session : option nat)
    (req : request) (e : exn) :
  snd (register db session req) = Raised e ->
  (e = ValueError "Password must be non-empty." /\
   truthy (dict_get "password" (form req)) = false) \/
  (e = ValueError "password cannot be longer than 72 bytes" /\
   exists pw, dict_get "password" (form req) = Some pw /\ 72 < String.length pw) \/
  (e = IntegrityError "NOT NULL constraint failed: user.username" /\
   dict_get "username" (form req) = None) \/
  (e = IntegrityError "NOT NULL constraint failed: user.email" /\
   dict_get "email" (form req) = None).
Proof.
  unfold register.
  destruct (current_user db session); [discriminate |].
  destruct (method req); [discriminate |].
  destruct (negb (opt_string_eqb _ _)); [discriminate |].
  destruct (found (first_by by_username (dict_get "username" (form req)) db))
    eqn:Hu; [discriminate |].
  destruct (found (first_by by_email (dict_get "email" (form req)) db))
    eqn:He; [discriminate |].
  destruct (truthy (dict_get "password" (form req))) eqn:Hpw; simpl;
    [| intros H; inversion H; auto].
  destruct (too_long_for_bcrypt (dict_get "password" (form req))) eqn:Hlong.
  - intros H. inversion H. right. left. split; [reflexivity |].
    unfold too_long_for_bcrypt in Hlong.
    destruct (dict_get "password" (form req)) as [pw |]; [| discriminate].
    exists pw. split; [reflexivity |]. now apply Nat.ltb_lt.
  - unfold insert_user.
    destruct (dict_get "username" (form req)) as [n |].
    + destruct (dict_get "email" (form req)) as [m |].
      * simpl in Hu, He. unfold first in Hu, He.
        rewrite found_find in Hu, He. rewrite Hu, He. discriminate.
      * intros H. inversion H. auto.
    + intros H. inversion H. auto.
Qed.

Lemma register_raises_only_on_missing_fields_witness :
  snd (register sample_db None
         (post_request [("email", "c@x.com"); ("password", "pw");
                        ("confirm_password", "pw")]))
  = Raised (IntegrityError "NOT NULL constraint failed: user.username") /\
  dict_get "username"
    (form (post_request [("email", "c@x.com"); ("password", "pw");
                         ("confirm_password", "pw")])) = None.
Proof.
  split; [reflexivity |].
  destruct (register_raises_only_on_missing_fields sample_db None
              (post_request [("email", "c@x.com"); ("password", "pw");
                             ("confirm_password", "pw")])
              (IntegrityError "NOT NULL constraint failed: user.username")
              eq_refl) as [[H _] | [[H _] | [[_ H] | [H _]]]];
    [discriminate H | discriminate H | exact H | discriminate H].
Defined.

(** ** Accounts and comments *)

Lemma opt_string_eqb_eq (a b : option string) :
  opt_string_eqb a b = true <-> a = b.
Proof.
  destruct a as [x |], b as [y |]; simpl; split; intros H;
    try discriminate; try reflexivity.
  - apply String.eqb_eq in H. now subst.
  - inversion H. apply String.eqb_refl.
Qed.

Lemma existsb_by_field (f : User.t -> string) (v : string) (us : list User.t) :
  existsb (fun u => String.eqb (f u) v) us = false <->
  (forall u, In u us -> f u <> v).
Proof.
  split.
  - intros H u Hin Heq.
    assert (Hc : existsb (fun u => String.eqb (f u) v) us = true).
    { apply existsb_exists. exists u. split; [assumption |].
      now apply String.eqb_eq. }
    congruence.
  - intros H. apply not_true_is_false. intros Hc.
    apply existsb_exists in Hc. destruct Hc as [u [Hin Heq]].
    apply String.eqb_eq in Heq. now apply (H u).
Qed.

(** X8: the outcomes of a registration form sent without a session, in the
    order the handler tests them: passwords that differ, then a username
    that is taken, then an email that is taken, are each answered with their
    own flash message and store nothing; a form with a free username, a free
    email and a password of 1 to 72 bytes appends exactly one account, with
    the bcrypt digest as password, 'default.jpg', an empty bio and no
    location, which is from then on the account found under that username;
    with a longer password bcrypt raises and nothing is stored. *)
Theorem register_outcomes (db : DB) (session : option nat) (req : request) :
  current_user db session = None ->
  method req = POST ->
  let username := dict_get "username" (form req) in
  let email := dict_get "email" (form req) in
  let password := dict_get "password" (form req) in
  let confirm_password := dict_get "confirm_password" (form req) in
  (password <> confirm_password ->
   register db session req =
   (db, Redirect "register" None (Some ("Passwords do not match!", "danger")))) /\
  (password = confirm_password ->
   forall n u, username = Some n -> In u (users db) -> User.username u = n ->
   register db session req =
   (db, Redirect "register" None (Some ("Username already exists!", "danger")))) /\
  (password = confirm_password ->
   (forall n u, username = Some n -> In u (users db) -> User.username u <> n) ->
   forall m u, email = Some m -> In u (users db) -> User.email u = m ->
   register db session req =
   (db, Redirect "register" None (Some ("Email already registered!", "danger")))) /\
  (password = confirm_password ->
   too_long_for_bcrypt password = true ->
   (forall n u, username = Some n -> In u (users db) -> User.username u <> n) ->
   (forall m u, email = Some m -> In u (users db) -> User.email u <> m) ->
   register db session req =
   (db, Raised (ValueError "password cannot be longer than 72 bytes"))) /\
  (password = confirm_password ->
   truthy password = true ->
   too_long_for_bcrypt password = false ->
   forall n m,
     username = Some n -> email = Some m ->
     (forall u, In u (users db) -> User.username u <> n) ->
     (forall u, In u (users db) -> User.email u <> m) ->
     let account := User.mk (next_id User.id (users db)) n m (bcrypt_digest req)
                            "default.jpg" (Some "") None (utcnow req) in
     register db session req =
     (set_users db (users db ++ [account]),
      Redirect "login" None
        (Some ("Account created successfully! Please log in.", "success"))) /\
     first (by_username n) (users db ++ [account]) = Some account).
Proof.
  intros Hanon Hm username email password confirm_password.
  unfold register. rewrite Hanon, Hm.
  fold username email password confirm_password.
  refine (conj _ (conj _ (conj _ (conj _ _)))).
  - intros Hne.
    destruct (opt_string_eqb password confirm_password) eqn:Heq; [| reflexivity].
    apply opt_string_eqb_eq in Heq. contradiction.
  - intros Hpw n u Hn Hin Hu.
    apply opt_string_eqb_eq in Hpw. rewrite Hpw, Hn. simpl.
    destruct (first (by_username n) (users db)) eqn:Hf; [reflexivity |].
    exfalso. pose proof (find_none _ _ Hf u Hin) as Hno.
    unfold by_username in Hno. apply String.eqb_neq in Hno. contradiction.
  - intros Hpw Hfree m u Hmail Hin Hu.
    apply opt_string_eqb_eq in Hpw. rewrite Hpw. simpl.
    assert (Hnot : found (first_by by_username username db) = false).
    { destruct username as [n |]; [| reflexivity]. simpl.
      unfold first. rewrite found_find. apply existsb_by_field.
      intros u' Hu'. now apply (Hfree n u'). }
    rewrite Hnot, Hmail. simpl.
    destruct (first (by_email m) (users db)) eqn:Hf; [reflexivity |].
    exfalso. pose proof (find_none _ _ Hf u Hin) as Hno.
    unfold by_email in Hno. apply String.eqb_neq in Hno. contradiction.
  - intros Hpw Hlong Hfree_n Hfree_m.
    apply opt_string_eqb_eq in Hpw. rewrite Hpw. simpl.
    assert (Hnot_n : found (first_by by_username username db) = false).
    { destruct username as [n |]; [| reflexivity]. simpl.
      unfold first. rewrite found_find. apply existsb_by_field.
      intros u' Hu'. now apply (Hfree_n n u'). }
    assert (Hnot_m : found (first_by by_email email db) = false).
    { destruct email as [m |]; [| reflexivity]. simpl.
      unfold first. rewrite found_find. apply existsb_by_field.
      intros u' Hu'. now apply (Hfree_m m u'). }
    rewrite Hnot_n, Hnot_m, Hlong.
    assert (Htruthy : truthy password = true).
    { unfold too_long_for_bcrypt in Hlong. destruct password as [pw |];
        [| discriminate]. simpl. apply Nat.ltb_lt in Hlong.
      destruct pw; [simpl in Hlong; lia | reflexivity]. }
    now rewrite Htruthy.
  - intros Hpw Htruthy Hshort n m Hn Hmail Hfree_n Hfree_m.
    apply opt_string_eqb_eq in Hpw. rewrite Hpw, Hn, Hmail, Htruthy, Hshort. simpl.
    assert (Hun : existsb (by_username n) (users db) = false)
      by now apply existsb_by_field.
    assert (Hum : existsb (by_email m) (users db) = false)
      by now apply existsb_by_field.
    unfold first. rewrite !found_find, Hun, Hum. simpl.
    split; [reflexivity |].
    apply find_app_last; [assumption |].
    unfold by_username. simpl. apply String.eqb_refl.
Qed.

Lemma register_outcomes_witness :
  current_user sample_db None = None /\
  users (fst (register sample_db None
                (post_request [("username", "carol"); ("email", "c@x.com");
                               ("password", "pw3"); ("confirm_password", "pw3")])))
  = [alice; bob;
     User.mk 3 "carol" "c@x.com" "$2b$12$c" "default.jpg" (Some "") None 400].
Proof.
  split; [reflexivity |].
  destruct (register_outcomes sample_db None
              (post_request [("username", "carol"); ("email", "c@x.com");
                             ("password", "pw3"); ("confirm_password", "pw3")])
              eq_refl eq_refl) as (_ & _ & _ & _ & H).
  destruct (H eq_refl eq_refl eq_refl "carol" "c@x.com" eq_refl eq_refl)
    as [Hreg _].
  - intros u [<- | [<- | []]]; discriminate.
  - intros u [<- | [<- | []]]; discriminate.
  - now rewrite Hreg.
Defined.

(** X9: for an authenticated user and an existing post, [add_comment] with
    a missing or empty content answers 400 with the error message and stores
    nothing; with a non-empty content it appends exactly one comment by the
    user on that post and answers with the content, the user's name and
    picture path, and a comment count one higher than before. *)
Theorem add_comment_outcomes (db : DB) (session : option nat) (cu : User.t)
    (now : datetime) (post_id : nat) (post : Post.t) :
  current_user db session = Some cu ->
  get Post.id (posts db) post_id = Some post ->
  (forall content,
     content = None \/ content = Some "" ->
     add_comment db session now post_id content =
     (db, Jsonify (ErrorJson "Comment cannot be empty") 400)) /\
  (forall c,
     c <> "" ->
     add_comment db session now post_id (Some c) =
     (set_comments db
        (comments db ++
         [Comment.mk (next_id Comment.id (comments db)) c now (User.id cu) post_id]),
      Jsonify (CommentJson c (User.username cu)
                           ("/static/uploads/" ++ User.profile_image cu)%string
                           now (S (comment_count db post))) 200)).
Proof.
  intros Hcu Hpost. destruct (get_some _ _ _ _ _ Hpost) as [_ Hpid].
  split.
  - intros content Hc. unfold add_comment, login_required. rewrite Hcu, Hpost.
    destruct Hc as [-> | ->]; reflexivity.
  - intros c Hne. unfold add_comment, login_required. rewrite Hcu, Hpost.
    simpl. apply String.eqb_neq in Hne. rewrite Hne. simpl.
    f_equal. f_equal. f_equal.
    unfold comment_count. simpl. rewrite filter_app, length_app. simpl.
    rewrite Hpid, Nat.eqb_refl. simpl. lia.
Qed.

Lemma add_comment_outcomes_witness :
  current_user sample_db_liked (Some 2) = Some bob /\
  "nice" <> "" /\
  snd (add_comment sample_db_liked (Some 2) 500 1 (Some "nice")) =
  Jsonify (CommentJson "nice" "bob" "/static/uploads/default.jpg" 500 1) 200.
Proof.
  assert (Hne : "nice" <> "") by discriminate.
  refine (conj eq_refl (conj Hne _)).
  destruct (add_comment_outcomes sample_db_liked (Some 2) bob 500 1 hello
              eq_refl eq_refl) as [_ H].
  now rewrite (H "nice" Hne).
Defined.

(** X10: for an authenticated user and an existing target, in a database
    that satisfies the schema, [unfollow_user] leaves no Follow row from the
    user to the target, keeps every other Follow row and every other table,
    does nothing at all (and flashes nothing) when the user was not
    following, and is therefore without effect when repeated. *)
Theorem unfollow_user_removes_the_edge (db : DB) (session : option nat)
    (cu user : User.t) (username : string) :
  schema_ok db ->
  current_user db session = Some cu ->
  first (by_username username) (users db) = Some user ->
  let db' := fst (unfollow_user db session username) in
  is_following db' cu user = false /\
  (forall f, In f (follows db') <->
             In f (follows db) /\ Follow.key f <> (User.id cu, User.id user)) /\
  users db' = users db /\ posts db' = posts db /\
  likes db' = likes db /\ comments db' = comments db /\
  (is_following db cu user = false ->
   unfollow_user db session username =
   (db, Redirect "user_profile" (Some username) None)) /\
  unfollow_user db' session username =
  (db', Redirect "user_profile" (Some username) None).
Proof.
  intros Hok Hcu Huser db'.
  pose proof (unfollow_user_spec db session cu username user Hcu Huser) as Hspec.
  assert (Hnoop : forall d, current_user d session = Some cu ->
                    first (by_username username) (users d) = Some user ->
                    is_following d cu user = false ->
                    unfollow_user d session username =
                    (d, Redirect "user_profile" (Some username) None)).
  { intros d Hd1 Hd2 Hd3.
    rewrite (unfollow_user_spec d session cu username user Hd1 Hd2).
    unfold is_following in Hd3.
    now destruct (first (edge (User.id cu) (User.id user)) (follows d)). }
  destruct (first (edge (User.id cu) (User.id user)) (follows db))
    as [follow |] eqn:Hfirst.
  - unfold first in Hfirst. apply find_some in Hfirst.
    destruct Hfirst as [Hin Hedge]. apply edge_key in Hedge.
    assert (Hchar : forall f,
              In f (delete Follow.id (follows db) (Follow.id follow)) <->
              In f (follows db) /\ Follow.key f <> (User.id cu, User.id user)).
    { intros f. rewrite in_delete. split; intros [Hf Hne]; split; auto.
      - intros Hk. apply Hne. f_equal.
        apply (NoDup_key_inj _ _ Follow.key (follows db));
          auto using unique_follow. congruence.
      - intros Hid. apply Hne.
        assert (f = follow)
          by (apply (NoDup_key_inj _ _ Follow.id (follows db));
              auto using follows_pk).
        congruence. }
    assert (Hgone : is_following db' cu user = false).
    { rewrite is_following_has_edge. apply not_true_is_false. intros Hc.
      unfold has_edge in Hc. apply existsb_exists in Hc.
      destruct Hc as [f [Hf He]]. apply edge_key in He.
      subst db'. rewrite Hspec in Hf. simpl in Hf.
      apply Hchar in Hf. now destruct Hf. }
    refine (conj Hgone (conj _ _)).
    + subst db'. rewrite Hspec. simpl. exact Hchar.
    + subst db'. rewrite Hspec in *. simpl in *.
      refine (conj eq_refl (conj eq_refl (conj eq_refl (conj eq_refl (conj _ _))))).
      * intros Hnot. rewrite is_following_has_edge in Hnot.
        exfalso. unfold has_edge in Hnot.
        assert (Hc : existsb (edge (User.id cu) (User.id user)) (follows db) = true).
        { apply existsb_exists. exists follow. split; [assumption |].
          now apply edge_key. }
        congruence.
      * now apply Hnoop.
  - assert (Hnot : is_following db cu user = false).
    { unfold is_following. now rewrite Hfirst. }
    assert (Hdb' : db' = db) by (subst db'; now rewrite Hspec).
    rewrite Hdb'.
    refine (conj Hnot (conj _ (conj eq_refl (conj eq_refl (conj eq_refl
             (conj eq_refl (conj (fun _ => Hnoop db Hcu Huser Hnot)
                                 (Hnoop db Hcu Huser Hnot)))))))).
    intros f. split; [| tauto].
    intros Hf. split; [assumption |].
    intros Hk. rewrite is_following_has_edge in Hnot. unfold has_edge in Hnot.
    assert (Hc : existsb (edge (User.id cu) (User.id user)) (follows db) = true).
    { apply existsb_exists. exists f. split; [assumption |]. now apply edge_key. }
    congruence.
Qed.

Lemma unfollow_user_removes_the_edge_witness :
  schema_ok sample_db_liked /\
  current_user sample_db_liked (Some 2) = Some bob /\
  first (by_username "alice") (users sample_db_liked) = Some alice /\
  is_following (fst (unfollow_user sample_db_liked (Some 2) "alice")) bob alice
  = false.
Proof.
  refine (conj sample_db_liked_ok (conj eq_refl (conj eq_refl _))).
  exact (proj1 (unfollow_user_removes_the_edge sample_db_liked (Some 2) bob alice
                  "alice" sample_db_liked_ok eq_refl eq_refl)).
Defined.


(** ** What a request can write *)

Lemma truthy_nonempty (v : option string) :
  truthy v = true -> exists s, v = Some s /\ s <> "".
Proof.
  destruct v as [s |]; simpl; [| discriminate].
  intros H. exists s. split; [reflexivity |].
  apply negb_true_iff in H. now apply String.eqb_neq.
Qed.

Lemma insert_user_write (db db' : DB) (username email : option string)
    (password : string) (now : datetime) :
  insert_user db username email password now = inr db' -> db_write db db'.
Proof.
  unfold insert_user.
  destruct username as [n |]; [| discriminate].
  destruct email as [e |]; [| discriminate].
  destruct (existsb (by_username n) (users db)); [discriminate |].
  destruct (existsb (by_email e) (users db)); [discriminate |].
  intros H. inversion H. constructor.
Qed.

Lemma update_user_write (db db' : DB) (p : pending_user) :
  update_user db p = inr db' -> db_write db db'.
Proof.
  unfold update_user.
  destruct (p_username p) as [n |]; [| discriminate].
  destruct (existsb _ (users db)); [discriminate |].
  intros H. inversion H. constructor.
Qed.

Lemma register_write (db : DB) (session : option nat) (req : request) :
  db_write db (fst (register db session req)).
Proof.
  unfold register. view_cases; try constructor.
  eapply insert_user_write; eauto.
Qed.

Lemma initialize_database_write (db : DB) (now : datetime) (digest : string) :
  db_write db (initialize_database db now digest).
Proof.
  unfold initialize_database. view_cases; try constructor.
  eapply insert_user_write; eauto.
Qed.

Lemma update_profile_write (db : DB) (session : option nat) (req : request) :
  db_write db (fst (update_profile db session req)).
Proof.
  unfold update_profile, login_required.
  view_cases; try constructor.
  eapply update_user_write; eauto.
Qed.

Lemma new_post_write (db : DB) (session : option nat) (req : request) :
  db_write db (fst (new_post db session req)).
Proof.
  unfold new_post, login_required.
  destruct (current_user db session) as [cu |] eqn:Hcu; [| constructor].
  destruct (method req); [constructor |].
  destruct (truthy (dict_get "content" (form req))) eqn:Hc; simpl; [| constructor].
  destruct (upload req "image") as [e | image]; [constructor |].
  apply truthy_nonempty in Hc. destruct Hc as [c [Hc Hne]]. rewrite Hc.
  unfold insert_post.
  destruct (dict_get "title" (form req)) as [t |]; simpl; [| constructor].
  constructor; eauto using current_user_in.
Qed.

Lemma delete_post_write (db : DB) (session : option nat) (post_id : nat) :
  db_write db (fst (delete_post db session post_id)).
Proof.
  unfold delete_post, login_required. view_cases; constructor.
Qed.

Lemma like_post_write (db : DB) (session : option nat) (now : datetime)
    (post_id : nat) :
  db_write db (fst (like_post db session now post_id)).
Proof.
  unfold like_post, login_required.
  destruct (current_user db session) as [cu |] eqn:Hcu; [| constructor].
  destruct (get Post.id (posts db) post_id) as [post |] eqn:Hpost; [| constructor].
  destruct (get_some _ _ _ _ _ Hpost) as [Hin Hid].
  destruct (first _ (likes db)); simpl; [constructor |].
  unfold insert_like. destruct (existsb _ _); simpl; [constructor |].
  rewrite <- Hid. constructor; eauto using current_user_in.
Qed.

Lemma add_comment_write (db : DB) (session : option nat) (now : datetime)
    (post_id : nat) (content : option string) :
  db_write db (fst (add_comment db session now post_id content)).
Proof.
  unfold add_comment, login_required.
  destruct (current_user db session) as [cu |] eqn:Hcu; [| constructor].
  destruct (get Post.id (posts db) post_id) as [post |] eqn:Hpost; [| constructor].
  destruct (get_some _ _ _ _ _ Hpost) as [Hin Hid].
  destruct (truthy content) eqn:Hc; simpl; [| constructor].
  apply truthy_nonempty in Hc. destruct Hc as [c [-> Hne]]. simpl.
  rewrite <- Hid. constructor; eauto using current_user_in.
Qed.

Lemma follow_user_write (db : DB) (session : option nat) (now : datetime)
    (username : string) :
  db_write db (fst (follow_user db session now username)).
Proof.
  unfold follow_user, login_required.
  destruct (current_user db session) as [cu |] eqn:Hcu; [| constructor].
  destruct (first (by_username username) (users db)) as [user |] eqn:Hu;
    [| constructor].
  unfold first in Hu. apply find_some in Hu. destruct Hu as [Hin _].
  destruct (user_eq cu user) eqn:Heq; [constructor |].
  destruct (is_following db cu user); [constructor |].
  unfold insert_follow. destruct (existsb _ _); simpl; [constructor |].
  unfold user_eq in Heq. apply Nat.eqb_neq in Heq.
  constructor; eauto using current_user_in.
Qed.

Lemma unfollow_user_write (db : DB) (session : option nat) (username : string) :
  db_write db (fst (unfollow_user db session username)).
Proof.
  unfold unfollow_user, login_required. view_cases; constructor.
Qed.

(* Every request commits one of the writes of [db_write]. *)
Lemma handle_write (db : DB) (a : action) : db_write db (fst (handle db a)).
Proof.
  destruct a; simpl.
  - apply initialize_database_write.
  - apply register_write.
  - apply update_profile_write.
  - apply new_post_write.
  - apply delete_post_write.
  - apply like_post_write.
  - apply add_comment_write.
  - apply follow_user_write.
  - apply unfollow_user_write.
  - rewrite (proj1 (read_only_views db session 1)). constructor.
  - rewrite (proj2 (read_only_views db session page)). constructor.
Qed.

(* An invariant of the writes is an invariant of the application. *)
Lemma reachable_invariant (P : DB -> Prop) :
  P empty_db ->
  (forall db db', db_write db db' -> P db -> P db') ->
  forall db, reachable db -> P db.
Proof.
  intros Hempty Hstep db Hreach.
  induction Hreach as [| db a Hreach IH]; [assumption |].
  exact (Hstep db _ (handle_write db a) IH).
Qed.

(** ** Invariants of the reachable databases *)

(** X11: in every database the application can reach, no Follow row goes
    from a user to that same user: the schema would allow it, the check in
    [follow_user] is what keeps it out. *)
Theorem reachable_no_self_follow (db : DB) :
  reachable db -> no_self_follow db.
Proof.
  apply reachable_invariant; clear db.
  - intros f [].
  - intros db db' Hw Hinv. unfold no_self_follow in *.
    destruct Hw; simpl; try exact Hinv.
    + intros f Hf. apply in_app_or in Hf. destruct Hf as [Hf | [<- | []]].
      * now apply Hinv.
      * simpl. assumption.
    + intros f Hf. apply in_delete in Hf. now apply Hinv.
Qed.

Lemma run_reachable (actions : list action) (db : DB) :
  reachable db -> reachable (fst (run db actions)).
Proof.
  revert db. induction actions as [| a rest IH]; intros db Hreach; simpl.
  - assumption.
  - pose proof (reachable_step db a Hreach) as Hstep.
    destruct (handle db a) as [db1 r]. simpl in Hstep.
    specialize (IH db1 Hstep).
    destruct (run db1 rest) as [db2 rs]. exact IH.
Qed.

Lemma reachable_no_self_follow_witness :
  let db := fst (run empty_db [Initialize 1 "$2b$12$a";
                               FollowUser (Some 1) 5 "admin"]) in
  reachable db /\ follows db = [] /\ no_self_follow db.
Proof.
  intros db.
  assert (Hreach : reachable db) by (apply run_reachable, reachable_empty).
  exact (conj Hreach (conj eq_refl (reachable_no_self_follow db Hreach))).
Defined.

Lemma user_exists_new_user (db : DB) (u : User.t) (k : nat) :
  user_exists db k -> user_exists (set_users db (users db ++ [u])) k.
Proof.
  unfold user_exists. simpl. rewrite map_app. intros H.
  apply in_or_app. now left.
Qed.

Lemma user_exists_write_user (db : DB) (p : pending_user) (n : string) (k : nat) :
  user_exists db k ->
  user_exists (set_users db (map (write_user p n) (users db))) k.
Proof.
  unfold user_exists. simpl. rewrite map_map.
  now rewrite (map_ext _ User.id (write_user_id p n)).
Qed.

Lemma post_exists_survives (db : DB) (post : Post.t) (k : nat) :
  post_exists db k -> k <> Post.id post ->
  post_exists (delete_post_cascade db post) k.
Proof.
  unfold post_exists. simpl. intros Hk Hne.
  apply in_map_iff in Hk. destruct Hk as [q [Hq Hin]].
  apply in_map_iff. exists q. split; [assumption |].
  apply in_delete. split; [assumption | congruence].
Qed.

(** X12: in every database the application can reach, every foreign key has
    its row: the author of each post, the user and the post of each like and
    of each comment, and both ends of each Follow row exist.  Nothing but
    the handlers keeps this, SQLite not checking foreign keys by default. *)
Theorem reachable_foreign_keys (db : DB) :
  reachable db -> foreign_keys_ok db.
Proof.
  apply reachable_invariant; clear db.
  - constructor; intros x [].
  - intros db db' Hw [H1 H2 H3 H4 H5 H6 H7].
    destruct Hw.
    + constructor; assumption.
    + constructor; simpl; intros x Hx;
        try (apply user_exists_new_user); auto.
      * exact (H3 x Hx).
      * exact (H5 x Hx).
    + constructor; simpl; intros x Hx;
        try (apply user_exists_write_user); auto.
      * exact (H3 x Hx).
      * exact (H5 x Hx).
    + assert (Hgrow : forall k, post_exists db k ->
                post_exists (set_posts db
                  (posts db ++ [Post.mk (next_id Post.id (posts db)) title content
                                        image now (User.id cu)])) k).
      { intros k Hk. unfold post_exists in *. simpl. rewrite map_app.
        apply in_or_app. now left. }
      constructor; simpl; intros x Hx; auto.
      * apply in_app_or in Hx. destruct Hx as [Hx | [<- | []]].
        -- exact (H1 x Hx).
        -- simpl. unfold user_exists. simpl. now apply in_map.
      * exact (H2 x Hx).
      * exact (H4 x Hx).
      * exact (H6 x Hx).
      * exact (H7 x Hx).
    + constructor; simpl; intros x Hx.
      * apply in_delete in Hx. exact (H1 x (proj1 Hx)).
      * apply filter_In in Hx. exact (H2 x (proj1 Hx)).
      * apply filter_In in Hx. destruct Hx as [Hx Hne].
        apply negb_true_iff, Nat.eqb_neq in Hne.
        now apply post_exists_survives; auto.
      * apply filter_In in Hx. exact (H4 x (proj1 Hx)).
      * apply filter_In in Hx. destruct Hx as [Hx Hne].
        apply negb_true_iff, Nat.eqb_neq in Hne.
        now apply post_exists_survives; auto.
      * exact (H6 x Hx).
      * exact (H7 x Hx).
    + constructor; simpl; intros x Hx; auto.
      * exact (H1 x Hx).
      * apply in_app_or in Hx. destruct Hx as [Hx | [<- | []]].
        -- exact (H2 x Hx).
        -- simpl. unfold user_exists. now apply in_map.
      * apply in_app_or in Hx. destruct Hx as [Hx | [<- | []]].
        -- exact (H3 x Hx).
        -- simpl. unfold post_exists. now apply in_map.
      * exact (H4 x Hx).
      * exact (H5 x Hx).
      * exact (H6 x Hx).
      * exact (H7 x Hx).
    + constructor; simpl; intros x Hx; auto.
      * exact (H1 x Hx).
      * apply in_delete in Hx. exact (H2 x (proj1 Hx)).
      * apply in_delete in Hx. exact (H3 x (proj1 Hx)).
      * exact (H4 x Hx).
      * exact (H5 x Hx).
      * exact (H6 x Hx).
      * exact (H7 x Hx).
    + constructor; simpl; intros x Hx; auto.
      * exact (H1 x Hx).
      * exact (H2 x Hx).
      * exact (H3 x Hx).
      * apply in_app_or in Hx. destruct Hx as [Hx | [<- | []]].
        -- exact (H4 x Hx).
        -- simpl. unfold user_exists. now apply in_map.
      * apply in_app_or in Hx. destruct Hx as [Hx | [<- | []]].
        -- exact (H5 x Hx).
        -- simpl. unfold post_exists. now apply in_map.
      * exact (H6 x Hx).
      * exact (H7 x Hx).
    + constructor; simpl; intros x Hx; auto.
      * exact (H1 x Hx).
      * exact (H2 x Hx).
      * exact (H3 x Hx).
      * exact (H4 x Hx).
      * exact (H5 x Hx).
      * apply in_app_or in Hx. destruct Hx as [Hx | [<- | []]].
        -- exact (H6 x Hx).
        -- simpl. unfold user_exists. now apply in_map.
      * apply in_app_or in Hx. destruct Hx as [Hx | [<- | []]].
        -- exact (H7 x Hx).
        -- simpl. unfold user_exists. now apply in_map.
    + constructor; simpl; intros x Hx; auto.
      * exact (H1 x Hx).
      * exact (H2 x Hx).
      * exact (H3 x Hx).
      * exact (H4 x Hx).
      * exact (H5 x Hx).
      * apply in_delete in Hx. exact (H6 x (proj1 Hx)).
      * apply in_delete in Hx. exact (H7 x (proj1 Hx)).
Qed.


Lemma reachable_foreign_keys_witness :
  reachable (fst (run empty_db scenario)) /\
  foreign_keys_ok (fst (run empty_db scenario)).
Proof.
  assert (Hreach : reachable (fst (run empty_db scenario)))
    by (apply run_reachable, reachable_empty).
  exact (conj Hreach (reachable_foreign_keys _ Hreach)).
Defined.

(** X13: in every database the application can reach, no post and no
    comment has an empty content: the `if not content` tests of [new_post]
    and [add_comment] are the only thing between the form and the column. *)
Theorem reachable_contents_nonempty (db : DB) :
  reachable db -> contents_nonempty db.
Proof.
  apply reachable_invariant; clear db.
  - split; intros x [].
  - intros db db' Hw [Hp Hc]. unfold contents_nonempty.
    destruct Hw; simpl; try (split; assumption).
    + split; [| assumption].
      intros p Hin. apply in_app_or in Hin. destruct Hin as [Hin | [<- | []]].
      * now apply Hp.
      * simpl. assumption.
    + split.
      * intros p Hin. apply in_delete in Hin. now apply Hp.
      * intros c Hin. apply filter_In in Hin. now apply Hc.
    + split; [assumption |].
      intros c Hin. apply in_app_or in Hin. destruct Hin as [Hin | [<- | []]].
      * now apply Hc.
      * simpl. assumption.
Qed.

Lemma reachable_contents_nonempty_witness :
  reachable (fst (run empty_db scenario)) /\
  contents_nonempty (fst (run empty_db scenario)).
Proof.
  assert (Hreach : reachable (fst (run empty_db scenario)))
    by (apply run_reachable, reachable_empty).
  exact (conj Hreach (reachable_contents_nonempty _ Hreach)).
Defined.

(** X14: in every database the application can reach, usernames are
    pairwise distinct, emails are pairwise distinct, and every table has
    pairwise distinct primary keys. *)
Theorem reachable_unique_accounts_and_keys (db : DB) :
  reachable db ->
  NoDup (map User.username (users db)) /\
  NoDup (map User.email (users db)) /\
  NoDup (map User.id (users db)) /\
  NoDup (map Post.id (posts db)) /\
  NoDup (map Like.id (likes db)) /\
  NoDup (map Comment.id (comments db)) /\
  NoDup (map Follow.id (follows db)).
Proof.
  intros Hreach. apply reachable_schema_ok in Hreach.
  destruct Hreach. auto 10.
Qed.

Lemma reachable_unique_accounts_and_keys_witness :
  reachable (fst (run empty_db scenario)) /\
  NoDup (map User.username (users (fst (run empty_db scenario)))).
Proof.
  assert (Hreach : reachable (fst (run empty_db scenario)))
    by (apply run_reachable, reachable_empty).
  exact (conj Hreach (proj1 (reachable_unique_accounts_and_keys _ Hreach))).
Defined.

(** ** Start-up and suggestions *)

Lemma initialize_database_cases (db : DB) (now : datetime) (digest : string) :
  initialize_database db now digest =
  if existsb (by_username "admin") (users db)
     || existsb (by_email "admin@bantu.africa") (users db)
  then db
  else set_users db
         (users db ++
          [User.mk (next_id User.id (users db)) "admin" "admin@bantu.africa"
                   digest "default.jpg" (Some "") None now]).
Proof.
  unfold initialize_database, first, insert_user.
  pose proof (found_find _ (by_username "admin") (users db)) as Hff.
  destruct (find (by_username "admin") (users db)); simpl in Hff;
    rewrite <- Hff; simpl; [reflexivity |].
  now destruct (existsb (by_email "admin@bantu.africa") (users db)).
Qed.

(** X15: [initialize_database] does nothing when an account named 'admin'
    exists; when no account has that name or the email admin@bantu.africa it
    appends the admin account; and running it again, at any later time and
    with any digest, changes nothing. *)
Theorem initialize_database_once (db : DB) (now : datetime) (digest : string) :
  (forall u, In u (users db) -> User.username u = "admin" ->
   initialize_database db now digest = db) /\
  ((forall u, In u (users db) ->
              User.username u <> "admin" /\ User.email u <> "admin@bantu.africa") ->
   initialize_database db now digest =
   set_users db
     (users db ++
      [User.mk (next_id User.id (users db)) "admin" "admin@bantu.africa" digest
               "default.jpg" (Some "") None now])) /\
  (forall now' digest',
     initialize_database (initialize_database db now digest) now' digest' =
     initialize_database db now digest).
Proof.
  refine (conj _ (conj _ _)).
  - intros u Hin Hu. rewrite initialize_database_cases.
    assert (Hn : existsb (by_username "admin") (users db) = true).
    { apply existsb_exists. exists u. split; [assumption |].
      now apply String.eqb_eq. }
    now rewrite Hn.
  - intros Hfree. rewrite initialize_database_cases.
    assert (Hn : existsb (by_username "admin") (users db) = false).
    { apply existsb_by_field. intros u Hu. now destruct (Hfree u Hu). }
    assert (Hm : existsb (by_email "admin@bantu.africa") (users db) = false).
    { apply existsb_by_field. intros u Hu. now destruct (Hfree u Hu). }
    now rewrite Hn, Hm.
  - intros now' digest'.
    rewrite (initialize_database_cases db now digest).
    destruct (existsb (by_username "admin") (users db)
              || existsb (by_email "admin@bantu.africa") (users db)) eqn:Hc.
    + rewrite initialize_database_cases. now rewrite Hc.
    + rewrite initialize_database_cases. simpl.
      rewrite existsb_app. simpl. now rewrite orb_true_r.
Qed.

Lemma initialize_database_once_witness :
  (forall u, In u (users sample_db) ->
             User.username u <> "admin" /\ User.email u <> "admin@bantu.africa") /\
  users (initialize_database sample_db 7 "$2b$12$d") =
  [alice; bob;
   User.mk 3 "admin" "admin@bantu.africa" "$2b$12$d" "default.jpg" (Some "") None 7].
Proof.
  assert (Hfree : forall u, In u (users sample_db) ->
            User.username u <> "admin" /\ User.email u <> "admin@bantu.africa").
  { intros u [<- | [<- | []]]; split; discriminate. }
  split; [exact Hfree |].
  now rewrite (proj1 (proj2 (initialize_database_once sample_db 7 "$2b$12$d")) Hfree).
Defined.

Lemma in_firstn (A : Type) (n : nat) (l : list A) (x : A) :
  In x (firstn n l) -> In x l.
Proof.
  intros H. rewrite <- (firstn_skipn n l). apply in_or_app. now left.
Qed.

Lemma in__false (ids : list nat) (k : nat) : in_ ids k = false <-> ~ In k ids.
Proof.
  rewrite <- in__iff. destruct (in_ ids k); split; congruence.
Qed.

(** X16: the suggestions of the home page are at most 5 accounts of the
    user table, never the current user and never an account the current user
    follows; when at most 5 accounts qualify, all of them are suggested; and
    once the user has followed an account it is no longer suggested. *)
Theorem suggested_users_are_new_faces (db : DB) (session : option nat)
    (cu : User.t) :
  current_user db session = Some cu ->
  List.length (suggested_users db cu) <= 5 /\
  (forall u, In u (suggested_users db cu) ->
             In u (users db) /\ User.id u <> User.id cu /\
             has_edge db (User.id cu) (User.id u) = false) /\
  (List.length
     (filter (fun u => negb (User.id u =? User.id cu)
                       && negb (in_ (following_ids db cu) (User.id u)))
             (users db)) <= 5 ->
   forall u, In u (users db) -> User.id u <> User.id cu ->
             has_edge db (User.id cu) (User.id u) = false ->
             In u (suggested_users db cu)) /\
  (forall now username user,
     first (by_username username) (users db) = Some user ->
     User.id cu <> User.id user ->
     forall u, In u (suggested_users (fst (follow_user db session now username)) cu) ->
               User.id u <> User.id user).
Proof.
  intros Hcu.
  assert (Hsugg : forall d u, In u (suggested_users d cu) ->
            In u (users d) /\ User.id u <> User.id cu /\
            has_edge d (User.id cu) (User.id u) = false).
  { intros d u Hin. unfold suggested_users in Hin.
    apply in_firstn, filter_In in Hin. destruct Hin as [Hin Hsel].
    apply andb_true_iff in Hsel. destruct Hsel as [Hself Hfol].
    apply negb_true_iff in Hself, Hfol. apply Nat.eqb_neq in Hself.
    repeat split; auto.
    apply not_true_is_false. intros Hc.
    apply in_following_ids in Hc. apply in__false in Hfol. contradiction. }
  refine (conj _ (conj (Hsugg db) (conj _ _))).
  - unfold suggested_users. apply firstn_le_length.
  - intros Hfew u Hin Hne Hnot. unfold suggested_users.
    rewrite firstn_all2 by assumption.
    apply filter_In. split; [assumption |].
    apply andb_true_iff. split.
    + now apply negb_true_iff, Nat.eqb_neq.
    + apply negb_true_iff, in__false. intros Hc.
      apply in_following_ids in Hc. congruence.
  - intros now username user Huser Hne u Hin Heq.
    apply Hsugg in Hin. destruct Hin as (_ & _ & Hnot).
    rewrite (follow_user_spec db session cu now username user Hcu Huser) in Hnot.
    unfold user_eq in Hnot. apply Nat.eqb_neq in Hne. rewrite Hne in Hnot.
    rewrite Heq in Hnot.
    destruct (has_edge db (User.id cu) (User.id user)) eqn:Hedge; simpl in Hnot.
    + congruence.
    + unfold has_edge in Hnot. simpl in Hnot. rewrite existsb_app in Hnot.
      simpl in Hnot. unfold edge at 2 in Hnot. simpl in Hnot.
      rewrite !Nat.eqb_refl in Hnot. simpl in Hnot.
      rewrite orb_true_r in Hnot. discriminate.
Qed.

Lemma suggested_users_are_new_faces_witness :
  current_user sample_db (Some 2) = Some bob /\
  suggested_users sample_db bob = [alice] /\
  suggested_users (fst (follow_user sample_db (Some 2) 5 "alice")) bob = [] /\
  List.length (suggested_users sample_db bob) <= 5.
Proof.
  refine (conj eq_refl (conj eq_refl (conj eq_refl _))).
  exact (proj1 (suggested_users_are_new_faces sample_db (Some 2) bob eq_refl)).
Defined.

(** ** How the writes show in the feed and on the profile pages *)

(** X17: once [new_post] has stored a post, that post is in the feed of its
    author and of every user who follows the author, and in nobody else's;
    every feed keeps the posts it had. *)
Theorem new_post_reaches_followers (db : DB) (session : option nat) (cu : User.t)
    (req : request) (title content : string) (image : option string) :
  current_user db session = Some cu ->
  method req = POST ->
  dict_get "title" (form req) = Some title ->
  dict_get "content" (form req) = Some content ->
  content <> "" ->
  upload req "image" = inr image ->
  let db' := fst (new_post db session req) in
  let post := Post.mk (next_id Post.id (posts db)) title content image
                      (utcnow req) (User.id cu) in
  forall (reader : User.t) (q : Post.t),
    In q (feed_query db' reader) <->
    In q (feed_query db reader) \/
    (q = post /\
     (User.id reader = User.id cu \/
      has_edge db (User.id reader) (User.id cu) = true)).
Proof.
  intros Hcu Hm Ht Hc Hne Hup db' post reader q.
  assert (Hdb' : db' = set_posts db (posts db ++ [post])).
  { subst db'. unfold new_post, login_required.
    rewrite Hcu, Hm, Ht, Hc, Hup. simpl.
    apply String.eqb_neq in Hne. now rewrite Hne. }
  rewrite Hdb', !in_feed_query. simpl. rewrite in_app_iff. simpl.
  unfold has_edge. simpl.
  split.
  - intros [[Hin | [Heq | []]] Hsel].
    + left. auto.
    + right. subst q. simpl in Hsel. split; [reflexivity |].
      destruct Hsel as [Hsel | Hsel]; auto.
    - intros [[Hin Hsel] | [Heq Hsel]].
    + auto.
    + subst q. simpl. split; [auto |].
      destruct Hsel as [Hsel | Hsel]; auto.
Qed.

Lemma new_post_reaches_followers_witness :
  current_user sample_db_liked (Some 1) = Some alice /\
  "news" <> "" /\
  In (Post.mk 2 "t" "news" None 400 1)
     (feed_query (fst (new_post sample_db_liked (Some 1)
                         (post_request [("title", "t"); ("content", "news")])))
                 bob).
Proof.
  assert (Hne : "news" <> "") by discriminate.
  refine (conj eq_refl (conj Hne _)).
  apply (new_post_reaches_followers sample_db_liked (Some 1) alice
           (post_request [("title", "t"); ("content", "news")])
           "t" "news" None eq_refl eq_refl eq_refl eq_refl Hne eq_refl).
  right. split; [reflexivity |]. right. reflexivity.
Defined.

Lemma has_edge_after_follow (db : DB) (session : option nat) (cu user : User.t)
    (now : datetime) (username : string) (a b : nat) :
  current_user db session = Some cu ->
  first (by_username username) (users db) = Some user ->
  User.id cu <> User.id user ->
  has_edge (fst (follow_user db session now username)) a b =
  has_edge db a b || ((a =? User.id cu) && (b =? User.id user)).
Proof.
  intros Hcu Huser Hne.
  rewrite (follow_user_spec db session cu now username user Hcu Huser).
  unfold user_eq. apply Nat.eqb_neq in Hne. rewrite Hne.
  destruct (has_edge db (User.id cu) (User.id user)) eqn:Hedge; simpl.
  - destruct ((a =? User.id cu) && (b =? User.id user)) eqn:Hab.
    + apply andb_true_iff in Hab. rewrite !Nat.eqb_eq in Hab.
      destruct Hab as [-> ->]. now rewrite Hedge.
    + now rewrite orb_false_r.
  - unfold has_edge. simpl. rewrite existsb_app. simpl.
    unfold edge at 2. simpl. now rewrite orb_false_r, (Nat.eqb_sym a), (Nat.eqb_sym b).
Qed.

Lemma has_edge_after_unfollow (db : DB) (session : option nat) (cu user : User.t)
    (username : string) (a b : nat) :
  schema_ok db ->
  current_user db session = Some cu ->
  first (by_username username) (users db) = Some user ->
  has_edge (fst (unfollow_user db session username)) a b =
  has_edge db a b && negb ((a =? User.id cu) && (b =? User.id user)).
Proof.
  intros Hok Hcu Huser.
  rewrite (unfollow_user_spec db session cu username user Hcu Huser).
  destruct (first (edge (User.id cu) (User.id user)) (follows db))
    as [follow |] eqn:Hfirst.
  - unfold first in Hfirst. apply find_some in Hfirst.
    destruct Hfirst as [Hin Hedge]. apply edge_key in Hedge.
    simpl. apply eq_true_iff_eq. unfold has_edge. simpl.
    rewrite andb_true_iff, negb_true_iff, !existsb_exists.
    split.
    + intros [f [Hf He]]. apply in_delete in Hf. destruct Hf as [Hf Hid].
      split; [exists f; auto |].
      apply not_true_is_false. intros Hab.
      apply andb_true_iff in Hab. rewrite !Nat.eqb_eq in Hab.
      destruct Hab as [-> ->]. apply edge_key in He. apply Hid. f_equal.
      apply (NoDup_key_inj _ _ Follow.key (follows db));
        auto using unique_follow. congruence.
    + intros [[f [Hf He]] Hab]. exists f. split; [| assumption].
      apply in_delete. split; [assumption |].
      intros Hid.
      assert (f = follow)
        by (apply (NoDup_key_inj _ _ Follow.id (follows db));
            auto using follows_pk).
      subst f. apply edge_key in He. rewrite Hedge in He. inversion He.
      subst a b. now rewrite !Nat.eqb_refl in Hab.
  - simpl.
    destruct ((a =? User.id cu) && (b =? User.id user)) eqn:Hab; simpl.
    + apply andb_true_iff in Hab. rewrite !Nat.eqb_eq in Hab.
      destruct Hab as [-> ->]. rewrite andb_false_r.
      unfold has_edge. rewrite <- found_find. unfold first in Hfirst.
      now rewrite Hfirst.
    + now rewrite andb_true_r.
Qed.

(** X18: for an authenticated user and another existing user,
    [follow_user] makes the user's feed what it was plus all posts of the
    target, and (in a database that satisfies the schema) [unfollow_user]
    makes it what it was minus all posts of the target. *)
Theorem follow_and_unfollow_move_the_feed (db : DB) (session : option nat)
    (cu user : User.t) (username : string) :
  current_user db session = Some cu ->
  first (by_username username) (users db) = Some user ->
  User.id cu <> User.id user ->
  (forall now q,
     In q (feed_query (fst (follow_user db session now username)) cu) <->
     In q (feed_query db cu) \/
     (In q (posts db) /\ Post.user_id q = User.id user)) /\
  (schema_ok db ->
   forall q,
     In q (feed_query (fst (unfollow_user db session username)) cu) <->
     In q (feed_query db cu) /\ Post.user_id q <> User.id user).
Proof.
  intros Hcu Huser Hne. split.
  - intros now q. rewrite !in_feed_query.
    rewrite (has_edge_after_follow db session cu user now username _ _ Hcu Huser Hne).
    assert (Hposts : posts (fst (follow_user db session now username)) = posts db).
    { rewrite (follow_user_spec db session cu now username user Hcu Huser).
      destruct (user_eq cu user); [reflexivity |].
      now destruct (has_edge db (User.id cu) (User.id user)). }
    rewrite Hposts, Nat.eqb_refl. simpl.
    rewrite orb_true_iff, Nat.eqb_eq. tauto.
  - intros Hok q. rewrite !in_feed_query.
    rewrite (has_edge_after_unfollow db session cu user username _ _ Hok Hcu Huser).
    assert (Hposts : posts (fst (unfollow_user db session username)) = posts db).
    { rewrite (unfollow_user_spec db session cu username user Hcu Huser).
      now destruct (first _ (follows db)). }
    rewrite Hposts, Nat.eqb_refl. simpl.
    rewrite andb_true_iff, negb_true_iff, Nat.eqb_neq.
    split.
    + intros [Hin [Hme | [Hedge Hnot]]]; repeat split; auto. congruence.
    + intros [[Hin [Hme | Hedge]] Hnot]; auto.
Qed.

Lemma follow_and_unfollow_move_the_feed_witness :
  current_user sample_db (Some 2) = Some bob /\
  first (by_username "alice") (users sample_db) = Some alice /\
  User.id bob <> User.id alice /\
  feed_query sample_db bob = [] /\
  In hello (feed_query (fst (follow_user sample_db (Some 2) 5 "alice")) bob).
Proof.
  assert (Hne : User.id bob <> User.id alice) by discriminate.
  refine (conj eq_refl (conj eq_refl (conj Hne (conj eq_refl _)))).
  apply (proj1 (follow_and_unfollow_move_the_feed sample_db (Some 2) bob alice
                  "alice" eq_refl eq_refl Hne) 5%Z hello).
  right. split; [now left | reflexivity].
Defined.

Lemma first_by_unique (f : User.t -> string) (us : list User.t) (u : User.t) :
  NoDup (map f us) -> In u us ->
  first (fun x => String.eqb (f x) (f u)) us = Some u.
Proof.
  intros Hnd Hin. unfold first.
  destruct (find (fun x => String.eqb (f x) (f u)) us) as [x |] eqn:Hf.
  - apply find_some in Hf. destruct Hf as [Hx Heq]. apply String.eqb_eq in Heq.
    f_equal. now apply (NoDup_key_inj _ _ f us).
  - pose proof (find_none _ _ Hf u Hin) as Hno. simpl in Hno.
    rewrite String.eqb_refl in Hno. discriminate.
Qed.

Lemma load_user_unique (db : DB) (u : User.t) :
  schema_ok db -> In u (users db) -> load_user db (User.id u) = Some u.
Proof.
  intros Hok Hin. unfold load_user, get.
  destruct (find (fun r => User.id r =? User.id u) (users db)) as [x |] eqn:Hf.
  - apply find_some in Hf. destruct Hf as [Hx Heq]. apply Nat.eqb_eq in Heq.
    f_equal. apply (NoDup_key_inj _ _ User.id (users db)); auto using users_pk.
  - pose proof (find_none _ _ Hf u Hin) as Hno. simpl in Hno.
    rewrite Nat.eqb_refl in Hno. discriminate.
Qed.

(** X19: for an authenticated user [cu] and another user he does not follow
    yet, the target's profile page shows is_following false before
    [follow_user] and true after it, with one follower more and the same
    number of followed accounts; [cu]'s own page then counts one followed
    account more.  In a database that satisfies the schema, [cu]'s page
    reached by his own username carries no follow state and the same posts
    and counts as /profile. *)
Theorem follow_shows_on_profile_pages (db : DB) (session : option nat)
    (cu user : User.t) (now : datetime) (username : string) :
  current_user db session = Some cu ->
  first (by_username username) (users db) = Some user ->
  User.id cu <> User.id user ->
  is_following db cu user = false ->
  let db' := fst (follow_user db session now username) in
  user_profile db session username =
    Page (mkUserProfile user (posts_of db user) (Some false)
                        (followers_count db user) (following_count db user)) /\
  user_profile db' session username =
    Page (mkUserProfile user (posts_of db user) (Some true)
                        (S (followers_count db user)) (following_count db user)) /\
  profile db' session =
    Page (mkProfile cu (posts_of db cu)
                    (followers_count db cu) (S (following_count db cu))) /\
  (schema_ok db ->
   user_profile db session (User.username cu) =
     Page (mkUserProfile cu (posts_of db cu) None
                         (followers_count db cu) (following_count db cu)) /\
   profile db session =
     Page (mkProfile cu (posts_of db cu)
                     (followers_count db cu) (following_count db cu))).
Proof.
  intros Hcu Huser Hne Hnot db'.
  assert (Hdb' : db' = set_follows db
            (follows db ++ [Follow.mk (next_id Follow.id (follows db))
                                      (User.id cu) (User.id user) now])).
  { subst db'.
    rewrite (follow_user_spec db session cu now username user Hcu Huser).
    rewrite is_following_has_edge in Hnot. unfold user_eq.
    pose proof Hne as Hne'. apply Nat.eqb_neq in Hne'. now rewrite Hne', Hnot. }
  assert (Hneb : user_eq cu user = false) by now apply Nat.eqb_neq.
  assert (Hneb' : (User.id user =? User.id cu) = false)
    by (apply Nat.eqb_neq; congruence).
  refine (conj _ (conj _ (conj _ _))).
  - unfold user_profile. now rewrite Hcu, Huser, Hneb, Hnot.
  - rewrite Hdb'. unfold user_profile. simpl.
    change (current_user (set_follows db _) session) with (current_user db session).
    rewrite Hcu, Huser, Hneb. simpl.
    unfold is_following, followers_count, following_count, first. simpl.
    rewrite find_app_last.
    + rewrite !filter_app, !length_app. simpl.
      rewrite Nat.eqb_refl, Nat.eqb_sym, Hneb'. simpl.
      f_equal. f_equal; lia.
    + rewrite is_following_has_edge in Hnot. exact Hnot.
    + unfold edge. simpl. now rewrite !Nat.eqb_refl.
  - rewrite Hdb'. unfold profile.
    change (current_user (set_follows db _) session) with (current_user db session).
    rewrite Hcu. unfold followers_count, following_count. simpl.
    rewrite !filter_app, !length_app. simpl.
    rewrite Nat.eqb_refl, Hneb'. simpl. f_equal. f_equal; lia.
  - intros Hok. split.
    + unfold user_profile. rewrite Hcu.
      pose proof (first_by_unique User.username (users db) cu
                    (users_username _ Hok) (current_user_in _ _ _ Hcu)) as Hself.
      unfold by_username. rewrite Hself.
      unfold user_eq. now rewrite Nat.eqb_refl.
    + unfold profile. now rewrite Hcu.
Qed.

Lemma follow_shows_on_profile_pages_witness :
  current_user sample_db (Some 2) = Some bob /\
  first (by_username "alice") (users sample_db) = Some alice /\
  User.id bob <> User.id alice /\
  is_following sample_db bob alice = false /\
  user_profile (fst (follow_user sample_db (Some 2) 5 "alice")) (Some 2) "alice" =
  Page (mkUserProfile alice [hello] (Some true) 1 0).
Proof.
  assert (Hne : User.id bob <> User.id alice) by discriminate.
  refine (conj eq_refl (conj eq_refl (conj Hne (conj eq_refl _)))).
  exact (proj1 (proj2 (follow_shows_on_profile_pages sample_db (Some 2) bob alice
                         5 "alice" eq_refl eq_refl Hne eq_refl))).
Defined.

(** ** Sessions *)

(** X20: a login form sent without a session.  An email no account has is
    answered with the failure flash, the session unchanged, and bcrypt is not
    asked.  For the account with that email (in a database that satisfies the
    schema): a rejected password gives the same failure flash and leaves the
    session unchanged; an accepted password makes that account the current
    user and redirects to a non-empty `next` target, else home; an exception
    of bcrypt ends the request with the session unchanged.  [logout] of an
    authenticated user clears the session. *)
Theorem login_outcomes (check_password_hash : string -> option string -> exn + bool)
    (db : DB) (session : option nat) (req : request) (next_page : option string) :
  current_user db session = None ->
  method req = POST ->
  let email := dict_get "email" (form req) in
  let password := dict_get "password" (form req) in
  let failed :=
    (session, LoginPage (Some ("Login failed. Check email and password.", "danger"))) in
  ((forall u, In u (users db) -> Some (User.email u) <> email) ->
   login check_password_hash db session req next_page = failed) /\
  (schema_ok db ->
   forall u, In u (users db) -> Some (User.email u) = email ->
     (check_password_hash (User.password u) password = inr false ->
      login check_password_hash db session req next_page = failed) /\
     (check_password_hash (User.password u) password = inr true ->
      current_user db (fst (login check_password_hash db session req next_page))
        = Some u /\
      snd (login check_password_hash db session req next_page) =
        match next_page with
        | Some url => if String.eqb url "" then LoginRedirectHome
                      else LoginRedirectTo url
        | None => LoginRedirectHome
        end) /\
     (forall e, check_password_hash (User.password u) password = inl e ->
      login check_password_hash db session req next_page =
      (session, LoginRaised e))) /\
  (forall authenticated cu,
     current_user db authenticated = Some cu ->
     logout db authenticated = (None, Redirect "home" None None) /\
     current_user db (fst (logout db authenticated)) = None).
Proof.
  intros Hanon Hm email password failed.
  refine (conj _ (conj _ _)).
  - intros Hnone. unfold login. rewrite Hanon, Hm. fold email.
    destruct email as [m |] eqn:He; [| reflexivity]. simpl.
    destruct (first (by_email m) (users db)) as [u |] eqn:Hf; [| reflexivity].
    unfold first in Hf. apply find_some in Hf. destruct Hf as [Hin Hu].
    unfold by_email in Hu. apply String.eqb_eq in Hu.
    exfalso. apply (Hnone u Hin). now rewrite Hu.
  - intros Hok u Hin Hu.
    assert (Hfirst : first_by by_email email db = Some u).
    { rewrite <- Hu. simpl.
      exact (first_by_unique User.email (users db) u (users_email _ Hok) Hin). }
    unfold login. rewrite Hanon, Hm. fold email password. rewrite Hfirst.
    refine (conj _ (conj _ _)).
    + intros Hc. now rewrite Hc.
    + intros Hc. rewrite Hc. simpl. split.
      * now apply load_user_unique.
      * destruct next_page as [url |]; [| reflexivity].
        now destruct (String.eqb url "").
    + intros e Hc. now rewrite Hc.
  - intros authenticated cu Hcu. unfold logout. rewrite Hcu. auto.
Qed.

Lemma login_outcomes_witness :
  current_user sample_db None = None /\
  schema_ok sample_db /\
  current_user sample_db
    (fst (login plain_check sample_db None
            (post_request [("email", "b@x.com"); ("password", "$2b$12$b")])
            (Some "/profile"))) = Some bob.
Proof.
  refine (conj eq_refl (conj sample_db_ok _)).
  destruct (login_outcomes plain_check sample_db None
              (post_request [("email", "b@x.com"); ("password", "$2b$12$b")])
              (Some "/profile") eq_refl eq_refl) as (_ & H & _).
  destruct (H sample_db_ok bob) as (_ & Hyes & _);
    [right; left; reflexivity | reflexivity |].
  exact (proj1 (Hyes eq_refl)).
Defined.

(** ** Deleting and liking, seen from the feed *)

Lemma delete_post_by_owner (db : DB) (session : option nat) (cu : User.t)
    (post_id : nat) (post : Post.t) :
  current_user db session = Some cu ->
  get Post.id (posts db) post_id = Some post ->
  User.id cu = Post.user_id post ->
  delete_post db session post_id =
  (delete_post_cascade db post,
   Redirect "home" None (Some ("Post deleted!", "success"))).
Proof.
  intros Hcu Hpost Heq. unfold delete_post, login_required.
  rewrite Hcu, Hpost. unfold author. rewrite <- Heq.
  apply current_user_id in Hcu. unfold load_user in Hcu. rewrite Hcu.
  unfold user_eq. now rewrite Nat.eqb_refl.
Qed.

(** X22: when the owner has deleted a post, it is in no feed any more, and
    every feed keeps all its other posts. *)
Theorem deleted_post_leaves_every_feed (db : DB) (session : option nat)
    (cu : User.t) (post_id : nat) (post : Post.t) :
  current_user db session = Some cu ->
  get Post.id (posts db) post_id = Some post ->
  User.id cu = Post.user_id post ->
  forall (reader : User.t) (q : Post.t),
    In q (feed_query (fst (delete_post db session post_id)) reader) <->
    In q (feed_query db reader) /\ Post.id q <> post_id.
Proof.
  intros Hcu Hpost Heq reader q.
  rewrite (delete_post_by_owner db session cu post_id post Hcu Hpost Heq).
  destruct (get_some _ _ _ _ _ Hpost) as [_ Hpid].
  rewrite !in_feed_query. simpl. rewrite in_delete, Hpid.
  unfold has_edge. simpl. tauto.
Qed.

Lemma deleted_post_leaves_every_feed_witness :
  current_user sample_db_liked (Some 1) = Some alice /\
  get Post.id (posts sample_db_liked) 1 = Some hello /\
  feed_query sample_db_liked bob = [hello] /\
  ~ In hello (feed_query (fst (delete_post sample_db_liked (Some 1) 1)) bob).
Proof.
  refine (conj eq_refl (conj eq_refl (conj eq_refl _))).
  intros Hin.
  apply (deleted_post_leaves_every_feed sample_db_liked (Some 1) alice 1 hello
           eq_refl eq_refl eq_refl bob hello) in Hin.
  now destruct Hin as [_ Hne].
Defined.

Lemma posts_json_in (db : DB) (cu : User.t) (ps : list Post.t)
    (ds : list post_data) (d : post_data) :
  posts_json db cu ps = inr ds -> In d ds ->
  exists p, In p ps /\ post_json db cu p = inr d.
Proof.
  revert ds. induction ps as [| p ps IH]; simpl; intros ds Hds Hin.
  - inversion Hds. subst ds. contradiction.
  - destruct (post_json db cu p) as [e | d0] eqn:Hp; [discriminate |].
    destruct (posts_json db cu ps) as [e | ds0]; [discriminate |].
    inversion Hds. subst ds. destruct Hin as [<- | Hin].
    + exists p. auto.
    + destruct (IH ds0 eq_refl Hin) as [p' [Hp' Hj]]. exists p'. auto.
Qed.

(** X23: after a like-toggle by [cu] on a post, whatever page of [cu]'s
    JSON feed carries that post shows it with the liked flag and the like
    count that [like_post] has just answered; every entry of a page belongs
    to a post of the feed and reports that post's own title, content, author
    name, like count and comment count. *)
Theorem feed_entries_agree_with_like (db : DB) (session : option nat)
    (cu : User.t) (now : datetime) (post_id : nat) (post : Post.t) :
  schema_ok db ->
  current_user db session = Some cu ->
  get Post.id (posts db) post_id = Some post ->
  let db' := fst (like_post db session now post_id) in
  forall page posts_data has_next has_prev n pages,
    api_feed db' session page =
      (db', Jsonify (FeedJson posts_data has_next has_prev n pages) 200) ->
    forall d, In d posts_data ->
      (exists p a,
         In p (feed_query db' cu) /\ author db' p = Some a /\
         pd_id d = Post.id p /\ pd_title d = Post.title p /\
         pd_content d = Post.content p /\
         pd_author_username d = User.username a /\
         pd_like_count d = like_count db' p /\
         pd_comment_count d = comment_count db' p) /\
      (pd_id d = post_id ->
       snd (like_post db session now post_id) =
       Jsonify (LikeJson (pd_liked d) (pd_like_count d)) 200).
Proof.
  intros Hok Hcu Hpost db' page posts_data has_next has_prev n pages Hfeed d Hd.
  destruct (like_post_spec db session cu now post_id post Hok Hcu Hpost)
    as (Hresp & Hstate & _ & _ & Hu & Hp & _ & _ & Hok').
  fold db' in Hresp, Hstate, Hu, Hp, Hok'.
  assert (Hcu' : current_user db' session = Some cu).
  { unfold current_user, load_user in *. now rewrite Hu. }
  unfold api_feed, login_required in Hfeed. rewrite Hcu' in Hfeed.
  destruct ((1 <=? page)%Z && negb (fits_sqlite ((page - 1) * Z.of_nat 10)));
    [discriminate |].
  destruct (paginate (feed_query db' cu) page 10) as [pg |] eqn:Hpg;
    [| discriminate].
  destruct (posts_json db' cu (Pagination.items pg)) as [e | ds] eqn:Hds;
    [discriminate |].
  inversion Hfeed. subst posts_data.
  destruct (posts_json_in db' cu _ ds d Hds Hd) as [p [Hpin Hj]].
  assert (Hitems : In p (feed_query db' cu)).
  { unfold paginate in Hpg.
    destruct (page <? 1)%Z; [discriminate |].
    destruct (firstn 10 (skipn (Z.to_nat (page - 1) * 10) (feed_query db' cu)))
      eqn:Hit.
    - destruct (page =? 1)%Z; [| discriminate].
      inversion Hpg. subst pg. simpl in Hpin. contradiction.
    - inversion Hpg. subst pg. cbn [Pagination.items] in Hpin.
      rewrite <- Hit in Hpin. now apply in_page in Hpin. }
  unfold post_json in Hj.
  destruct (author db' p) as [a |] eqn:Ha; [| discriminate].
  inversion Hj. subst d. simpl. split.
  - exists p, a. repeat split; auto.
  - intros Hid.
    assert (Hsame : p = post).
    { apply in_feed_query in Hitems. destruct Hitems as [Hin _].
      destruct (get_some _ _ _ _ _ Hpost) as [Hin0 Hid0].
      rewrite Hp in Hin.
      apply (NoDup_key_inj _ _ Post.id (posts db)); auto using posts_pk.
      congruence. }
    subst p. rewrite Hresp. f_equal. f_equal.
    unfold liked_by. unfold first. rewrite found_find.
    unfold has_like in Hstate. rewrite Hid. now rewrite Hstate.
Qed.

Lemma feed_entries_agree_with_like_witness :
  schema_ok sample_db_liked /\
  current_user sample_db_liked (Some 2) = Some bob /\
  get Post.id (posts sample_db_liked) 1 = Some hello /\
  snd (like_post sample_db_liked (Some 2) 500 1) = Jsonify (LikeJson false 0) 200.
Proof.
  refine (conj sample_db_liked_ok (conj eq_refl (conj eq_refl _))).
  exact (proj2 (feed_entries_agree_with_like sample_db_liked (Some 2) bob 500 1
                  hello sample_db_liked_ok eq_refl eq_refl
                  1%Z _ false false 1%Z 1%Z eq_refl
                  (mkPostData 1 "hello" "world" None 200 "alice" "default.jpg"
                              0 0 false)
                  (or_introl eq_refl)) eq_refl).
Defined.

(** ** Who can create and who can remove a row *)

Lemma insert_user_inv (db d : DB) (username email : option string)
    (password : string) (now : datetime) :
  insert_user db username email password now = inr d ->
  exists n e,
    username = Some n /\ email = Some e /\
    d = set_users db (users db ++ [User.mk (next_id User.id (users db)) n e password
                                           "default.jpg" (Some "") None now]).
Proof.
  unfold insert_user.
  destruct username as [n |]; [| discriminate].
  destruct email as [e |]; [| discriminate].
  destruct (existsb (by_username n) (users db)); [discriminate |].
  destruct (existsb (by_email e) (users db)); [discriminate |].
  intros H. inversion H. eauto.
Qed.

Lemma update_user_inv (db d : DB) (p : pending_user) :
  update_user db p = inr d ->
  exists n, d = set_users db (map (write_user p n) (users db)).
Proof.
  unfold update_user.
  destruct (p_username p) as [n |]; [| discriminate].
  destruct (existsb _ (users db)); [discriminate |].
  intros H. inversion H. eauto.
Qed.

Lemma insert_post_inv (db d : DB) (title content image : option string)
    (uid : nat) (now : datetime) :
  insert_post db title content image uid now = inr d ->
  exists t c,
    d = set_posts db (posts db ++ [Post.mk (next_id Post.id (posts db)) t c image
                                           now uid]).
Proof.
  unfold insert_post.
  destruct title as [t |]; [| discriminate].
  destruct content as [c |]; [| discriminate].
  intros H. inversion H. eauto.
Qed.

Lemma insert_like_inv (db d : DB) (uid pid : nat) (now : datetime) :
  insert_like db uid pid now = inr d ->
  d = set_likes db (likes db ++ [Like.mk (next_id Like.id (likes db)) uid pid now]).
Proof.
  unfold insert_like. destruct (existsb _ _); [discriminate |].
  intros H. now inversion H.
Qed.

Lemma insert_comment_inv (db d : DB) (content : option string) (uid pid : nat)
    (now : datetime) :
  insert_comment db content uid pid now = inr d ->
  exists c,
    d = set_comments db
          (comments db ++ [Comment.mk (next_id Comment.id (comments db)) c now
                                      uid pid]).
Proof.
  unfold insert_comment. destruct content as [c |]; [| discriminate].
  intros H. inversion H. eauto.
Qed.

Lemma insert_follow_inv (db d : DB) (a b : nat) (now : datetime) :
  insert_follow db a b now = inr d ->
  d = set_follows db
        (follows db ++ [Follow.mk (next_id Follow.id (follows db)) a b now]).
Proof.
  unfold insert_follow. destruct (existsb _ _); [discriminate |].
  intros H. now inversion H.
Qed.

(* Replace the result of a flush by the table it has written. *)
Ltac invert_writes :=
  repeat match goal with
         | H : insert_user _ _ _ _ _ = inr _ |- _ =>
             apply insert_user_inv in H; destruct H as (? & ? & _ & _ & ->)
         | H : update_user _ _ = inr _ |- _ =>
             apply update_user_inv in H; destruct H as (? & ->)
         | H : insert_post _ _ _ _ _ _ = inr _ |- _ =>
             apply insert_post_inv in H; destruct H as (? & ? & ->)
         | H : insert_like _ _ _ _ = inr _ |- _ =>
             apply insert_like_inv in H; rewrite H in *; clear H
         | H : insert_comment _ _ _ _ _ = inr _ |- _ =>
             apply insert_comment_inv in H; destruct H as (? & ->)
         | H : insert_follow _ _ _ _ = inr _ |- _ =>
             apply insert_follow_inv in H; rewrite H in *; clear H
         end.

Ltac unfold_views :=
  unfold initialize_database, register, update_profile, new_post, delete_post,
         like_post, add_comment, follow_user, unfollow_user, home, api_feed,
         login_required.

(* The tables a request does not touch, and the rows it cannot lose. *)
Lemma handle_keeps_rows (db : DB) (a : action) :
  (forall p, (forall s k, a <> DeletePost s k) ->
             In p (posts db) -> In p (posts (fst (handle db a)))) /\
  (forall l, (forall s k, a <> DeletePost s k) ->
             (forall s t k, a <> LikePost s t k) ->
             In l (likes db) -> In l (likes (fst (handle db a)))) /\
  (forall c, (forall s k, a <> DeletePost s k) ->
             In c (comments db) -> In c (comments (fst (handle db a)))) /\
  (forall f, (forall s n, a <> UnfollowUser s n) ->
             In f (follows db) -> In f (follows (fst (handle db a)))).
Proof.
  refine (conj _ (conj _ (conj _ _)));
    intros x; destruct a; intros; simpl;
    try (exfalso; match goal with H : forall _ _, _ <> _ |- _ =>
                                    now eapply H end);
    try (exfalso; match goal with H : forall _ _ _, _ <> _ |- _ =>
                                    now eapply H end);
    unfold_views; view_cases; invert_writes; simpl;
    try assumption; try (apply in_or_app; now left).
Qed.

Lemma delete_post_inv (db : DB) (session : option nat) (post_id : nat) :
  fst (delete_post db session post_id) = db \/
  exists cu post,
    current_user db session = Some cu /\
    get Post.id (posts db) post_id = Some post /\
    Post.user_id post = User.id cu /\
    fst (delete_post db session post_id) = delete_post_cascade db post.
Proof.
  unfold delete_post, login_required.
  destruct (current_user db session) as [cu |] eqn:Hcu; [| now left].
  destruct (get Post.id (posts db) post_id) as [post |] eqn:Hpost; [| now left].
  unfold author.
  destruct (get User.id (users db) (Post.user_id post)) as [a |] eqn:Ha;
    [| now left].
  destruct (user_eq a cu) eqn:Heq; simpl; [| now left].
  right. exists cu, post. repeat split; auto.
  destruct (get_some _ _ _ _ _ Ha) as [_ Hid].
  unfold user_eq in Heq. apply Nat.eqb_eq in Heq. congruence.
Qed.

Lemma unfollow_user_inv (db : DB) (session : option nat) (username : string) :
  fst (unfollow_user db session username) = db \/
  exists cu user follow,
    current_user db session = Some cu /\
    first (by_username username) (users db) = Some user /\
    In follow (follows db) /\
    Follow.key follow = (User.id cu, User.id user) /\
    fst (unfollow_user db session username) =
    set_follows db (delete Follow.id (follows db) (Follow.id follow)).
Proof.
  unfold unfollow_user, login_required.
  destruct (current_user db session) as [cu |] eqn:Hcu; [| now left].
  destruct (first (by_username username) (users db)) as [user |] eqn:Hu;
    [| now left].
  destruct (first (edge (User.id cu) (User.id user)) (follows db))
    as [follow |] eqn:Hf; [| now left].
  right. exists cu, user, follow.
  unfold first in Hf. apply find_some in Hf. destruct Hf as [Hin He].
  apply edge_key in He. auto 6.
Qed.

Lemma like_post_inv (db : DB) (session : option nat) (now : datetime)
    (post_id : nat) :
  (forall l, In l (likes db) ->
             In l (likes (fst (like_post db session now post_id)))) \/
  exists cu like,
    current_user db session = Some cu /\
    In like (likes db) /\
    Like.key like = (User.id cu, post_id) /\
    fst (like_post db session now post_id) = delete_like db like.
Proof.
  unfold like_post, login_required.
  destruct (current_user db session) as [cu |] eqn:Hcu; [| now left].
  destruct (get Post.id (posts db) post_id) as [post |]; [| now left].
  destruct (first (like_by (User.id cu) post_id) (likes db)) as [like |] eqn:Hf.
  - right. exists cu, like.
    unfold first in Hf. apply find_some in Hf. destruct Hf as [Hin Hk].
    apply like_by_key in Hk. auto.
  - left. intros l Hl. unfold insert_like.
    destruct (existsb _ _); simpl; [assumption |].
    apply in_or_app. now left.
Qed.

(** X24: in a database that satisfies the schema, a request makes a row
    disappear only in these ways: a post, by the delete request of its
    owner; a Follow row, by the unfollow request of its follower for its
    target; a like, by the like-toggle of its own user on its post or by the
    owner of that post deleting the post; a comment, only by the owner of
    its post deleting the post. *)
Theorem rows_disappear_only_by_right (db : DB) (a : action) :
  schema_ok db ->
  let db' := fst (handle db a) in
  (forall p, In p (posts db) -> ~ In p (posts db') ->
     exists session cu,
       a = DeletePost session (Post.id p) /\
       current_user db session = Some cu /\
       Post.user_id p = User.id cu) /\
  (forall f, In f (follows db) -> ~ In f (follows db') ->
     exists session cu username user,
       a = UnfollowUser session username /\
       current_user db session = Some cu /\
       first (by_username username) (users db) = Some user /\
       Follow.follower_id f = User.id cu /\
       Follow.followed_id f = User.id user) /\
  (forall l, In l (likes db) -> ~ In l (likes db') ->
     (exists session now cu,
        a = LikePost session now (Like.post_id l) /\
        current_user db session = Some cu /\
        Like.user_id l = User.id cu) \/
     (exists session cu post,
        a = DeletePost session (Like.post_id l) /\
        current_user db session = Some cu /\
        get Post.id (posts db) (Like.post_id l) = Some post /\
        Post.user_id post = User.id cu)) /\
  (forall c, In c (comments db) -> ~ In c (comments db') ->
     exists session cu post,
       a = DeletePost session (Comment.post_id c) /\
       current_user db session = Some cu /\
       get Post.id (posts db) (Comment.post_id c) = Some post /\
       Post.user_id post = User.id cu).
Proof.
  intros Hok db'.
  destruct (handle_keeps_rows db a) as (Kp & Kl & Kc & Kf). fold db' in Kp, Kl, Kc, Kf.
  refine (conj _ (conj _ (conj _ _))).
  - intros p Hin Hgone.
    destruct a;
      try (exfalso; apply Hgone; apply Kp; [intros; discriminate | assumption]).
    subst db'. simpl in Hgone.
    destruct (delete_post_inv db session post_id)
      as [Hsame | (cu & post & Hcu & Hpost & Howner & Hdel)].
    + rewrite Hsame in Hgone. contradiction.
    + rewrite Hdel in Hgone. simpl in Hgone. rewrite in_delete in Hgone.
      destruct (get_some _ _ _ _ _ Hpost) as [Hpin Hpid].
      assert (Hid : Post.id p = Post.id post).
      { destruct (Nat.eq_dec (Post.id p) (Post.id post)); [assumption |].
        exfalso. apply Hgone. auto. }
      assert (p = post)
        by (apply (NoDup_key_inj _ _ Post.id (posts db)); auto using posts_pk).
      subst p. exists session, cu. rewrite Hpid. auto.
  - intros f Hin Hgone.
    destruct a;
      try (exfalso; apply Hgone; apply Kf; [intros; discriminate | assumption]).
    subst db'. simpl in Hgone.
    destruct (unfollow_user_inv db session username)
      as [Hsame | (cu & user & follow & Hcu & Huser & Hfin & Hkey & Hdel)].
    + rewrite Hsame in Hgone. contradiction.
    + rewrite Hdel in Hgone. simpl in Hgone. rewrite in_delete in Hgone.
      assert (Hid : Follow.id f = Follow.id follow).
      { destruct (Nat.eq_dec (Follow.id f) (Follow.id follow)); [assumption |].
        exfalso. apply Hgone. auto. }
      assert (f = follow)
        by (apply (NoDup_key_inj _ _ Follow.id (follows db)); auto using follows_pk).
      subst f. unfold Follow.key in Hkey. inversion Hkey.
      exists session, cu, username, user. auto 6.
  - intros l Hin Hgone.
    destruct a;
      try (exfalso; apply Hgone; apply Kl;
           [intros; discriminate | intros; discriminate | assumption]).
    + (* DeletePost *)
      right. subst db'. simpl in Hgone.
      destruct (delete_post_inv db session post_id)
        as [Hsame | (cu & post & Hcu & Hpost & Howner & Hdel)].
      * rewrite Hsame in Hgone. contradiction.
      * rewrite Hdel in Hgone. simpl in Hgone.
        rewrite filter_In, negb_true_iff, Nat.eqb_neq in Hgone.
        destruct (get_some _ _ _ _ _ Hpost) as [Hpin Hpid].
        assert (Hid : Like.post_id l = post_id).
        { destruct (Nat.eq_dec (Like.post_id l) (Post.id post)); [congruence |].
          exfalso. apply Hgone. auto. }
        exists session, cu, post. rewrite Hid. auto.
    + (* LikePost *)
      left. subst db'. simpl in Hgone.
      destruct (like_post_inv db session now post_id)
        as [Hkept | (cu & like & Hcu & Hlin & Hkey & Hdel)].
      * exfalso. apply Hgone. now apply Hkept.
      * rewrite Hdel in Hgone. simpl in Hgone. rewrite in_delete in Hgone.
        assert (Hid : Like.id l = Like.id like).
        { destruct (Nat.eq_dec (Like.id l) (Like.id like)); [assumption |].
          exfalso. apply Hgone. auto. }
        assert (l = like)
          by (apply (NoDup_key_inj _ _ Like.id (likes db)); auto using likes_pk).
        subst l. unfold Like.key in Hkey. inversion Hkey.
        exists session, now, cu. auto.
  - intros c Hin Hgone.
    destruct a;
      try (exfalso; apply Hgone; apply Kc; [intros; discriminate | assumption]).
    subst db'. simpl in Hgone.
    destruct (delete_post_inv db session post_id)
      as [Hsame | (cu & post & Hcu & Hpost & Howner & Hdel)].
    + rewrite Hsame in Hgone. contradiction.
    + rewrite Hdel in Hgone. simpl in Hgone.
      rewrite filter_In, negb_true_iff, Nat.eqb_neq in Hgone.
      destruct (get_some _ _ _ _ _ Hpost) as [Hpin Hpid].
      assert (Hid : Comment.post_id c = post_id).
      { destruct (Nat.eq_dec (Comment.post_id c) (Post.id post)); [congruence |].
        exfalso. apply Hgone. auto. }
      exists session, cu, post. rewrite Hid. auto.
Qed.

Lemma rows_disappear_only_by_right_witness :
  schema_ok sample_db_liked /\
  ~ In hello (posts (fst (handle sample_db_liked (DeletePost (Some 1) 1)))) /\
  exists session cu,
    DeletePost (Some 1) 1 = DeletePost session (Post.id hello) /\
    current_user sample_db_liked session = Some cu /\
    Post.user_id hello = User.id cu.
Proof.
  assert (Hgone : ~ In hello
            (posts (fst (handle sample_db_liked (DeletePost (Some 1) 1)))))
    by (simpl; tauto).
  refine (conj sample_db_liked_ok (conj Hgone _)).
  exact (proj1 (rows_disappear_only_by_right sample_db_liked
                  (DeletePost (Some 1) 1) sample_db_liked_ok)
               hello (or_introl eq_refl) Hgone).
Defined.

Ltac old_row :=
  repeat match goal with
         | H : In _ (delete _ _ _) |- _ => apply in_delete in H; destruct H
         | H : In _ (filter _ _) |- _ => apply filter_In in H; destruct H
         end;
  try assumption.

(* The tables a request cannot add to. *)
Lemma handle_adds_rows (db : DB) (a : action) :
  (forall p, (forall s r, a <> NewPost s r) ->
             In p (posts (fst (handle db a))) -> In p (posts db)) /\
  (forall l, (forall s t k, a <> LikePost s t k) ->
             In l (likes (fst (handle db a))) -> In l (likes db)) /\
  (forall c, (forall s t k v, a <> AddComment s t k v) ->
             In c (comments (fst (handle db a))) -> In c (comments db)) /\
  (forall f, (forall s t n, a <> FollowUser s t n) ->
             In f (follows (fst (handle db a))) -> In f (follows db)) /\
  (forall u, (forall s r, a <> Register s r) ->
             (forall t d, a <> Initialize t d) ->
             (forall s r, a <> UpdateProfile s r) ->
             In u (users (fst (handle db a))) -> In u (users db)).
Proof.
  refine (conj _ (conj _ (conj _ (conj _ _))));
    intros x; destruct a; intros;
    try (exfalso; match goal with H : forall _ _, _ <> _ |- _ =>
                                    now eapply H end);
    try (exfalso; match goal with H : forall _ _ _, _ <> _ |- _ =>
                                    now eapply H end);
    try (exfalso; match goal with H : forall _ _ _ _, _ <> _ |- _ =>
                                    now eapply H end);
    match goal with H : In _ _ |- _ => revert H end;
    simpl; unfold_views; view_cases; invert_writes; simpl;
    intros; old_row.
Qed.

Lemma new_post_adds (db : DB) (session : option nat) (req : request) (p : Post.t) :
  In p (posts (fst (new_post db session req))) ->
  In p (posts db) \/
  exists cu, current_user db session = Some cu /\
             Post.user_id p = User.id cu /\ Post.created_at p = utcnow req.
Proof.
  unfold new_post, login_required.
  destruct (current_user db session) as [cu |]; [| now left].
  view_cases; try (now left).
  invert_writes. simpl. intros Hin.
  apply in_app_or in Hin. destruct Hin as [Hin | [<- | []]]; [now left |].
  right. exists cu. auto.
Qed.

Lemma like_post_adds (db : DB) (session : option nat) (now : datetime)
    (post_id : nat) (l : Like.t) :
  In l (likes (fst (like_post db session now post_id))) ->
  In l (likes db) \/
  exists cu, current_user db session = Some cu /\
             Like.user_id l = User.id cu /\ Like.post_id l = post_id.
Proof.
  unfold like_post, login_required.
  destruct (current_user db session) as [cu |]; [| now left].
  view_cases; try (now left).
  - simpl. intros Hin. apply in_delete in Hin. left. tauto.
  - invert_writes. simpl. intros Hin.
    apply in_app_or in Hin. destruct Hin as [Hin | [<- | []]]; [now left |].
    right. exists cu. auto.
Qed.

Lemma add_comment_adds (db : DB) (session : option nat) (now : datetime)
    (post_id : nat) (content : option string) (c : Comment.t) :
  In c (comments (fst (add_comment db session now post_id content))) ->
  In c (comments db) \/
  exists cu, current_user db session = Some cu /\
             Comment.user_id c = User.id cu /\ Comment.post_id c = post_id.
Proof.
  unfold add_comment, login_required.
  destruct (current_user db session) as [cu |]; [| now left].
  view_cases; try (now left).
  invert_writes. simpl. intros Hin.
  apply in_app_or in Hin. destruct Hin as [Hin | [<- | []]]; [now left |].
  right. exists cu. auto.
Qed.

Lemma follow_user_adds (db : DB) (session : option nat) (now : datetime)
    (username : string) (f : Follow.t) :
  In f (follows (fst (follow_user db session now username))) ->
  In f (follows db) \/
  exists cu user,
    current_user db session = Some cu /\
    first (by_username username) (users db) = Some user /\
    Follow.follower_id f = User.id cu /\ Follow.followed_id f = User.id user.
Proof.
  unfold follow_user, login_required.
  destruct (current_user db session) as [cu |]; [| now left].
  destruct (first (by_username username) (users db)) as [user |]; [| now left].
  view_cases; try (now left).
  invert_writes. simpl. intros Hin.
  apply in_app_or in Hin. destruct Hin as [Hin | [<- | []]]; [now left |].
  right. exists cu, user. auto.
Qed.

Lemma update_profile_adds (db : DB) (session : option nat) (req : request)
    (u : User.t) :
  In u (users (fst (update_profile db session req))) ->
  In u (users db) \/
  exists cu, current_user db session = Some cu /\ User.id u = User.id cu.
Proof.
  unfold update_profile, login_required.
  destruct (current_user db session) as [cu |]; [| now left].
  view_cases; try (now left).
  invert_writes. simpl. intros Hin.
  apply in_map_iff in Hin. destruct Hin as [u0 [Hw Hin]].
  unfold write_user in Hw.
  destruct (assign_picture_fields (assign_profile cu req) o) as [Hid _].
  simpl in Hid. rewrite Hid in Hw.
  destruct (User.id u0 =? User.id cu) eqn:He.
  - right. exists cu. split; [reflexivity |]. subst u. simpl.
    now apply Nat.eqb_eq.
  - left. now subst u.
Qed.

(** X25: the rows a request adds are written in the name of the user of its
    session: a new post by [new_post] with that user as owner and the time
    of the request, a new like by [like_post], a new comment by
    [add_comment], a new Follow row by [follow_user] from that user to the
    account named in the request; and a user row that was not there before
    comes from a registration, from the start-up, or is the own row of the
    user who sent a profile update. *)
Theorem rows_appear_in_the_name_of_the_session (db : DB) (a : action) :
  let db' := fst (handle db a) in
  (forall p, In p (posts db') -> ~ In p (posts db) ->
     exists session req cu,
       a = NewPost session req /\ current_user db session = Some cu /\
       Post.user_id p = User.id cu /\ Post.created_at p = utcnow req) /\
  (forall l, In l (likes db') -> ~ In l (likes db) ->
     exists session now cu,
       a = LikePost session now (Like.post_id l) /\
       current_user db session = Some cu /\ Like.user_id l = User.id cu) /\
  (forall c, In c (comments db') -> ~ In c (comments db) ->
     exists session now content cu,
       a = AddComment session now (Comment.post_id c) content /\
       current_user db session = Some cu /\ Comment.user_id c = User.id cu) /\
  (forall f, In f (follows db') -> ~ In f (follows db) ->
     exists session now username cu user,
       a = FollowUser session now username /\
       current_user db session = Some cu /\
       first (by_username username) (users db) = Some user /\
       Follow.follower_id f = User.id cu /\ Follow.followed_id f = User.id user) /\
  (forall u, In u (users db') -> ~ In u (users db) ->
     (exists session req, a = Register session req) \/
     (exists now digest, a = Initialize now digest) \/
     (exists session req cu,
        a = UpdateProfile session req /\ current_user db session = Some cu /\
        User.id u = User.id cu)).
Proof.
  intros db'.
  destruct (handle_adds_rows db a) as (Ap & Al & Ac & Af & Au).
  fold db' in Ap, Al, Ac, Af, Au.
  refine (conj _ (conj _ (conj _ (conj _ _)))).
  - intros p Hin Hnew.
    destruct a;
      try (exfalso; apply Hnew; apply Ap; [intros; discriminate | assumption]).
    subst db'. simpl in Hin. apply new_post_adds in Hin.
    destruct Hin as [Hold | (cu & Hcu & Hu & Ht)]; [contradiction |].
    exists session, req, cu. auto.
  - intros l Hin Hnew.
    destruct a;
      try (exfalso; apply Hnew; apply Al; [intros; discriminate | assumption]).
    subst db'. simpl in Hin. apply like_post_adds in Hin.
    destruct Hin as [Hold | (cu & Hcu & Hu & Hp)]; [contradiction |].
    exists session, now, cu. rewrite Hp. auto.
  - intros c Hin Hnew.
    destruct a;
      try (exfalso; apply Hnew; apply Ac; [intros; discriminate | assumption]).
    subst db'. simpl in Hin. apply add_comment_adds in Hin.
    destruct Hin as [Hold | (cu & Hcu & Hu & Hp)]; [contradiction |].
    exists session, now, content, cu. rewrite Hp. auto.
  - intros f Hin Hnew.
    destruct a;
      try (exfalso; apply Hnew; apply Af; [intros; discriminate | assumption]).
    subst db'. simpl in Hin. apply follow_user_adds in Hin.
    destruct Hin as [Hold | (cu & user & Hcu & Huser & Ha & Hb)]; [contradiction |].
    exists session, now, username, cu, user. auto 6.
  - intros u Hin Hnew.
    destruct a;
      try (exfalso; apply Hnew; apply Au;
           [intros; discriminate | intros; discriminate | intros; discriminate
           | assumption]).
    + right. left. eauto.
    + left. eauto.
    + right. right. subst db'. simpl in Hin. apply update_profile_adds in Hin.
      destruct Hin as [Hold | (cu & Hcu & Hid)]; [contradiction |].
      exists session, req, cu. auto.
Qed.

(** X26: no request deletes an account or touches its id, email, password
    or creation time: every user row of the database before a request has,
    after it, a row with the same id, email, password and creation time. *)
Theorem accounts_persist (db : DB) (a : action) (u : User.t) :
  In u (users db) ->
  exists u', In u' (users (fst (handle db a))) /\
             User.id u' = User.id u /\ User.email u' = User.email u /\
             User.password u' = User.password u /\
             User.created_at u' = User.created_at u.
Proof.
  intros Hin.
  destruct (handle_write db a); simpl;
    try (exists u; repeat split; assumption).
  - exists u. repeat split; auto. apply in_or_app. now left.
  - exists (write_user p n u). split; [now apply in_map |].
    unfold write_user. destruct (User.id u =? p_id p); auto.
Qed.

Lemma accounts_persist_witness :
  In alice (users sample_db) /\
  exists u', In u' (users (fst (handle sample_db
                                  (UpdateProfile (Some 1)
                                     (post_request [("username", "al")]))))) /\
             User.id u' = 1 /\ User.email u' = "a@x.com" /\
             User.password u' = "$2b$12$a" /\ User.created_at u' = 100%Z.
Proof.
  assert (Hin : In alice (users sample_db)) by now left.
  exact (conj Hin (accounts_persist sample_db
                     (UpdateProfile (Some 1) (post_request [("username", "al")]))
                     alice Hin)).
Defined.
